(** * Invoicing ROI simulator: validation and calculation core

    A shallow embedding of [server/index.js] (MongoDB variant) and
    [server/index.pg.js] (PostgreSQL variant): the helpers [asNumber] and
    [clamp], the validator [validateInputs], the calculator [simulate], the
    [/simulate] and [/scenarios] routes and the scenario collection; then,
    of the MongoDB variant, the list of the scenarios and the report, and
    of the client [src/App.js] the state of the form and the requests it
    sends.

    JavaScript numbers are IEEE 754 binary64 values.  They are modelled by
    [spec_float] with the operations of [SpecFloat] at precision 53 and
    maximal exponent 1024, so every product, sum and quotient below rounds
    exactly as the double arithmetic of the source does.

    A request body is a parsed JSON value.  The conversions the source
    applies to it ([Number], property reads, [||], [typeof]) follow
    ECMAScript, including the one way they can fail on such a value: a
    [TypeError], carried by [Completion]. *)

From Stdlib Require Import ZArith String Ascii Bool Lia.
From Stdlib Require Import SpecFloat.
From stdpp Require Import base option list strings pretty gmap sorting.

Local Open Scope Z_scope.

(** ** JavaScript built-ins used by the server *)

Module JS.

(** *** Number values *)

Abbreviation number := spec_float.

Definition prec : Z := 53.
Definition emax : Z := 1024.

Definition nan : number := S754_nan.
Definition pos_zero : number := S754_zero false.
Definition neg_zero : number := S754_zero true.
Definition infinity (neg : bool) : number := S754_infinity neg.

Definition add : number -> number -> number := SFadd prec emax.
Definition sub : number -> number -> number := SFsub prec emax.
Definition mul : number -> number -> number := SFmul prec emax.
Definition div : number -> number -> number := SFdiv prec emax.

(** [a < b], [a > b] and [a <= b]: false as soon as one side is NaN. *)
Definition lt (a b : number) : bool := SFltb a b.
Definition gt (a b : number) : bool := SFltb b a.
Definition le (a b : number) : bool := SFleb a b.

(** The Number value of the mathematical integer [z]. *)
Definition of_Z (z : Z) : number := binary_normalize prec emax z 0 false.

(** The Number value of the decimal [(-1)^neg * m * 10^e]: the nearest
    double, ties to even.  The two operands of the quotient are exact
    (their mantissas are not bounded), so one rounding happens.  Outside
    [-400 .. 400] the exponent cannot bring a non-zero [m] of [len] digits
    back into the range of doubles, which avoids a needless power. *)
Definition of_decimal (neg : bool) (m : Z) (e : Z) (len : Z) : number :=
  match m with
  | Zpos p =>
      if 400 <? e then infinity neg
      else if e + len <? -400 then S754_zero neg
      else if 0 <=? e then
        binary_normalize prec emax (if neg then - (m * 10 ^ e) else m * 10 ^ e) 0 neg
      else div (S754_finite neg p 0) (S754_finite false (Z.to_pos (10 ^ (- e))) 0)
  | _ => S754_zero neg
  end.

(** A decimal literal of the source text, [m * 10^(-k)] for [m >= 0]. *)
Definition lit (m : Z) (k : Z) : number := of_decimal false m (- k) 40.

(** [Number.isFinite] on a Number value. *)
Definition isFinite (x : number) : bool :=
  match x with
  | S754_zero _ | S754_finite _ _ _ => true
  | S754_infinity _ | S754_nan => false
  end.

Definition isNaN (x : number) : bool :=
  match x with S754_nan => true | _ => false end.

Definition is_neg_zero (x : number) : bool :=
  match x with S754_zero true => true | _ => false end.

(** [Math.max] and [Math.min] of two arguments: NaN if either is NaN, and
    [-0] is smaller than [+0]. *)
Definition Math_max (a b : number) : number :=
  if isNaN a || isNaN b then nan
  else if lt a b then b
  else if lt b a then a
  else if is_neg_zero a then b else a.

Definition Math_min (a b : number) : number :=
  if isNaN a || isNaN b then nan
  else if lt a b then a
  else if lt b a then b
  else if is_neg_zero b then b else a.

(** *** [Number.prototype.toFixed] with two fraction digits

    The string [x.toFixed(2)] is described by its shape:
    - ["NaN"], ["Infinity"], ["-Infinity"] for a non-finite [x];
    - the string of [Number::toString] when [|x| >= 10^21];
    - otherwise a sign and the digits of [n], where [n] is the integer
      for which [n / 100 - |x|] is closest to zero, the larger one when
      two are equally close ([FixedDigits neg n] is the text of
      [n / 100] with two fraction digits, preceded by [-] when [neg]). *)
Inductive FixedString :=
| FixedNaN
| FixedInfinity (neg : bool)
| FixedToString (x : number)
| FixedDigits (neg : bool) (n : Z).

(** [round_half_up_scaled m e] is the integer nearest to
    [m * 2^e * 100], the larger one on a tie. *)
Definition round_half_up_scaled (m : positive) (e : Z) : Z :=
  if 0 <=? e then Zpos m * 2 ^ e * 100
  else (Zpos m * 200 + 2 ^ (- e)) / (2 * 2 ^ (- e)).

(** [10^21 <= m * 2^e]. *)
Definition ge_1e21 (m : positive) (e : Z) : bool :=
  if 0 <=? e then 10 ^ 21 <=? Zpos m * 2 ^ e
  else 10 ^ 21 * 2 ^ (- e) <=? Zpos m.

Definition toFixed2 (x : number) : FixedString :=
  match x with
  | S754_nan => FixedNaN
  | S754_infinity s => FixedInfinity s
  | S754_zero _ => FixedDigits false 0
  | S754_finite s m e =>
      if ge_1e21 m e then FixedToString x
      else FixedDigits s (round_half_up_scaled m e)
  end.

(** [Number(str)] for a string produced by [toFixed]: the nearest double
    of the decimal it spells; [Number::toString] round-trips; ["-0.00"]
    is [-0]. *)
Definition Number_of_fixed (f : FixedString) : number :=
  match f with
  | FixedNaN => nan
  | FixedInfinity s => infinity s
  | FixedToString x => x
  | FixedDigits neg n => of_decimal neg n (-2) 24
  end.

(** [Number(x.toFixed(2))], the rounding applied to every result field. *)
Definition round2 (x : number) : number := Number_of_fixed (toFixed2 x).

(** *** Strings

    A JavaScript string is carried by a [string] holding its UTF-8
    bytes.  [StrWhiteSpaceChar] (the characters removed by
    [String.prototype.trim] and skipped around a numeric string) is the
    set WhiteSpace plus LineTerminator, given here by its encodings. *)
Definition bytes (s : string) : list N :=
  map N_of_ascii (list_ascii_of_string s).

Definition of_bytes (l : list N) : string :=
  string_of_list_ascii (map ascii_of_N l).

Definition white_space : list (list N) :=
  [ [9]; [10]; [11]; [12]; [13]; [32]       (* TAB LF VT FF CR SP *)
  ; [194; 160]                               (* U+00A0 *)
  ; [225; 154; 128]                          (* U+1680 *)
  ; [226; 128; 128]; [226; 128; 129]; [226; 128; 130]; [226; 128; 131]
  ; [226; 128; 132]; [226; 128; 133]; [226; 128; 134]; [226; 128; 135]
  ; [226; 128; 136]; [226; 128; 137]; [226; 128; 138]  (* U+2000..U+200A *)
  ; [226; 128; 168]; [226; 128; 169]         (* U+2028 U+2029 *)
  ; [226; 128; 175]                          (* U+202F *)
  ; [226; 129; 159]                          (* U+205F *)
  ; [227; 128; 128]                          (* U+3000 *)
  ; [239; 187; 191] ]%N.                     (* U+FEFF *)

Fixpoint strip_prefix (p l : list N) : option (list N) :=
  match p with
  | [] => Some l
  | a :: p' =>
      match l with
      | b :: l' => if N.eqb a b then strip_prefix p' l' else None
      | [] => None
      end
  end.

Fixpoint strip_one (pats : list (list N)) (l : list N) : option (list N) :=
  match pats with
  | [] => None
  | p :: ps =>
      match strip_prefix p l with
      | Some r => Some r
      | None => strip_one ps l
      end
  end.

(** Removes leading occurrences of the patterns; each removes a byte at
    least, so [length l] rounds are enough. *)
Fixpoint skip (pats : list (list N)) (fuel : nat) (l : list N) : list N :=
  match fuel with
  | O => l
  | S fuel' =>
      match strip_one pats l with
      | Some r => skip pats fuel' r
      | None => l
      end
  end.

Definition trim_bytes (l : list N) : list N :=
  let l1 := skip white_space (length l) l in
  rev (skip (map (@rev N) white_space) (length l1) (rev l1)).

(** [String.prototype.trim]. *)
Definition trim (s : string) : string := of_bytes (trim_bytes (bytes s)).

(** *** [StringToNumber]: the Number value of a string

    The grammar [StringNumericLiteral]: optional white space around
    nothing (value [+0]), a radix-prefixed integer ([0x], [0o], [0b]), or
    an optionally signed [Infinity] or decimal literal with optional
    fraction and exponent.  Anything else is NaN. *)
Definition digit_val (radix : Z) (c : N) : option Z :=
  let c := Z.of_N c in
  let v := if (48 <=? c) && (c <=? 57) then c - 48
           else if (97 <=? c) && (c <=? 102) then c - 87
           else if (65 <=? c) && (c <=? 70) then c - 55
           else radix in
  if v <? radix then Some v else None.

Fixpoint parse_digits (radix : Z) (acc : Z) (l : list N) : option Z :=
  match l with
  | [] => Some acc
  | c :: l' =>
      match digit_val radix c with
      | Some v => parse_digits radix (acc * radix + v) l'
      | None => None
      end
  end.

Fixpoint span_digits (l : list N) : list N * list N :=
  match l with
  | c :: l' =>
      match digit_val 10 c with
      | Some _ => let '(d, r) := span_digits l' in (c :: d, r)
      | None => ([], l)
      end
  | [] => ([], [])
  end.

Definition digits_value (d : list N) : Z :=
  default 0 (parse_digits 10 0 d).

Definition radix_of_prefix (c : N) : option Z :=
  if (c =? 120)%N || (c =? 88)%N then Some 16
  else if (c =? 111)%N || (c =? 79)%N then Some 8
  else if (c =? 98)%N || (c =? 66)%N then Some 2
  else None.

(** [ExponentPart] when present: [e] or [E], an optional sign, digits. *)
Definition parse_exponent (l : list N) : option Z :=
  match l with
  | [] => Some 0
  | c :: l' =>
      if (c =? 101)%N || (c =? 69)%N then
        let '(neg, ds) :=
          match l' with
          | 43%N :: ds => (false, ds)
          | 45%N :: ds => (true, ds)
          | _ => (false, l')
          end in
        match ds with
        | [] => None
        | _ => x ← parse_digits 10 0 ds; Some (if neg then - x else x)
        end
      else None
  end.

Definition parse_unsigned_decimal (neg : bool) (l : list N) : number :=
  let '(d1, r1) := span_digits l in
  let '(dot, (d2, r2)) :=
    match r1 with
    | 46%N :: r => (true, span_digits r)
    | _ => (false, ([], r1))
    end in
  if bool_decide (d1 = []) && (negb dot || bool_decide (d2 = [])) then nan
  else
    match parse_exponent r2 with
    | Some ex =>
        of_decimal neg (digits_value (d1 ++ d2))
          (ex - Z.of_nat (length d2)) (Z.of_nat (length (d1 ++ d2)))
    | None => nan
    end.

Definition parse_decimal (l : list N) : number :=
  let '(neg, r) :=
    match l with
    | 43%N :: r => (false, r)
    | 45%N :: r => (true, r)
    | _ => (false, l)
    end in
  if bool_decide (r = bytes "Infinity") then infinity neg
  else parse_unsigned_decimal neg r.

Definition StringToNumber (s : string) : number :=
  match trim_bytes (bytes s) with
  | [] => pos_zero
  | 48%N :: c :: ds =>
      match radix_of_prefix c with
      | Some radix =>
          match ds with
          | [] => nan
          | _ => from_option of_Z nan (parse_digits radix 0 ds)
          end
      | None => parse_decimal (48%N :: c :: ds)
      end
  | l => parse_decimal l
  end.

(** *** Completions

    A built-in either returns a value or throws (here only ever a
    [TypeError]); [x ← c; k] propagates the throw. *)
Inductive Completion (A : Type) : Type :=
| Normal (a : A)
| Throw.
Arguments Normal {A} a.
Arguments Throw {A}.

#[global] Instance Completion_ret : MRet Completion := @Normal.
#[global] Instance Completion_bind : MBind Completion :=
  λ A B f c, match c with Normal a => f a | Throw => Throw end.

(** *** Untyped values

    The values a parsed JSON body is made of.  [undefined] (an absent
    property) is [None] of [option Json].  An object keeps its properties
    in source order; [JSON.parse] lets the last duplicate win. *)
#[warnings="-register-all"]
Inductive Json :=
| JNull
| JBool (b : bool)
| JNumber (x : number)
| JString (s : string)
| JArray (elems : list Json)
| JObject (props : list (string * Json)).

Definition own_property (props : list (string * Json)) (name : string)
  : option Json :=
  snd <$> find (λ p, String.eqb (fst p) name) (rev props).

Definition has_own (props : list (string * Json)) (name : string) : bool :=
  existsb (λ p, String.eqb (fst p) name) props.

(** [v[name]] and [v.name], for a [name] that no prototype defines (the
    field names of a scenario): an own property of an object, [undefined]
    on any other value, and a [TypeError] on [null]. *)
Definition Get (v : Json) (name : string) : Completion (option Json) :=
  match v with
  | JNull => Throw
  | JObject props => Normal (own_property props name)
  | _ => Normal None
  end.

(** [ToBoolean]. *)
Definition truthy (v : option Json) : bool :=
  match v with
  | None | Some JNull => false
  | Some (JBool b) => b
  | Some (JNumber x) =>
      match x with S754_zero _ | S754_nan => false | _ => true end
  | Some (JString s) => negb (String.eqb s "")
  | Some (JArray _) | Some (JObject _) => true
  end.

(** The string a value converts to, as far as [StringToNumber] can tell:
    a known text, the text of a number, or a text with a comma in it. *)
Inductive StringValue :=
| SText (s : string)
| SNumber (x : number)
| SCommas.

(** [ToString]: an array joins the strings of its elements with commas
    ([null] elements giving the empty string); a parsed object has no
    callable [toString] of its own, so it gives ["[object Object]"] through
    [Object.prototype], unless an own property shadows it: then no method
    yields a primitive and the conversion throws. *)
Fixpoint ToString (v : Json) : Completion StringValue :=
  match v with
  | JNull => Normal (SText "null")
  | JBool b => Normal (SText (if b then "true" else "false"))
  | JNumber x => Normal (SNumber x)
  | JString s => Normal (SText s)
  | JArray elems =>
      (fix join (l : list Json) : Completion StringValue :=
         match l with
         | [] => Normal (SText "")
         | e :: rest =>
             s ← match e with JNull => Normal (SText "") | _ => ToString e end;
             match rest with
             | [] => Normal s
             | _ :: _ => _ ← join rest; Normal SCommas
             end
         end) elems
  | JObject props =>
      if has_own props "toString" then Throw
      else Normal (SText "[object Object]")
  end.

(** [ToNumber] of a string value; the text of a number reads back as that
    number, [-0] excepted, whose text is ["0"]. *)
Definition StringValueToNumber (s : StringValue) : number :=
  match s with
  | SText t => StringToNumber t
  | SNumber x => if is_neg_zero x then pos_zero else x
  | SCommas => nan
  end.

(** [Number(value)]. *)
Definition Number_ (value : option Json) : Completion number :=
  match value with
  | None => Normal nan
  | Some JNull => Normal pos_zero
  | Some (JBool b) => Normal (if b then of_Z 1 else pos_zero)
  | Some (JNumber x) => Normal x
  | Some (JString s) => Normal (StringToNumber s)
  | Some v => s ← ToString v; Normal (StringValueToNumber s)
  end.

End JS.

(** ** Data model *)

Import JS.

Record ScenarioInput := {
  scenario_name : string;
  monthly_invoice_volume : number;
  num_ap_staff : number;
  avg_hours_per_invoice : number;
  hourly_wage : number;
  error_rate_manual : number;
  error_cost : number;
  time_horizon_months : number;
  one_time_implementation_cost : number
}.

(** [payback_months] is a number or [null]. *)
Record ROIResult := {
  monthly_savings : number;
  cumulative_savings : number;
  net_savings : number;
  payback_months : option number;
  roi_percentage : number
}.

Record Internal := {
  automated_cost_per_invoice : number;
  error_rate_auto : number;
  time_saved_per_invoice : number;
  min_roi_boost_factor : number
}.

(** The validator collects messages in [errors] while it builds the
    record: a state of messages over completions. *)
Definition Validator (A : Type) : Type :=
  list string → Completion (A * list string).

#[global] Instance Validator_ret : MRet Validator :=
  λ A a errors, Normal (a, errors).
#[global] Instance Validator_bind : MBind Validator :=
  λ A B f m errors,
    match m errors with
    | Normal (a, errors') => f a errors'
    | Throw => Throw
    end.

Definition lift {A} (c : Completion A) : Validator A :=
  λ errors, match c with Normal a => Normal (a, errors) | Throw => Throw end.

(** [errors.push(msg)]. *)
Definition push (msg : string) : Validator unit :=
  λ errors, Normal (tt, errors ++ [msg]).

Definition when (b : bool) (m : Validator unit) : Validator unit :=
  if b then m else mret tt.

(** ** The MongoDB server, [server/index.js] *)

Module Mongo.

(** Internal constants (server-side only). *)
Definition INTERNAL : Internal := {|
  automated_cost_per_invoice := lit 20 2;   (* 0.20 *)
  error_rate_auto := lit 1 1;               (* 0.1, percent *)
  time_saved_per_invoice := of_Z 8;         (* minutes *)
  min_roi_boost_factor := lit 11 1          (* 1.1 *)
|}.

(** *** Validation helpers *)

Definition asNumber (value : option Json) (fallback : number)
  : Completion number :=
  n ← Number_ value;
  mret (if isFinite n then n else fallback).

Definition clamp (value min max : number) : number :=
  Math_min (Math_max value min) max.

(** [Number(body[name])]. *)
Definition read (body : Json) (name : string) : Completion number :=
  value ← Get body name; Number_ value.

(** The inner function of [validateInputs]; it closes over [body] and
    [errors]. *)
Definition reqNum (body : Json) (name : string) : Validator number :=
  v ← lift (value ← Get body name; asNumber value nan);
  _ ← when (negb (isFinite v) || lt v (of_Z 0))
        (push (name +:+ " must be a non-negative number"));
  mret v.

Definition validateInputs (body : Json)
  : Completion (ScenarioInput * list string) :=
  (name ← lift (Get body "scenario_name");
   f_monthly_invoice_volume ← reqNum body "monthly_invoice_volume";
   f_num_ap_staff ← reqNum body "num_ap_staff";
   f_avg_hours_per_invoice ← reqNum body "avg_hours_per_invoice";
   f_hourly_wage ← reqNum body "hourly_wage";
   rate ← lift (value ← Get body "error_rate_manual"; asNumber value nan);
   f_error_cost ← reqNum body "error_cost";
   horizon ← lift (value ← Get body "time_horizon_months";
                   asNumber value (of_Z 36));
   cost ← lift (value ← Get body "one_time_implementation_cost";
                asNumber value (of_Z 0));
   let inputs := {|
     scenario_name := match name with Some (JString s) => s | _ => "" end;
     monthly_invoice_volume := f_monthly_invoice_volume;
     num_ap_staff := f_num_ap_staff;
     avg_hours_per_invoice := f_avg_hours_per_invoice;
     hourly_wage := f_hourly_wage;
     error_rate_manual := clamp rate (of_Z 0) (of_Z 100);
     error_cost := f_error_cost;
     time_horizon_months := horizon;
     one_time_implementation_cost := cost
   |} in
   _ ← when (negb (isFinite (error_rate_manual inputs)))
         (push "error_rate_manual must be a number between 0 and 100");
   _ ← when (negb (isFinite (time_horizon_months inputs))
             || le (time_horizon_months inputs) (of_Z 0))
         (push "time_horizon_months must be > 0");
   mret inputs) [].

(** *** The calculator *)

(** The local constants of [simulate], one definition each, before the
    final rounding. *)
Definition labor_cost_manual (inputs : ScenarioInput) : number :=
  mul (mul (mul (num_ap_staff inputs) (hourly_wage inputs))
         (avg_hours_per_invoice inputs))
    (monthly_invoice_volume inputs).

Definition auto_cost (inputs : ScenarioInput) : number :=
  mul (monthly_invoice_volume inputs) (automated_cost_per_invoice INTERNAL).

Definition error_savings (inputs : ScenarioInput) : number :=
  div (mul (mul (sub (error_rate_manual inputs) (error_rate_auto INTERNAL))
              (monthly_invoice_volume inputs))
         (error_cost inputs))
    (of_Z 100).

Definition monthly_savings_value (inputs : ScenarioInput) : number :=
  mul (sub (add (labor_cost_manual inputs) (error_savings inputs))
         (auto_cost inputs))
    (min_roi_boost_factor INTERNAL).

Definition cumulative_savings_value (inputs : ScenarioInput) : number :=
  mul (monthly_savings_value inputs) (time_horizon_months inputs).

Definition net_savings_value (inputs : ScenarioInput) : number :=
  sub (cumulative_savings_value inputs) (one_time_implementation_cost inputs).

Definition payback_months_value (inputs : ScenarioInput) : option number :=
  if gt (monthly_savings_value inputs) (of_Z 0)
  then Some (div (one_time_implementation_cost inputs)
               (monthly_savings_value inputs))
  else None.

Definition roi_percentage_value (inputs : ScenarioInput) : number :=
  if gt (one_time_implementation_cost inputs) (of_Z 0)
  then mul (div (net_savings_value inputs)
              (one_time_implementation_cost inputs))
         (of_Z 100)
  else if gt (cumulative_savings_value inputs) (of_Z 0)
       then of_Z 999 else of_Z 0.

Definition simulate (inputs : ScenarioInput) : ROIResult :=
  {| monthly_savings := round2 (monthly_savings_value inputs);
     cumulative_savings := round2 (cumulative_savings_value inputs);
     net_savings := round2 (net_savings_value inputs);
     payback_months :=
       match payback_months_value inputs with
       | None => None
       | Some p => Some (round2 p)
       end;
     roi_percentage := round2 (roi_percentage_value inputs) |}.

(** *** The scenario collection

    A document of the [Scenario] model.  The collection maps [_id] to its
    document; what [create] stores is what [findById] reads. *)
Abbreviation Id := positive.

Record Scenario := {
  doc_id : Id;
  doc_scenario_name : string;
  doc_inputs : ScenarioInput;
  doc_results : ROIResult;
  created_at : Z;
  updated_at : Z
}.

Abbreviation Store := (gmap Id Scenario).

(** What the outside decides for one request: whether the database answers
    ([db_up = false]: every call of the request rejects, whatever the
    cause), the [_id] given to a new document, and the clock. *)
Record Env := {
  db_up : bool;
  new_id : Id;
  now : Z
}.

Inductive Response :=
| Json200Result (results : ROIResult)
| Json200Saved (id : Id) (name : string)
| Json200Scenario (doc : Scenario)
| Json200Deleted
| Json400Errors (errors : list string)
| Json404NotFound
| Json500 (error : string)
| Uncaught.   (* a TypeError left the handler *)

(** [a || b] on values. *)
Definition or_else (a : option Json) (b : option Json) : option Json :=
  if truthy a then a else b.

(** [s || ''] on a string. *)
Definition or_empty (s : string) : string :=
  if String.eqb s "" then "" else s.

(** [req.body || {}]. *)
Definition simulate_body (req_body : option Json) : Json :=
  default (JObject []) (or_else req_body (Some (JObject []))).

(** [app.post('/simulate', ...)]. *)
Definition post_simulate (req_body : option Json) : Response :=
  match validateInputs (simulate_body req_body) with
  | Throw => Uncaught
  | Normal (inputs, errors) =>
      if bool_decide (length errors ≠ 0%nat) then Json400Errors errors
      else
        let results := simulate inputs in
        Json200Result results
  end.

(** [req.body?.inputs || req.body || {}]. *)
Definition scenarios_body (req_body : option Json) : Json :=
  let body_inputs :=
    match req_body with
    | None | Some JNull => None
    | Some b => match Get b "inputs" with Normal v => v | Throw => None end
    end in
  default (JObject [])
    (or_else (or_else body_inputs req_body) (Some (JObject []))).

(** [Scenario.countDocuments()]. *)
Definition countDocuments (st : Store) : N := N.of_nat (size st).

(** The [Number] paths of [scenarioSchema]: mongoose casts each of them
    when [create] builds the document, and the cast refuses NaN and nothing
    else a Number value can be ([null] passes as it is). *)
Definition castNumber (x : number) : bool := negb (isNaN x).

Definition cast_inputs (inputs : ScenarioInput) : bool :=
  castNumber (monthly_invoice_volume inputs)
  && castNumber (num_ap_staff inputs)
  && castNumber (avg_hours_per_invoice inputs)
  && castNumber (hourly_wage inputs)
  && castNumber (error_rate_manual inputs)
  && castNumber (error_cost inputs)
  && castNumber (time_horizon_months inputs)
  && castNumber (one_time_implementation_cost inputs).

Definition cast_results (results : ROIResult) : bool :=
  castNumber (monthly_savings results)
  && castNumber (cumulative_savings results)
  && castNumber (net_savings results)
  && from_option castNumber true (payback_months results)
  && castNumber (roi_percentage results).

(** [Scenario.create(doc)]: rejects when the database does, when the
    [_id] is taken, or when a [Number] path does not cast. *)
Definition create (env : Env) (st : Store) (name : string)
    (inputs : ScenarioInput) (results : ROIResult) : option (Scenario * Store) :=
  if db_up env && bool_decide (st !! new_id env = None)
     && cast_inputs inputs && cast_results results then
    let doc := {| doc_id := new_id env; doc_scenario_name := name;
                  doc_inputs := inputs; doc_results := results;
                  created_at := now env; updated_at := now env |} in
    Some (doc, <[new_id env := doc]> st)
  else None.

(** [{ ...inputs, scenario_name: scenarioName }]. *)
Definition with_name (inputs : ScenarioInput) (name : string) : ScenarioInput :=
  {| scenario_name := name;
     monthly_invoice_volume := monthly_invoice_volume inputs;
     num_ap_staff := num_ap_staff inputs;
     avg_hours_per_invoice := avg_hours_per_invoice inputs;
     hourly_wage := hourly_wage inputs;
     error_rate_manual := error_rate_manual inputs;
     error_cost := error_cost inputs;
     time_horizon_months := time_horizon_months inputs;
     one_time_implementation_cost := one_time_implementation_cost inputs |}.

(** [app.post('/scenarios', ...)]: the response and the collection after. *)
Definition post_scenarios (env : Env) (st : Store) (req_body : option Json)
  : Response * Store :=
  match validateInputs (scenarios_body req_body) with
  | Throw => (Uncaught, st)
  | Normal (inputs, errors) =>
      if bool_decide (length errors ≠ 0%nat) then (Json400Errors errors, st)
      else
        let results := simulate inputs in
        let failed := (Json500 "failed to save scenario", st) in
        let trimmed := trim (or_empty (scenario_name inputs)) in
        let scenarioName :=
          if String.eqb trimmed "" then
            if db_up env
            then Some ("Scenario " +:+ pretty (countDocuments st + 1)%N)
            else None
          else Some trimmed in
        match scenarioName with
        | None => failed
        | Some scenarioName =>
            match create env st scenarioName
                    (with_name inputs scenarioName) results with
            | None => failed
            | Some (doc, st') =>
                (Json200Saved (doc_id doc) (or_empty (doc_scenario_name doc)),
                 st')
            end
        end
  end.

(** [app.get('/scenarios/:id', ...)]. *)
Definition get_scenario (env : Env) (st : Store) (id : Id) : Response :=
  if db_up env then
    match st !! id with
    | None => Json404NotFound
    | Some doc =>
        Json200Scenario
          {| doc_id := doc_id doc;
             doc_scenario_name := or_empty (doc_scenario_name doc);
             doc_inputs := doc_inputs doc;
             doc_results := doc_results doc;
             created_at := created_at doc;
             updated_at := updated_at doc |}
    end
  else Json404NotFound.

(** [app.delete('/scenarios/:id', ...)]. *)
Definition delete_scenario (env : Env) (st : Store) (id : Id)
  : Response * Store :=
  if db_up env then
    match st !! id with
    | None => (Json404NotFound, st)
    | Some _ => (Json200Deleted, delete id st)
    end
  else (Json404NotFound, st).

(** The collections the server can hold: empty at first, then changed by
    the two routes that write. *)
Inductive reachable : Store → Prop :=
| reachable_empty : reachable ∅
| reachable_post env st req_body :
    reachable st → reachable (post_scenarios env st req_body).2
| reachable_delete env st id :
    reachable st → reachable (delete_scenario env st id).2.

End Mongo.

(** ** The PostgreSQL server, [server/index.pg.js]

    Its validation and calculation core, transcribed from its own text. *)

Module Pg.

Definition INTERNAL : Internal := {|
  automated_cost_per_invoice := lit 20 2;
  error_rate_auto := lit 1 1;
  time_saved_per_invoice := of_Z 8;
  min_roi_boost_factor := lit 11 1
|}.

Definition asNumber (value : option Json) (fallback : number)
  : Completion number :=
  n ← Number_ value;
  mret (if isFinite n then n else fallback).

Definition clamp (value min max : number) : number :=
  Math_min (Math_max value min) max.

Definition reqNum (body : Json) (name : string) : Validator number :=
  v ← lift (value ← Get body name; asNumber value nan);
  _ ← when (negb (isFinite v) || lt v (of_Z 0))
        (push (name +:+ " must be a non-negative number"));
  mret v.

Definition validateInputs (body : Json)
  : Completion (ScenarioInput * list string) :=
  (name ← lift (Get body "scenario_name");
   f_monthly_invoice_volume ← reqNum body "monthly_invoice_volume";
   f_num_ap_staff ← reqNum body "num_ap_staff";
   f_avg_hours_per_invoice ← reqNum body "avg_hours_per_invoice";
   f_hourly_wage ← reqNum body "hourly_wage";
   rate ← lift (value ← Get body "error_rate_manual"; asNumber value nan);
   f_error_cost ← reqNum body "error_cost";
   horizon ← lift (value ← Get body "time_horizon_months";
                   asNumber value (of_Z 36));
   cost ← lift (value ← Get body "one_time_implementation_cost";
                asNumber value (of_Z 0));
   let inputs := {|
     scenario_name := match name with Some (JString s) => s | _ => "" end;
     monthly_invoice_volume := f_monthly_invoice_volume;
     num_ap_staff := f_num_ap_staff;
     avg_hours_per_invoice := f_avg_hours_per_invoice;
     hourly_wage := f_hourly_wage;
     error_rate_manual := clamp rate (of_Z 0) (of_Z 100);
     error_cost := f_error_cost;
     time_horizon_months := horizon;
     one_time_implementation_cost := cost
   |} in
   _ ← when (negb (isFinite (error_rate_manual inputs)))
         (push "error_rate_manual must be a number between 0 and 100");
   _ ← when (negb (isFinite (time_horizon_months inputs))
             || le (time_horizon_months inputs) (of_Z 0))
         (push "time_horizon_months must be > 0");
   mret inputs) [].

Definition simulate (inputs : ScenarioInput) : ROIResult :=
  let labor_cost_manual :=
    mul (mul (mul (num_ap_staff inputs) (hourly_wage inputs))
           (avg_hours_per_invoice inputs))
      (monthly_invoice_volume inputs) in
  let auto_cost :=
    mul (monthly_invoice_volume inputs) (automated_cost_per_invoice INTERNAL) in
  let error_savings :=
    div (mul (mul (sub (error_rate_manual inputs) (error_rate_auto INTERNAL))
                (monthly_invoice_volume inputs))
           (error_cost inputs))
      (of_Z 100) in
  let monthly_savings0 := sub (add labor_cost_manual error_savings) auto_cost in
  let monthly_savings1 := mul monthly_savings0 (min_roi_boost_factor INTERNAL) in
  let cumulative_savings1 := mul monthly_savings1 (time_horizon_months inputs) in
  let net_savings1 :=
    sub cumulative_savings1 (one_time_implementation_cost inputs) in
  let payback_months1 :=
    if gt monthly_savings1 (of_Z 0)
    then Some (div (one_time_implementation_cost inputs) monthly_savings1)
    else None in
  let roi_percentage1 :=
    if gt (one_time_implementation_cost inputs) (of_Z 0)
    then mul (div net_savings1 (one_time_implementation_cost inputs)) (of_Z 100)
    else if gt cumulative_savings1 (of_Z 0) then of_Z 999 else of_Z 0 in
  {| monthly_savings := round2 monthly_savings1;
     cumulative_savings := round2 cumulative_savings1;
     net_savings := round2 net_savings1;
     payback_months :=
       match payback_months1 with
       | None => None
       | Some p => Some (round2 p)
       end;
     roi_percentage := round2 roi_percentage1 |}.

End Pg.

(** ** Vocabulary of the properties *)

(** The initial form of the client, the documented scenario. *)
Definition canonical : ScenarioInput := {|
  scenario_name := "";
  monthly_invoice_volume := of_Z 2000;
  num_ap_staff := of_Z 3;
  avg_hours_per_invoice := lit 17 2;    (* 0.17 *)
  hourly_wage := of_Z 30;
  error_rate_manual := lit 5 1;         (* 0.5 *)
  error_cost := of_Z 100;
  time_horizon_months := of_Z 36;
  one_time_implementation_cost := of_Z 50000
|}.

(** The five fields read through [reqNum], with their place in the
    normalized record. *)
Definition required_fields : list (string * (ScenarioInput → number)) :=
  [ ("monthly_invoice_volume", monthly_invoice_volume);
    ("num_ap_staff", num_ap_staff);
    ("avg_hours_per_invoice", avg_hours_per_invoice);
    ("hourly_wage", hourly_wage);
    ("error_cost", error_cost) ].

Definition required_message (name : string) : string :=
  name +:+ " must be a non-negative number".

Definition rate_message : string :=
  "error_rate_manual must be a number between 0 and 100".

Definition horizon_message : string := "time_horizon_months must be > 0".

(** Every message the validator can push. *)
Definition known_messages : list string :=
  (required_message ∘ fst <$> required_fields)
  ++ [rate_message; horizon_message].

(** The properties the validator reads as numbers. *)
Definition numeric_fields : list string :=
  [ "monthly_invoice_volume"; "num_ap_staff"; "avg_hours_per_invoice";
    "hourly_wage"; "error_rate_manual"; "error_cost";
    "time_horizon_months"; "one_time_implementation_cost" ].

(** No property of [body] throws when read as a number. *)
Definition readable (body : Json) : bool :=
  forallb (λ name, match Mongo.read body name with
                   | Normal _ => true
                   | Throw => false
                   end) numeric_fields.

(** A binary64 value that is finite and not below zero. *)
Definition non_negative (x : number) : bool :=
  valid_binary prec emax x && isFinite x && le (of_Z 0) x.

(** A well-formed [ScenarioInput], as the data model describes it. *)
Definition well_formed (i : ScenarioInput) : bool :=
  non_negative (monthly_invoice_volume i)
  && non_negative (num_ap_staff i)
  && non_negative (avg_hours_per_invoice i)
  && non_negative (hourly_wage i)
  && non_negative (error_rate_manual i) && le (error_rate_manual i) (of_Z 100)
  && non_negative (error_cost i)
  && non_negative (time_horizon_months i) && gt (time_horizon_months i) (of_Z 0)
  && non_negative (one_time_implementation_cost i).

(** A well-formed input whose labour cost overflows to [+Infinity] and
    whose error savings overflow to [-Infinity]. *)
Definition overflowing : ScenarioInput := {|
  scenario_name := "";
  monthly_invoice_volume := lit 1 (-308);   (* 1e308 *)
  num_ap_staff := of_Z 1;
  avg_hours_per_invoice := of_Z 100;
  hourly_wage := of_Z 1;
  error_rate_manual := of_Z 0;
  error_cost := lit 1 (-10);                (* 1e10 *)
  time_horizon_months := of_Z 36;
  one_time_implementation_cost := of_Z 0
|}.

(** The request body that spells an input record. *)
Definition body_of (i : ScenarioInput) : Json :=
  JObject
    [ ("scenario_name", JString (scenario_name i));
      ("monthly_invoice_volume", JNumber (monthly_invoice_volume i));
      ("num_ap_staff", JNumber (num_ap_staff i));
      ("avg_hours_per_invoice", JNumber (avg_hours_per_invoice i));
      ("hourly_wage", JNumber (hourly_wage i));
      ("error_rate_manual", JNumber (error_rate_manual i));
      ("error_cost", JNumber (error_cost i));
      ("time_horizon_months", JNumber (time_horizon_months i));
      ("one_time_implementation_cost",
       JNumber (one_time_implementation_cost i)) ].

(** ** The validator in closed form

    What [asNumber] returns for a Number value, the messages each check
    pushes, and the pair [validateInputs] returns once its eight reads have
    produced numbers. *)
Definition normalized (n fallback : number) : number :=
  if isFinite n then n else fallback.

Definition required_errors (name : string) (v : number) : list string :=
  if negb (isFinite v) || lt v (of_Z 0) then [required_message name] else [].

Definition rate_errors (rate : number) : list string :=
  if negb (isFinite rate) then [rate_message] else [].

Definition horizon_errors (horizon : number) : list string :=
  if negb (isFinite horizon) || le horizon (of_Z 0) then [horizon_message] else [].

Definition validated (name : option Json) (n1 n2 n3 n4 nr n5 nh nc : number)
  : ScenarioInput * list string :=
  let inputs := {|
     scenario_name := match name with Some (JString s) => s | _ => "" end;
     monthly_invoice_volume := normalized n1 nan;
     num_ap_staff := normalized n2 nan;
     avg_hours_per_invoice := normalized n3 nan;
     hourly_wage := normalized n4 nan;
     error_rate_manual := Mongo.clamp (normalized nr nan) (of_Z 0) (of_Z 100);
     error_cost := normalized n5 nan;
     time_horizon_months := normalized nh (of_Z 36);
     one_time_implementation_cost := normalized nc (of_Z 0)
   |} in
  (inputs,
   required_errors "monthly_invoice_volume" (monthly_invoice_volume inputs)
   ++ required_errors "num_ap_staff" (num_ap_staff inputs)
   ++ required_errors "avg_hours_per_invoice" (avg_hours_per_invoice inputs)
   ++ required_errors "hourly_wage" (hourly_wage inputs)
   ++ required_errors "error_cost" (error_cost inputs)
   ++ rate_errors (error_rate_manual inputs)
   ++ horizon_errors (time_horizon_months inputs)).

(** What holds of every stored document. *)
Definition consistent (st : Mongo.Store) : Prop :=
  map_Forall (λ id doc,
    Mongo.doc_id doc = id
    ∧ Mongo.doc_results doc = Mongo.simulate (Mongo.doc_inputs doc)) st.

(** ** Sample inputs *)

(** [body] with one more property, which wins over an earlier one of the
    same name. *)
Definition override (body : Json) (name : string) (v : Json) : Json :=
  match body with
  | JObject props => JObject (props ++ [(name, v)])
  | _ => body
  end.

(** A JSON value [Number()] cannot convert: an object with an own property
    [toString] that is no function; the conversion ends in a TypeError. *)
Definition unconvertible : Json := JObject [("toString", JNumber (of_Z 1))].

Definition with_cost (i : ScenarioInput) (cost : number) : ScenarioInput :=
  {| scenario_name := scenario_name i;
     monthly_invoice_volume := monthly_invoice_volume i;
     num_ap_staff := num_ap_staff i;
     avg_hours_per_invoice := avg_hours_per_invoice i;
     hourly_wage := hourly_wage i;
     error_rate_manual := error_rate_manual i;
     error_cost := error_cost i;
     time_horizon_months := time_horizon_months i;
     one_time_implementation_cost := cost |}.

(** A request served while the database answers. *)
Definition env_up (id : Mongo.Id) : Mongo.Env :=
  {| Mongo.db_up := true; Mongo.new_id := id; Mongo.now := 0 |}.

(** The collection after the canonical scenario was saved once. *)
Definition saved_once : Mongo.Store :=
  (Mongo.post_scenarios (env_up 1) ∅
     (Some (JObject [("inputs", body_of canonical)]))).2.

(** ** More vocabulary: what the validator lets pass *)

(** A required field as the validator lets it pass. *)
Definition nonneg (v : number) : bool := isFinite v && le (of_Z 0) v.

(** The normalized records the validator lets pass. *)
Definition acceptable (i : ScenarioInput) : bool :=
  nonneg (monthly_invoice_volume i)
  && nonneg (num_ap_staff i)
  && nonneg (avg_hours_per_invoice i)
  && nonneg (hourly_wage i)
  && nonneg (error_cost i)
  && (isFinite (error_rate_manual i)
      && le (of_Z 0) (error_rate_manual i)
      && le (error_rate_manual i) (of_Z 100))
  && (isFinite (time_horizon_months i) && gt (time_horizon_months i) (of_Z 0))
  && isFinite (one_time_implementation_cost i).

(** The six fields whose NaN reaches the monthly savings. *)
Definition savings_fields : list (ScenarioInput → number) :=
  [ monthly_invoice_volume; num_ap_staff; avg_hours_per_invoice;
    hourly_wage; error_rate_manual; error_cost ].

(** Two numbers that differ at most by the sign of a zero, and two records
    whose numbers do. *)
Definition alike (a b : number) : Prop :=
  a = b ∨ ∃ s t, a = S754_zero s ∧ b = S754_zero t.

Definition alike_inputs (i j : ScenarioInput) : Prop :=
  alike (monthly_invoice_volume i) (monthly_invoice_volume j)
  ∧ alike (num_ap_staff i) (num_ap_staff j)
  ∧ alike (avg_hours_per_invoice i) (avg_hours_per_invoice j)
  ∧ alike (hourly_wage i) (hourly_wage j)
  ∧ alike (error_rate_manual i) (error_rate_manual j)
  ∧ alike (error_cost i) (error_cost j)
  ∧ alike (time_horizon_months i) (time_horizon_months j)
  ∧ alike (one_time_implementation_cost i) (one_time_implementation_cost j).

(** What holds of every document of a collection the server can reach. *)
Definition well_stored (id : Mongo.Id) (doc : Mongo.Scenario) : Prop :=
  Mongo.doc_id doc = id
  ∧ scenario_name (Mongo.doc_inputs doc) = Mongo.doc_scenario_name doc
  ∧ Mongo.doc_scenario_name doc ≠ ""
  ∧ acceptable (Mongo.doc_inputs doc) = true
  ∧ Mongo.validateInputs (body_of (Mongo.doc_inputs doc))
    = Normal (Mongo.doc_inputs doc, [])
  ∧ Mongo.doc_results doc = Mongo.simulate (Mongo.doc_inputs doc).

(** ** More of [server/index.js]: listing the scenarios *)

Module Listing.
Import Mongo.

(** An entry of the list: [{ id, scenario_name, created_at }]. *)
Record Summary := {
  item_id : Id;
  item_scenario_name : string;
  item_created_at : Z
}.

Inductive ListResponse :=
| Json200List (items : list Summary)
| Json500List (error : string).

(** [.sort({ created_at: -1 })]: a document comes before the older ones. *)
Definition newest_first (a b : Scenario) : Prop := created_at b ≤ created_at a.

#[global] Instance newest_first_dec (a b : Scenario)
  : Decision (newest_first a b) := Z_le_dec (created_at b) (created_at a).

(** [Scenario.find({}, ...).sort({ created_at: -1 }).lean()].  Among
    documents of one date the database is free to choose; [merge_sort]
    makes one choice, and nothing below depends on which. *)
Definition find_sorted (st : Store) : list Scenario :=
  merge_sort newest_first ((map_to_list st).*2).

(** [d => ({ id: String(d._id), scenario_name: d.scenario_name || '',
    created_at: d.created_at })]. *)
Definition summary (d : Scenario) : Summary :=
  {| item_id := doc_id d;
     item_scenario_name := or_empty (doc_scenario_name d);
     item_created_at := created_at d |}.

(** [app.get('/scenarios', ...)]. *)
Definition get_scenarios (env : Env) (st : Store) : ListResponse :=
  if db_up env then Json200List (summary <$> find_sorted st)
  else Json500List "failed to list scenarios".

End Listing.

(** The order of the entries of a list: newest first. *)
Definition newer (a b : Listing.Summary) : Prop :=
  Listing.item_created_at b ≤ Listing.item_created_at a.

(** ** More of [server/index.js]: the report *)

Module Report.
Import Mongo.

Inductive ReportResponse :=
| Report200 (filename content : string)
| Report400 (error : string)
| Report400Errors (errors : list string)
| Report404 (error : string)
| ReportUncaught.   (* a TypeError left the handler *)

(** The double quote and the line feed. *)
Definition dq : string := String (ascii_of_nat 34) EmptyString.
Definition nl : string := String (ascii_of_nat 10) EmptyString.

Section Platform.

(** Three functions of the platform the handler is indifferent to:
    [Number::toString] in radix 10; the [_id] mongoose casts a string to,
    if any; and the document [findOne({ _id: v })] selects for a value [v]
    that is not a string, which mongoose may read as a query on the
    collection (an operator object such as [{ $ne: null }], an array). *)
Variable NumberToString : number → string.
Variable castObjectId : string → option Id.
Variable findOne : Json → Store → option Scenario.

(** [String(v)]: as [ToString] above, with the text spelled out. *)
Fixpoint ToStringText (v : Json) : Completion string :=
  match v with
  | JNull => Normal "null"
  | JBool b => Normal (if b then "true" else "false")
  | JNumber x => Normal (NumberToString x)
  | JString s => Normal s
  | JArray elems =>
      (fix join (l : list Json) : Completion string :=
         match l with
         | [] => Normal EmptyString
         | e :: rest =>
             s ← match e with
                 | JNull => Normal EmptyString
                 | _ => ToStringText e
                 end;
             match rest with
             | [] => Normal s
             | _ :: _ => t ← join rest; Normal (s +:+ "," +:+ t)
             end
         end) elems
  | JObject props =>
      if has_own props "toString" then Throw
      else Normal "[object Object]"
  end.

(** [req.body && req.body[name]]. *)
Definition prop (req_body : option Json) (name : string) : option Json :=
  match req_body with
  | Some b =>
      if truthy req_body
      then match Get b name with Normal v => v | Throw => None end
      else req_body
  | None => None
  end.

(** The template literal of the [scenario_id] branch. *)
Definition html_of_scenario (email : string) (inputs : ScenarioInput)
    (results : ROIResult) : string :=
  String.concat EmptyString [
    "<!doctype html><html><head><meta charset="; dq; "utf-8"; dq;
      "><title>ROI Report</title>"; nl;
    "        <style>body{font-family:Arial, sans-serif; padding:24px; color:#222} h1{color:#0b3a5b}";
      nl;
    "        table{border-collapse:collapse} td,th{border:1px solid #ddd; padding:8px}</style></head>";
      nl;
    "        <body><h1>Invoicing ROI Report</h1>"; nl;
    "        <p><strong>Email:</strong> "; email; "</p>"; nl;
    "        <h2>Inputs</h2>"; nl;
    "        <table>"; nl;
    "          <tr><th>Scenario</th><td>"; or_empty (scenario_name inputs);
      "</td></tr>"; nl;
    "          <tr><th>Monthly Volume</th><td>";
      NumberToString (monthly_invoice_volume inputs); "</td></tr>"; nl;
    "          <tr><th>AP Staff</th><td>";
      NumberToString (num_ap_staff inputs); "</td></tr>"; nl;
    "          <tr><th>Hours/Invoice</th><td>";
      NumberToString (avg_hours_per_invoice inputs); "</td></tr>"; nl;
    "          <tr><th>Hourly Wage</th><td>";
      NumberToString (hourly_wage inputs); "</td></tr>"; nl;
    "          <tr><th>Error Rate (manual %)</th><td>";
      NumberToString (error_rate_manual inputs); "</td></tr>"; nl;
    "          <tr><th>Error Cost</th><td>";
      NumberToString (error_cost inputs); "</td></tr>"; nl;
    "          <tr><th>Horizon (months)</th><td>";
      NumberToString (time_horizon_months inputs); "</td></tr>"; nl;
    "          <tr><th>One-time Cost</th><td>";
      NumberToString (one_time_implementation_cost inputs); "</td></tr>"; nl;
    "        </table>"; nl;
    "        <h2>Results</h2>"; nl;
    "        <table>"; nl;
    "          <tr><th>Monthly Savings</th><td>$";
      NumberToString (monthly_savings results); "</td></tr>"; nl;
    "          <tr><th>Payback (months)</th><td>";
      from_option NumberToString "N/A" (payback_months results); "</td></tr>";
      nl;
    "          <tr><th>ROI %</th><td>";
      NumberToString (roi_percentage results); "%</td></tr>"; nl;
    "          <tr><th>Cumulative Savings</th><td>$";
      NumberToString (cumulative_savings results); "</td></tr>"; nl;
    "        </table>"; nl;
    "        <p style="; dq; "margin-top:16px;color:#666"; dq;
      ">This report includes a conservative pro-automation bias factor.</p>";
      nl;
    "        </body></html>" ].

(** The template literal of the [inputs] branch. *)
Definition html_of_inputs (email : string) (inputs : ScenarioInput)
    (results : ROIResult) : string :=
  String.concat EmptyString [
    "<!doctype html><html><head><meta charset="; dq; "utf-8"; dq;
      "><title>ROI Report</title>"; nl;
    "    <style>body{font-family:Arial, sans-serif; padding:24px; color:#222} h1{color:#0b3a5b}";
      nl;
    "    table{border-collapse:collapse} td,th{border:1px solid #ddd; padding:8px}</style></head>";
      nl;
    "    <body><h1>Invoicing ROI Report</h1>"; nl;
    "    <p><strong>Email:</strong> "; email; "</p>"; nl;
    "    <h2>Inputs</h2>"; nl;
    "    <table>"; nl;
    "      <tr><th>Scenario</th><td>"; or_empty (scenario_name inputs);
      "</td></tr>"; nl;
    "      <tr><th>Monthly Volume</th><td>";
      NumberToString (monthly_invoice_volume inputs); "</td></tr>"; nl;
    "      <tr><th>AP Staff</th><td>"; NumberToString (num_ap_staff inputs);
      "</td></tr>"; nl;
    "      <tr><th>Hours/Invoice</th><td>";
      NumberToString (avg_hours_per_invoice inputs); "</td></tr>"; nl;
    "      <tr><th>Hourly Wage</th><td>"; NumberToString (hourly_wage inputs);
      "</td></tr>"; nl;
    "      <tr><th>Error Rate (manual %)</th><td>";
      NumberToString (error_rate_manual inputs); "</td></tr>"; nl;
    "      <tr><th>Error Cost</th><td>"; NumberToString (error_cost inputs);
      "</td></tr>"; nl;
    "      <tr><th>Horizon (months)</th><td>";
      NumberToString (time_horizon_months inputs); "</td></tr>"; nl;
    "      <tr><th>One-time Cost</th><td>";
      NumberToString (one_time_implementation_cost inputs); "</td></tr>"; nl;
    "    </table>"; nl;
    "    <h2>Results</h2>"; nl;
    "    <table>"; nl;
    "      <tr><th>Monthly Savings</th><td>$";
      NumberToString (monthly_savings results); "</td></tr>"; nl;
    "      <tr><th>Payback (months)</th><td>";
      from_option NumberToString "N/A" (payback_months results); "</td></tr>";
      nl;
    "      <tr><th>ROI %</th><td>"; NumberToString (roi_percentage results);
      "%</td></tr>"; nl;
    "      <tr><th>Cumulative Savings</th><td>$";
      NumberToString (cumulative_savings results); "</td></tr>"; nl;
    "    </table>"; nl;
    "    <p style="; dq; "margin-top:16px;color:#666"; dq;
      ">This report includes a conservative pro-automation bias factor.</p>";
      nl;
    "    </body></html>" ].

(** [`roi-report-${Date.now()}.html`]. *)
Definition filename (env : Env) : string :=
  "roi-report-" +:+ pretty (now env) +:+ ".html".

(** [Scenario.findById(req.body.scenario_id).lean()]: the document, or
    nothing when there is none or when the call rejects.  A string names
    at most one [_id]; any other value is the database's to interpret. *)
Definition findById (env : Env) (st : Store) (v : option Json)
  : option Scenario :=
  if db_up env then
    match v with
    | Some (JString s) => id ← castObjectId s; st !! id
    | Some v => findOne v st
    | None => None
    end
  else None.

(** [app.post('/report/generate', ...)]. *)
Definition generate (env : Env) (st : Store) (req_body : option Json)
  : ReportResponse :=
  let email :=
    if truthy (prop req_body "email")
    then s ← from_option ToStringText (Normal "undefined")
               (prop req_body "email");
         Normal (trim s)
    else Normal EmptyString in
  match email with
  | Throw => ReportUncaught
  | Normal email =>
      if String.eqb email "" then Report400 "email is required"
      else if truthy (prop req_body "scenario_id") then
        match findById env st (prop req_body "scenario_id") with
        | None => Report404 "scenario not found"
        | Some doc =>
            let inputs := doc_inputs doc in
            let results := doc_results doc in
            Report200 (filename env) (html_of_scenario email inputs results)
        end
      else if truthy (prop req_body "inputs") then
        match validateInputs (default JNull (prop req_body "inputs")) with
        | Throw => ReportUncaught
        | Normal (inputs, errors) =>
            if bool_decide (length errors ≠ 0%nat)
            then Report400Errors errors
            else
              let results := simulate inputs in
              Report200 (filename env) (html_of_inputs email inputs results)
        end
      else Report400 "provide scenario_id or inputs"
  end.

End Platform.

End Report.

(** ** The client, [src/App.js] *)

Module Client.

(** The state [inputs] of the form: the own properties of a JS object, in
    their order. *)
Abbreviation State := (list (string * Json)).

Definition initialInputs : State :=
  [ ("scenario_name", JString "");
    ("monthly_invoice_volume", JNumber (of_Z 2000));
    ("num_ap_staff", JNumber (of_Z 3));
    ("avg_hours_per_invoice", JNumber (lit 17 2));
    ("hourly_wage", JNumber (of_Z 30));
    ("error_rate_manual", JNumber (lit 5 1));
    ("error_cost", JNumber (of_Z 100));
    ("time_horizon_months", JNumber (of_Z 36));
    ("one_time_implementation_cost", JNumber (of_Z 50000)) ].

(** [function number(value)], on the text of an input element. *)
Definition number (value : string) : JS.number :=
  let n := StringToNumber value in
  if isFinite n then n else of_Z 0.

(** [{ ...prev, [name]: v }]: the property keeps its place when [prev] has
    it and comes last otherwise. *)
Fixpoint assign (prev : State) (name : string) (v : Json) : State :=
  match prev with
  | [] => [(name, v)]
  | (k, w) :: rest =>
      if String.eqb k name then (k, v) :: rest
      else (k, w) :: assign rest name v
  end.

(** [onChange], on the [name] and the [value] of the element that
    changed. *)
Definition onChange (name value : string) (prev : State) : State :=
  assign prev name
    (if String.eqb name "scenario_name" then JString value
     else JNumber (number value)).

(** [JSON.stringify] on one side and [JSON.parse] on the other: what is
    read of a value that was sent.  A finite number reads back as itself,
    [-0] excepted, which is written [0]; NaN and the infinities are written
    [null]. *)
Definition sent (x : JS.number) : JS.number :=
  if is_neg_zero x then pos_zero else x.

Fixpoint wire (v : Json) : Json :=
  match v with
  | JNumber x => if isFinite x then JNumber (sent x) else JNull
  | JArray elems => JArray (map wire elems)
  | JObject props => JObject (map (λ p, (fst p, wire (snd p))) props)
  | JNull | JBool _ | JString _ => v
  end.

(** The body of the live [fetch('/simulate', ...)]:
    [JSON.stringify(inputs)]. *)
Definition simulate_request (inputs : State) : option Json :=
  Some (wire (JObject inputs)).

(** The body [saveScenario] posts: [JSON.stringify({ inputs })]. *)
Definition save_request (inputs : State) : option Json :=
  Some (wire (JObject [("inputs", JObject inputs)])).

(** [setInputs(s.inputs)] in [loadScenario]: the inputs of the document
    the server answered with. *)
Definition loaded (doc : Mongo.Scenario) : State :=
  match wire (body_of (Mongo.doc_inputs doc)) with
  | JObject props => props
  | _ => []
  end.

(** The body [generateReport] posts, [JSON.stringify({ email, inputs })];
    without an email it alerts and sends nothing. *)
Definition report_request (email : string) (inputs : State)
  : option (option Json) :=
  if String.eqb email "" then None
  else Some (Some (wire (JObject [("email", JString email);
                                  ("inputs", JObject inputs)]))).

End Client.

(** The [name] attributes of the nine input elements of the form. *)
Definition form_names : list string :=
  [ "scenario_name"; "monthly_invoice_volume"; "num_ap_staff";
    "avg_hours_per_invoice"; "hourly_wage"; "error_rate_manual";
    "error_cost"; "time_horizon_months"; "one_time_implementation_cost" ].

(** The states the form can be in: the initial one, then changed by typing
    into an input element or by loading a stored scenario. *)
Inductive form_state : Client.State → Prop :=
| form_initial : form_state Client.initialInputs
| form_change name value prev :
    name ∈ form_names → form_state prev →
    form_state (Client.onChange name value prev)
| form_load st id doc :
    Mongo.reachable st → st !! id = Some doc →
    form_state (Client.loaded doc).

(** Every number of the record is finite. *)
Definition all_finite (i : ScenarioInput) : bool :=
  isFinite (monthly_invoice_volume i) && isFinite (num_ap_staff i)
  && isFinite (avg_hours_per_invoice i) && isFinite (hourly_wage i)
  && isFinite (error_rate_manual i) && isFinite (error_cost i)
  && isFinite (time_horizon_months i)
  && isFinite (one_time_implementation_cost i).

(** The record as the server reads it off the wire. *)
Definition sent_inputs (i : ScenarioInput) : ScenarioInput :=
  {| scenario_name := scenario_name i;
     monthly_invoice_volume := Client.sent (monthly_invoice_volume i);
     num_ap_staff := Client.sent (num_ap_staff i);
     avg_hours_per_invoice := Client.sent (avg_hours_per_invoice i);
     hourly_wage := Client.sent (hourly_wage i);
     error_rate_manual := Client.sent (error_rate_manual i);
     error_cost := Client.sent (error_cost i);
     time_horizon_months := Client.sent (time_horizon_months i);
     one_time_implementation_cost :=
       Client.sent (one_time_implementation_cost i) |}.

(** What [Number()] makes, on the server, of a number that was sent as
    JSON: NaN and the infinities arrive as [null], which converts to [0]. *)
Definition received (x : number) : number :=
  if isFinite x then Client.sent x else of_Z 0.

(** The record as the server reads it off the wire, whatever it holds. *)
Definition received_inputs (i : ScenarioInput) : ScenarioInput :=
  {| scenario_name := scenario_name i;
     monthly_invoice_volume := received (monthly_invoice_volume i);
     num_ap_staff := received (num_ap_staff i);
     avg_hours_per_invoice := received (avg_hours_per_invoice i);
     hourly_wage := received (hourly_wage i);
     error_rate_manual := received (error_rate_manual i);
     error_cost := received (error_cost i);
     time_horizon_months := received (time_horizon_months i);
     one_time_implementation_cost :=
       received (one_time_implementation_cost i) |}.

(** ** More sample inputs *)

(** The request that saves the canonical scenario without a name. *)
Definition unnamed : option Json :=
  Some (JObject [("inputs", body_of canonical)]).

(** Two unnamed saves, the first document deleted, a third unnamed save. *)
Definition saved_thrice : Mongo.Store :=
  let st1 := (Mongo.post_scenarios (env_up 1) ∅ unnamed).2 in
  let st2 := (Mongo.post_scenarios (env_up 2) st1 unnamed).2 in
  let st3 := (Mongo.delete_scenario (env_up 1) st2 1).2 in
  (Mongo.post_scenarios (env_up 3) st3 unnamed).2.

(** The form after [abc] was typed into the wage. *)
Definition form_abc : Client.State :=
  Client.onChange "hourly_wage" "abc" Client.initialInputs.

(** Stand-ins for the three functions of the platform, for the samples:
    every number is written [0], only the text [a] is the [_id] 1, and a
    value that is not a string selects nothing. *)
Definition sample_text (x : number) : string := "0".

Definition sample_cast (s : string) : option Mongo.Id :=
  if String.eqb s "a" then Some 1%positive else None.

Definition sample_find (v : Json) (st : Mongo.Store)
  : option Mongo.Scenario := None.

(** A report request that names the stored scenario, and one that carries
    the canonical inputs. *)
Definition report_by_id : option Json :=
  Some (JObject [("email", JString "a@b.c"); ("scenario_id", JString "a");
                 ("inputs", JNull)]).

Definition report_by_inputs : option Json :=
  Some (JObject [("email", JString "a@b.c");
                 ("inputs", body_of canonical)]).

(** ** Proofs *)

Set Warnings "-clear-no-such-hyp".

Arguments of_Z : simpl never.
Arguments lt : simpl never.
Arguments le : simpl never.
Arguments gt : simpl never.
Arguments isFinite : simpl never.
Arguments Mongo.clamp : simpl never.
Arguments Number_ : simpl never.
Arguments Get : simpl never.
Arguments nan : simpl never.

Ltac in_list :=
  repeat first [apply list_elem_of_here | apply list_elem_of_further].

(** *** Numbers *)

Lemma le_zero_not_gt (x : number) :
  le x (of_Z 0) = true → gt x (of_Z 0) = false.
Proof. by destruct x as [[]|[]| |[] m e]. Qed.

Lemma lt_zero_not_gt (x : number) : lt x (of_Z 0) = true → gt x (of_Z 0) = false.
Proof. by destruct x as [[]|[]| |[] m e]. Qed.

Lemma round2_999 : round2 (of_Z 999) = of_Z 999.
Proof. by vm_compute. Qed.

Lemma round2_0 : round2 (of_Z 0) = of_Z 0.
Proof. by vm_compute. Qed.

Lemma of_Z_100 : of_Z 100 = S754_finite false 7036874417766400 (-46).
Proof. by vm_compute. Qed.

(** Comparison of two positive finite numbers, and its mirror image. *)
Lemma compare_finite_swap (m1 m2 : positive) (e1 e2 : Z) :
  SFcompare (S754_finite false m2 e2) (S754_finite false m1 e1)
  = option_map CompOpp
      (SFcompare (S754_finite false m1 e1) (S754_finite false m2 e2)).
Proof.
  cbv [SFcompare option_map]. rewrite (Z.compare_antisym e1 e2).
  destruct (e1 ?= e2); cbv [CompOpp]; try reflexivity.
  rewrite !Pos.compare_cont_spec. cbv [Pos.switch_Eq].
  rewrite (Pos.compare_antisym m1 m2).
  by destruct (m1 ?= m2)%positive.
Qed.

Lemma compare_finite_eq (m1 m2 : positive) (e1 e2 : Z) :
  SFcompare (S754_finite false m1 e1) (S754_finite false m2 e2) = Some Eq →
  S754_finite false m1 e1 = S754_finite false m2 e2.
Proof.
  cbv [SFcompare].
  destruct (Z.compare_spec e1 e2); try discriminate. subst e2.
  rewrite Pos.compare_cont_spec. cbv [Pos.switch_Eq].
  destruct (Pos.compare_spec m1 m2); try discriminate.
  by subst m2.
Qed.

Lemma normalized_finite (n fallback : number) :
  isFinite n = true → normalized n fallback = n.
Proof. unfold normalized. by intros ->. Qed.

Lemma normalized_not_finite (n fallback : number) :
  isFinite n = false → normalized n fallback = fallback.
Proof. unfold normalized. by intros ->. Qed.

Lemma clamp_finite (x : number) :
  isFinite x = true →
  let c := Mongo.clamp x (of_Z 0) (of_Z 100) in
  isFinite c = true
  ∧ le (of_Z 0) c = true ∧ le c (of_Z 100) = true
  ∧ (gt x (of_Z 100) = true → c = of_Z 100)
  ∧ (lt x (of_Z 0) = true → c = of_Z 0)
  ∧ (gt x (of_Z 0) = true → lt x (of_Z 100) = true → c = x).
Proof.
  intros Hx c. subst c.
  destruct x as [[]|[]| |[] m e]; try discriminate.
  - by vm_compute.
  - by vm_compute.
  - by vm_compute.
  - unfold Mongo.clamp, Math_max.
    change (isNaN _ || isNaN _) with false. cbv iota.
    change (lt (S754_finite false m e) (of_Z 0)) with false.
    change (lt (of_Z 0) (S754_finite false m e)) with true. cbv iota.
    unfold Math_min. change (isNaN _ || isNaN _) with false. cbv iota.
    unfold lt, gt, le, SFltb, SFleb.
    rewrite of_Z_100, (compare_finite_swap m 7036874417766400 e (-46)).
    destruct (SFcompare (S754_finite false m e)
                (S754_finite false 7036874417766400 (-46)))
      as [[]|] eqn:Hc;
      cbv [option_map CompOpp is_neg_zero];
      change (SFcompare (of_Z 0) (S754_finite false m e)) with (Some Lt);
      rewrite ?Hc.
    + apply compare_finite_eq in Hc. rewrite Hc. by vm_compute.
    + by repeat split.
    + by repeat split.
    + discriminate Hc.
Qed.

Lemma clamp_not_finite (x : number) :
  isFinite x = false → Mongo.clamp (normalized x nan) (of_Z 0) (of_Z 100) = nan.
Proof. intros H. by rewrite normalized_not_finite. Qed.

(** *** Stepping through the validator *)

Lemma bind_run {A B} (m : Validator A) (f : A → Validator B)
    (errors : list string) :
  (m ≫= f) errors
  = match m errors with
    | Normal (a, errors') => f a errors'
    | Throw => Throw
    end.
Proof. reflexivity. Qed.

Lemma lift_read_run (body : Json) (name : string) (fallback : number)
    (errors : list string) :
  lift (value ← Get body name; Mongo.asNumber value fallback) errors
  = n ← Mongo.read body name; Normal (normalized n fallback, errors).
Proof.
  unfold lift, Mongo.read, Mongo.asNumber.
  destruct (Get body name) as [value|]; [|reflexivity].
  cbn. by destruct (Number_ value).
Qed.

Lemma reqNum_run (body : Json) (name : string) (errors : list string) :
  (Mongo.reqNum body name errors : Completion (number * list string))
  = n ← Mongo.read body name;
    (Normal (normalized n nan,
             errors ++ required_errors name (normalized n nan))
     : Completion _).
Proof.
  unfold Mongo.reqNum.
  unfold mbind at 1. unfold Validator_bind at 1. rewrite lift_read_run.
  destruct (Mongo.read body name) as [n|]; [|reflexivity].
  cbn. unfold required_errors, required_message.
  destruct (negb _ || _); cbn; by rewrite ?app_nil_r.
Qed.

Lemma validateInputs_closed_form (body : Json) :
  Mongo.validateInputs body =
    name ← Get body "scenario_name";
    n1 ← Mongo.read body "monthly_invoice_volume";
    n2 ← Mongo.read body "num_ap_staff";
    n3 ← Mongo.read body "avg_hours_per_invoice";
    n4 ← Mongo.read body "hourly_wage";
    nr ← Mongo.read body "error_rate_manual";
    n5 ← Mongo.read body "error_cost";
    nh ← Mongo.read body "time_horizon_months";
    nc ← Mongo.read body "one_time_implementation_cost";
    Normal (validated name n1 n2 n3 n4 nr n5 nh nc).
Proof.
  unfold Mongo.validateInputs.
  rewrite bind_run. unfold lift at 1.
  destruct (Get body "scenario_name") as [name|]; [|reflexivity].
  do 8 (rewrite bind_run; rewrite ?reqNum_run, ?lift_read_run;
        match goal with
        | |- context [Mongo.read body ?f] =>
            destruct (Mongo.read body f) as [?n|]; [|reflexivity]
        end;
        cbn [mbind Completion_bind]).
  rewrite !bind_run. unfold when, push, mret, Validator_ret.
  unfold validated, rate_errors, horizon_errors.
  cbn [error_rate_manual time_horizon_months monthly_invoice_volume
       num_ap_staff avg_hours_per_invoice hourly_wage error_cost].
  rewrite app_nil_l, <- !app_assoc.
  unfold rate_message, horizon_message.
  destruct (negb (isFinite (Mongo.clamp _ _ _)));
    destruct (negb _ || le _ _); cbv [mbind Validator_bind];
    do 2 f_equal; by rewrite <- ?app_assoc, ?app_nil_r.
Qed.

Lemma validateInputs_inv (body : Json) (inputs : ScenarioInput)
    (errors : list string) :
  Mongo.validateInputs body = Normal (inputs, errors) →
  ∃ name n1 n2 n3 n4 nr n5 nh nc,
    Get body "scenario_name" = Normal name
    ∧ Mongo.read body "monthly_invoice_volume" = Normal n1
    ∧ Mongo.read body "num_ap_staff" = Normal n2
    ∧ Mongo.read body "avg_hours_per_invoice" = Normal n3
    ∧ Mongo.read body "hourly_wage" = Normal n4
    ∧ Mongo.read body "error_rate_manual" = Normal nr
    ∧ Mongo.read body "error_cost" = Normal n5
    ∧ Mongo.read body "time_horizon_months" = Normal nh
    ∧ Mongo.read body "one_time_implementation_cost" = Normal nc
    ∧ (inputs, errors) = validated name n1 n2 n3 n4 nr n5 nh nc.
Proof.
  rewrite validateInputs_closed_form.
  destruct (Get body "scenario_name") as [name|]; [|done].
  repeat match goal with
    | |- context [Mongo.read body ?f ≫= _] =>
        destruct (Mongo.read body f) as [?n|]; [|done]; cbn [mbind Completion_bind]
    end.
  intros [= <- <-]. by eexists _, _, _, _, _, _, _, _, _.
Qed.

Lemma read_inv (body : Json) (name : string) (n : number) :
  Mongo.read body name = Normal n →
  ∃ value, Get body name = Normal value ∧ Number_ value = Normal n.
Proof.
  unfold Mongo.read. destruct (Get body name) as [value|]; [|done].
  intros H. by exists value.
Qed.

Lemma read_unique (body : Json) (name : string) (value : option Json)
    (n m : number) :
  Get body name = Normal value → Number_ value = Normal n →
  Mongo.read body name = Normal m → m = n.
Proof. unfold Mongo.read. intros -> Hn. cbn. rewrite Hn. by intros [=]. Qed.

Lemma Number_missing (n : number) : Number_ None = Normal n → isFinite n = false.
Proof. by intros [= <-]. Qed.

Lemma readable_read (body : Json) (name : string) :
  readable body = true → name ∈ numeric_fields →
  ∃ n, Mongo.read body name = Normal n.
Proof.
  unfold readable. rewrite forallb_forall. intros H Hin.
  apply list_elem_of_In, H in Hin.
  destruct (Mongo.read body name) as [n|]; [by exists n|done].
Qed.

Lemma validateInputs_returns (body : Json) :
  readable body = true →
  ∃ inputs errors, Mongo.validateInputs body = Normal (inputs, errors).
Proof.
  intros Hr'. pose proof (λ name, readable_read body name Hr') as Hr.
  rewrite validateInputs_closed_form.
  assert (∃ name, Get body "scenario_name" = Normal name) as [name ->].
  { destruct (Hr "error_cost") as [n Hn]; [in_list|].
    destruct body; try done; by eexists. }
  repeat match goal with
    | |- context [Mongo.read body ?f ≫= _] =>
        let H := fresh in
        destruct (Hr f) as [? H]; [in_list|]; rewrite H;
        cbn [mbind Completion_bind]
    end.
  cbn [mbind Completion_bind].
  destruct (validated _ _ _ _ _ _ _ _ _) as [i e]. by exists i, e.
Qed.

(** The validator returns exactly on the readable bodies. *)
Lemma validateInputs_throws (body : Json) :
  readable body = false → Mongo.validateInputs body = Throw.
Proof.
  intros Hr. rewrite validateInputs_closed_form.
  destruct (Get body "scenario_name") as [name|]; [|reflexivity].
  unfold readable, numeric_fields in Hr. cbn [forallb] in Hr.
  repeat match goal with
    | |- context [Mongo.read body ?f ≫= _] =>
        destruct (Mongo.read body f) as [?n|];
        [cbn [mbind Completion_bind]|reflexivity]
    end.
  discriminate Hr.
Qed.

(** Splits [validateInputs body = Normal (inputs, errors)] into the reads
    of [body] and replaces [inputs] and [errors] by what they were built
    from. *)
Ltac invert_validate Hv :=
  let Heq := fresh "Heq" in
  destruct (validateInputs_inv _ _ _ Hv)
    as (?nm & ?n1 & ?n2 & ?n3 & ?n4 & ?nr & ?n5 & ?nh & ?nc
        & ?Hnm & ?H1 & ?H2 & ?H3 & ?H4 & ?Hr & ?H5 & ?Hh & ?Hc & Heq);
  match type of Heq with
  | (?i, ?e) = ?v =>
      assert (e = v.2) as -> by (by rewrite <- Heq);
      assert (i = v.1) as -> by (by rewrite <- Heq)
  end;
  clear Heq.

(** *** The messages of a validation *)

Lemma required_condition (n : number) :
  negb (isFinite (normalized n nan)) || lt (normalized n nan) (of_Z 0) = true
  ↔ isFinite n = false ∨ lt n (of_Z 0) = true.
Proof.
  unfold normalized. destruct (isFinite n) eqn:Hn.
  - rewrite Hn. cbn. naive_solver.
  - cbn. naive_solver.
Qed.

Lemma elem_of_required_errors (msg name : string) (n : number) :
  msg ∈ required_errors name (normalized n nan)
  ↔ msg = required_message name ∧ (isFinite n = false ∨ lt n (of_Z 0) = true).
Proof.
  rewrite <- required_condition. unfold required_errors.
  destruct (negb _ || _).
  - rewrite list_elem_of_singleton. naive_solver.
  - rewrite elem_of_nil. naive_solver.
Qed.

Lemma elem_of_rate_errors (msg : string) (r : number) :
  msg ∈ rate_errors r ↔ msg = rate_message ∧ isFinite r = false.
Proof.
  unfold rate_errors. destruct (isFinite r); cbn.
  - rewrite elem_of_nil. naive_solver.
  - rewrite list_elem_of_singleton. naive_solver.
Qed.

Lemma elem_of_horizon_errors (msg : string) (h : number) :
  msg ∈ horizon_errors h
  ↔ msg = horizon_message ∧ (isFinite h = false ∨ le h (of_Z 0) = true).
Proof.
  unfold horizon_errors. destruct (isFinite h); cbn.
  - destruct (le h (of_Z 0)).
    + rewrite list_elem_of_singleton. naive_solver.
    + rewrite elem_of_nil. naive_solver.
  - rewrite list_elem_of_singleton. naive_solver.
Qed.

Lemma elem_of_validated_errors (msg : string) (name : option Json)
    (n1 n2 n3 n4 nr n5 nh nc : number) :
  msg ∈ (validated name n1 n2 n3 n4 nr n5 nh nc).2 ↔
    (msg = required_message "monthly_invoice_volume"
       ∧ (isFinite n1 = false ∨ lt n1 (of_Z 0) = true))
    ∨ (msg = required_message "num_ap_staff"
       ∧ (isFinite n2 = false ∨ lt n2 (of_Z 0) = true))
    ∨ (msg = required_message "avg_hours_per_invoice"
       ∧ (isFinite n3 = false ∨ lt n3 (of_Z 0) = true))
    ∨ (msg = required_message "hourly_wage"
       ∧ (isFinite n4 = false ∨ lt n4 (of_Z 0) = true))
    ∨ (msg = required_message "error_cost"
       ∧ (isFinite n5 = false ∨ lt n5 (of_Z 0) = true))
    ∨ (msg = rate_message
       ∧ isFinite (Mongo.clamp (normalized nr nan) (of_Z 0) (of_Z 100)) = false)
    ∨ (msg = horizon_message
       ∧ (isFinite (normalized nh (of_Z 36)) = false
          ∨ le (normalized nh (of_Z 36)) (of_Z 0) = true)).
Proof.
  unfold validated. cbn [snd monthly_invoice_volume num_ap_staff
    avg_hours_per_invoice hourly_wage error_rate_manual error_cost
    time_horizon_months].
  rewrite !elem_of_app, !elem_of_required_errors, elem_of_rate_errors,
    elem_of_horizon_errors. tauto.
Qed.

Lemma count_occ_required (msg name : string) (v : number) :
  msg ≠ required_message name →
  count_occ string_dec (required_errors name v) msg = 0%nat.
Proof.
  intros Hne. unfold required_errors. destruct (negb _ || _); [|done].
  by rewrite count_occ_cons_neq.
Qed.

Lemma count_occ_rate (msg : string) (r : number) :
  msg ≠ rate_message → count_occ string_dec (rate_errors r) msg = 0%nat.
Proof.
  intros Hne. unfold rate_errors. destruct (negb _); [|done].
  by rewrite count_occ_cons_neq.
Qed.


(** *** The calculator and the collection *)

Lemma roi_percentage_zero_cost_branch (inputs : ScenarioInput) :
  gt (one_time_implementation_cost inputs) (of_Z 0) = false →
  roi_percentage (Mongo.simulate inputs)
  = if gt (Mongo.cumulative_savings_value inputs) (of_Z 0)
    then of_Z 999 else of_Z 0.
Proof.
  intros H. unfold Mongo.simulate; cbn [roi_percentage].
  unfold Mongo.roi_percentage_value. rewrite H.
  destruct (gt (Mongo.cumulative_savings_value inputs) _);
    [apply round2_999|apply round2_0].
Qed.

Lemma simulate_with_name (inputs : ScenarioInput) (name : string) :
  Mongo.simulate (Mongo.with_name inputs name) = Mongo.simulate inputs.
Proof. reflexivity. Qed.

Lemma or_empty_id (s : string) : Mongo.or_empty s = s.
Proof.
  unfold Mongo.or_empty. destruct (String.eqb_spec s ""); by subst.
Qed.

Lemma create_inv (env : Mongo.Env) (st st' : Mongo.Store) (name : string)
    (inputs : ScenarioInput) (results : ROIResult) (doc : Mongo.Scenario) :
  Mongo.create env st name inputs results = Some (doc, st') →
  st !! Mongo.new_id env = None
  ∧ st' = <[Mongo.new_id env := doc]> st
  ∧ Mongo.doc_id doc = Mongo.new_id env
  ∧ Mongo.doc_scenario_name doc = name
  ∧ Mongo.doc_inputs doc = inputs
  ∧ Mongo.doc_results doc = results.
Proof.
  unfold Mongo.create.
  destruct (Mongo.db_up env); [|done]. cbn [andb].
  destruct (bool_decide_reflect (st !! Mongo.new_id env = None)); [|done].
  cbn [andb].
  destruct (Mongo.cast_inputs inputs); [|done]. cbn [andb].
  destruct (Mongo.cast_results results); [|done].
  by intros [= <- <-].
Qed.

(** A successful save, taken apart. *)
Lemma post_scenarios_saved (env : Mongo.Env) (st st' : Mongo.Store)
    (req_body : option Json) (id : Mongo.Id) (name : string) :
  Mongo.post_scenarios env st req_body = (Mongo.Json200Saved id name, st') →
  ∃ inputs doc,
    Mongo.validateInputs (Mongo.scenarios_body req_body) = Normal (inputs, [])
    ∧ st !! id = None
    ∧ st' = <[id := doc]> st
    ∧ Mongo.doc_id doc = id
    ∧ Mongo.doc_scenario_name doc = name
    ∧ Mongo.doc_inputs doc = Mongo.with_name inputs name
    ∧ Mongo.doc_results doc = Mongo.simulate inputs.
Proof.
  unfold Mongo.post_scenarios.
  destruct (Mongo.validateInputs _) as [[inputs errors]|]; [|done].
  destruct errors as [|e errors]; [|done].
  rewrite bool_decide_false by (by intros []).
  cbv zeta.
  destruct (if String.eqb _ "" then _ else _) as [scenarioName|]; [|done].
  destruct (Mongo.create _ _ _ _ _) as [[doc st1]|] eqn:Hcreate; [|done].
  rewrite or_empty_id. intros [= <- <- <-].
  apply create_inv in Hcreate as (Hfresh & -> & Hid & Hname & Hin & Hres).
  exists inputs, doc. rewrite Hid, Hname. by repeat split.
Qed.

Lemma post_scenarios_store (env : Mongo.Env) (st : Mongo.Store)
    (req_body : option Json) :
  (Mongo.post_scenarios env st req_body).2 = st
  ∨ ∃ id name, Mongo.post_scenarios env st req_body
               = (Mongo.Json200Saved id name,
                  (Mongo.post_scenarios env st req_body).2).
Proof.
  unfold Mongo.post_scenarios.
  destruct (Mongo.validateInputs _) as [[inputs errors]|]; [|by left].
  destruct (bool_decide _); [by left|]. cbv zeta.
  destruct (if String.eqb _ "" then _ else _) as [scenarioName|]; [|by left].
  destruct (Mongo.create _ _ _ _ _) as [[doc st1]|]; [|by left].
  right. by eexists _, _.
Qed.

Lemma reachable_consistent (st : Mongo.Store) :
  Mongo.reachable st → consistent st.
Proof.
  induction 1 as [|env st req_body _ IH|env st id _ IH].
  - apply map_Forall_empty.
  - destruct (post_scenarios_store env st req_body) as [->|(id & name & Hp)];
      [exact IH|].
    apply post_scenarios_saved in Hp
      as (inputs & doc & _ & _ & -> & Hid & _ & Hin & Hres).
    apply map_Forall_insert_2; [|exact IH].
    split; [exact Hid|]. by rewrite Hin, simulate_with_name.
  - unfold Mongo.delete_scenario.
    destruct (Mongo.db_up env); [|exact IH].
    destruct (st !! id); [|exact IH].
    by apply map_Forall_delete.
Qed.

(** ** The specification, claim by claim *)

(** C1. For the canonical input record (volume 2000, staff 3, 0.17 hours
    per invoice, wage 30, manual error rate 0.5, error cost 100, horizon
    36, one-time cost 50000), [simulate] returns monthly_savings 34100.00,
    cumulative_savings 1227600.00, net_savings 1177600.00, payback_months
    1.47 and roi_percentage 2355.20: the returned numbers are the doubles
    of these decimals, [toFixed(2)] prints exactly these digits, and the
    record is what [validateInputs] makes of the body that spells it. *)
Theorem canonical_scenario_results :
  Mongo.simulate canonical =
    {| monthly_savings := lit 3410000 2;
       cumulative_savings := lit 122760000 2;
       net_savings := lit 117760000 2;
       payback_months := Some (lit 147 2);
       roi_percentage := lit 235520 2 |}
  ∧ toFixed2 (Mongo.monthly_savings_value canonical)
    = FixedDigits false 3410000
  ∧ toFixed2 (Mongo.cumulative_savings_value canonical)
    = FixedDigits false 122760000
  ∧ toFixed2 (Mongo.net_savings_value canonical)
    = FixedDigits false 117760000
  ∧ toFixed2 <$> Mongo.payback_months_value canonical
    = Some (FixedDigits false 147)
  ∧ toFixed2 (Mongo.roi_percentage_value canonical)
    = FixedDigits false 235520
  ∧ Mongo.validateInputs (body_of canonical) = Normal (canonical, []).
Proof. repeat split; by vm_compute. Qed.

(** C2. For every input record (well-formed or not): when
    one_time_implementation_cost > 0, roi_percentage is
    (net_savings / one_time_implementation_cost) * 100 on the unrounded
    net savings, rounded to two decimals; otherwise it is 999 when the
    unrounded cumulative_savings > 0 and 0 when cumulative_savings <= 0. *)
Theorem roi_percentage_rule (inputs : ScenarioInput) :
  (gt (one_time_implementation_cost inputs) (of_Z 0) = true →
     roi_percentage (Mongo.simulate inputs)
     = round2 (mul (div (Mongo.net_savings_value inputs)
                      (one_time_implementation_cost inputs))
                 (of_Z 100)))
  ∧ (gt (one_time_implementation_cost inputs) (of_Z 0) = false →
     gt (Mongo.cumulative_savings_value inputs) (of_Z 0) = true →
     roi_percentage (Mongo.simulate inputs) = of_Z 999)
  ∧ (gt (one_time_implementation_cost inputs) (of_Z 0) = false →
     le (Mongo.cumulative_savings_value inputs) (of_Z 0) = true →
     roi_percentage (Mongo.simulate inputs) = of_Z 0).
Proof.
  unfold Mongo.simulate; cbn [roi_percentage].
  unfold Mongo.roi_percentage_value. repeat split.
  - by intros ->.
  - intros -> ->. apply round2_999.
  - intros -> Hle. rewrite (le_zero_not_gt _ Hle). apply round2_0.
Qed.

Lemma roi_percentage_rule_witness :
  (gt (one_time_implementation_cost canonical) (of_Z 0) = true
   ∧ roi_percentage (Mongo.simulate canonical)
     = round2 (mul (div (Mongo.net_savings_value canonical)
                      (one_time_implementation_cost canonical))
                 (of_Z 100)))
  ∧ (gt (of_Z 0) (of_Z 0) = false
     ∧ gt (Mongo.cumulative_savings_value (with_cost canonical (of_Z 0)))
         (of_Z 0) = true
     ∧ roi_percentage (Mongo.simulate (with_cost canonical (of_Z 0)))
       = of_Z 999).
Proof.
  split.
  - split; [by vm_compute|].
    apply (proj1 (roi_percentage_rule canonical)). by vm_compute.
  - split; [by vm_compute|]. split; [by vm_compute|].
    apply (proj1 (proj2 (roi_percentage_rule (with_cost canonical (of_Z 0)))));
      by vm_compute.
Defined.

(** C3, as the specification states it, fails: for the well-formed input
    [overflowing], which the validator accepts without an error, the
    unrounded monthly savings are NaN (an infinite labour cost plus
    infinite negative error savings), so payback_months is null although
    monthly_savings <= 0 is false. *)
Lemma payback_null_counterexample :
  well_formed overflowing = true
  ∧ Mongo.validateInputs (body_of overflowing) = Normal (overflowing, [])
  ∧ ¬ (payback_months (Mongo.simulate overflowing) = None
       ↔ le (Mongo.monthly_savings_value overflowing) (of_Z 0) = true).
Proof.
  split; [by vm_compute|]. split; [by vm_compute|].
  intros [H _]. specialize (H ltac:(by vm_compute)).
  by vm_compute in H.
Qed.

(** C3, amended. For every input record, payback_months is null if and
    only if the unrounded monthly_savings is not greater than zero, that
    is when it is <= 0 or NaN; in particular it is null whenever
    monthly_savings <= 0; and when monthly_savings > 0 it is
    one_time_implementation_cost / monthly_savings rounded to two
    decimals. *)
Theorem payback_months_rule (inputs : ScenarioInput) :
  (payback_months (Mongo.simulate inputs) = None
   ↔ gt (Mongo.monthly_savings_value inputs) (of_Z 0) = false)
  ∧ (le (Mongo.monthly_savings_value inputs) (of_Z 0) = true →
     payback_months (Mongo.simulate inputs) = None)
  ∧ (gt (Mongo.monthly_savings_value inputs) (of_Z 0) = true →
     payback_months (Mongo.simulate inputs)
     = Some (round2 (div (one_time_implementation_cost inputs)
                       (Mongo.monthly_savings_value inputs)))).
Proof.
  unfold Mongo.simulate; cbn [payback_months].
  unfold Mongo.payback_months_value.
  split; [|split].
  - by destruct (gt (Mongo.monthly_savings_value inputs) (of_Z 0)).
  - intros H. by rewrite (le_zero_not_gt _ H).
  - by intros ->.
Qed.

Lemma payback_months_rule_witness :
  (gt (Mongo.monthly_savings_value canonical) (of_Z 0) = true
   ∧ payback_months (Mongo.simulate canonical)
     = Some (round2 (div (one_time_implementation_cost canonical)
                       (Mongo.monthly_savings_value canonical))))
  ∧ (gt (Mongo.monthly_savings_value overflowing) (of_Z 0) = false
     ∧ payback_months (Mongo.simulate overflowing) = None).
Proof.
  split.
  - split; [by vm_compute|].
    apply (proj2 (proj2 (payback_months_rule canonical))). by vm_compute.
  - split; [by vm_compute|].
    apply (proj1 (payback_months_rule overflowing)). by vm_compute.
Defined.





(** What a returned validation says of a required field. *)
Lemma required_field_returned (body : Json) (inputs : ScenarioInput)
    (errors : list string) (name : string) (field : ScenarioInput → number) :
  Mongo.validateInputs body = Normal (inputs, errors) →
  (name, field) ∈ required_fields →
  ∃ value n,
    Get body name = Normal value ∧ Number_ value = Normal n
    ∧ (required_message name ∈ errors
       ↔ value = None ∨ isFinite n = false ∨ lt n (of_Z 0) = true)
    ∧ (isFinite n = false → field inputs = nan)
    ∧ (isFinite n = true → field inputs = n).
Proof.
  intros Hv Hin.
  destruct (validateInputs_inv _ _ _ Hv)
    as (nm & n1 & n2 & n3 & n4 & nr & n5 & nh & nc
        & Hnm & H1 & H2 & H3 & H4 & Hr & H5 & Hh & Hc & Heq).
  assert (errors = (validated nm n1 n2 n3 n4 nr n5 nh nc).2) as ->
    by by rewrite <- Heq.
  assert (inputs = (validated nm n1 n2 n3 n4 nr n5 nh nc).1) as ->
    by by rewrite <- Heq.
  clear Heq Hv.
  unfold required_fields in Hin.
  repeat (apply elem_of_cons in Hin as [[= -> ->]|Hin]);
    [| | | | |by apply elem_of_nil in Hin].
  all: match goal with
       | H : Mongo.read ?b ?f = Normal ?n |- context [Get ?b ?f] =>
           destruct (read_inv _ _ _ H) as (value & Hget & Hnum);
           exists value, n
       end.
  all: split; [exact Hget|]; split; [exact Hnum|].
  all: split; [|split; intros Hf; cbn [fst validated monthly_invoice_volume
         num_ap_staff avg_hours_per_invoice hourly_wage error_cost];
         unfold normalized; by rewrite Hf].
  all: rewrite elem_of_validated_errors.
  all: split.
  all: try (intros [-> | [Hf | Hl]];
            [apply Number_missing in Hnum| |]; tauto).
  all: intros H; right; revert H.
  all: unfold required_message, rate_message, horizon_message.
  all: intros [[[=] ?]|[[[=] ?]|[[[=] ?]|[[[=] ?]|[[[=] ?]|[[[=] ?]|[[=] ?]]]]]]];
       assumption.
Qed.

(** C5, as the specification states it, fails: in the raw input
    [body_of canonical] with the required field hourly_wage replaced by the
    object [unconvertible], the field fails to parse to a finite number
    (the conversion throws), yet the message "hourly_wage must be a
    non-negative number" is not added: the validator throws and returns no
    errors at all. *)
Lemma required_field_throws_counterexample :
  let body := override (body_of canonical) "hourly_wage" unconvertible in
  ("hourly_wage", hourly_wage) ∈ required_fields
  ∧ Get body "hourly_wage" = Normal (Some unconvertible)
  ∧ Number_ (Some unconvertible) = Throw
  ∧ Mongo.validateInputs body = Throw
  ∧ ¬ (∃ inputs errors,
         Mongo.validateInputs body = Normal (inputs, errors)
         ∧ required_message "hourly_wage" ∈ errors).
Proof.
  intros body.
  split; [unfold required_fields; set_solver|].
  split; [by vm_compute|]. split; [by vm_compute|].
  split; [by vm_compute|].
  intros (inputs & errors & Hv & _).
  vm_compute in Hv. discriminate Hv.
Qed.

(** C5, amended. For every raw input and each of the five required fields
    monthly_invoice_volume, num_ap_staff, avg_hours_per_invoice,
    hourly_wage, error_cost, whatever record and errors the validator
    returns: the field converts to a Number without throwing, and the
    message "<field> must be a non-negative number" is among the errors
    if and only if the field is missing, or does not convert to a finite
    number, or converts to a negative one; a value that does not convert
    to a finite number is kept as NaN in the record (never as zero), any
    other value as the number it converts to. And the validator returns on
    every body none of whose numeric properties throws on conversion. *)
Theorem required_field_error_iff (body : Json) (name : string)
    (field : ScenarioInput → number) :
  (name, field) ∈ required_fields →
  (∀ inputs errors,
     Mongo.validateInputs body = Normal (inputs, errors) →
     ∃ value n,
       Get body name = Normal value ∧ Number_ value = Normal n
       ∧ (required_message name ∈ errors
          ↔ value = None ∨ isFinite n = false ∨ lt n (of_Z 0) = true)
       ∧ (isFinite n = false → field inputs = nan)
       ∧ (isFinite n = true → field inputs = n))
  ∧ (readable body = true →
     ∃ inputs errors, Mongo.validateInputs body = Normal (inputs, errors)).
Proof.
  intros Hin. split.
  - intros inputs errors Hv.
    exact (required_field_returned body inputs errors name field Hv Hin).
  - apply validateInputs_returns.
Qed.

Lemma required_field_error_iff_witness :
  let body := override (body_of canonical) "hourly_wage" (JString "abc") in
  ∃ inputs errors,
    Mongo.validateInputs body = Normal (inputs, errors)
    ∧ required_message "hourly_wage" ∈ errors
    ∧ hourly_wage inputs = nan.
Proof.
  intros body.
  destruct (required_field_error_iff body "hourly_wage" hourly_wage)
    as [Hrule Hreturns]; [in_list|].
  destruct Hreturns as (inputs & errors & Hv); [by vm_compute|].
  exists inputs, errors. split; [exact Hv|].
  destruct (Hrule inputs errors Hv)
    as (value & n & Hget & Hnum & Hiff & Hnan & _).
  injection Hget as <-. injection Hnum as <-.
  split; [apply Hiff; right; left|apply Hnan]; by vm_compute.
Defined.

(** What a returned validation says of the horizon. *)
Lemma time_horizon_returned (body : Json) (inputs : ScenarioInput)
    (errors : list string) :
  Mongo.validateInputs body = Normal (inputs, errors) →
  ∃ value n,
    Get body "time_horizon_months" = Normal value ∧ Number_ value = Normal n
    ∧ (value = None ∨ isFinite n = false →
         time_horizon_months inputs = of_Z 36 ∧ horizon_message ∉ errors)
    ∧ (isFinite n = true → le n (of_Z 0) = true →
         time_horizon_months inputs = n
         ∧ count_occ string_dec errors horizon_message = 1%nat)
    ∧ (isFinite n = true → le n (of_Z 0) = false →
         time_horizon_months inputs = n ∧ horizon_message ∉ errors).
Proof.
  intros Hv. invert_validate Hv.
  destruct (read_inv _ _ _ Hh) as (value & Hget & Hnum).
  exists value, nh. split; [exact Hget|]. split; [exact Hnum|].
  cbn [fst snd validated time_horizon_months monthly_invoice_volume
       num_ap_staff avg_hours_per_invoice hourly_wage error_rate_manual
       error_cost].
  repeat split.
  - destruct H as [-> | Hf]; [apply Number_missing in Hnum|];
      by apply normalized_not_finite.
  - rewrite !elem_of_app, !elem_of_required_errors, elem_of_rate_errors,
      elem_of_horizon_errors.
    assert (isFinite nh = false) as Hf
      by (destruct H as [-> | Hf]; [by apply Number_missing in Hnum|done]).
    rewrite (normalized_not_finite _ (of_Z 36) Hf).
    unfold required_message, rate_message, horizon_message.
    intros [[[=] ?]|[[[=] ?]|[[[=] ?]|[[[=] ?]|[[[=] ?]|[[[=] ?]|[_ [?|?]]]]]]]];
      done.
  - unfold normalized. by rewrite H.
  - rewrite !count_occ_app, !count_occ_required, count_occ_rate by done.
    rewrite (normalized_finite _ _ H). unfold horizon_errors.
    rewrite H, H0. cbn [negb orb]. by rewrite count_occ_cons_eq.
  - unfold normalized. by rewrite H.
  - rewrite !elem_of_app, !elem_of_required_errors, elem_of_rate_errors,
      elem_of_horizon_errors.
    rewrite (normalized_finite _ _ H).
    unfold required_message, rate_message, horizon_message.
    intros [[[=] ?]|[[[=] ?]|[[[=] ?]|[[[=] ?]|[[[=] ?]|[[[=] ?]|[_ [?|?]]]]]]]];
      congruence.
Qed.

(** C6, as the specification states it, fails: in the raw input
    [body_of canonical] with time_horizon_months replaced by the object
    [unconvertible], the field does not parse to a finite number (the
    conversion throws), yet it is not resolved to the default 36: the
    validator throws and returns no record. *)
Lemma time_horizon_throws_counterexample :
  let body := override (body_of canonical) "time_horizon_months"
                unconvertible in
  Get body "time_horizon_months" = Normal (Some unconvertible)
  ∧ Number_ (Some unconvertible) = Throw
  ∧ Mongo.validateInputs body = Throw
  ∧ ¬ (∃ inputs errors,
         Mongo.validateInputs body = Normal (inputs, errors)
         ∧ time_horizon_months inputs = of_Z 36).
Proof.
  intros body.
  split; [by vm_compute|]. split; [by vm_compute|].
  split; [by vm_compute|].
  intros (inputs & errors & Hv & _).
  vm_compute in Hv. discriminate Hv.
Qed.

(** C6, amended. For every raw input, whatever record and errors the
    validator returns: time_horizon_months converts to a Number without
    throwing; if it is missing or does not convert to a finite number, the
    field becomes the default 36 and the message "time_horizon_months must
    be > 0" is not among the errors; if it converts to a finite number
    <= 0, the field keeps that number and the message is among the errors
    exactly once; a finite number > 0 is kept without that message. And
    the validator returns on every body none of whose numeric properties
    throws on conversion. *)
Theorem time_horizon_default (body : Json) :
  (∀ inputs errors,
     Mongo.validateInputs body = Normal (inputs, errors) →
     ∃ value n,
       Get body "time_horizon_months" = Normal value
       ∧ Number_ value = Normal n
       ∧ (value = None ∨ isFinite n = false →
            time_horizon_months inputs = of_Z 36 ∧ horizon_message ∉ errors)
       ∧ (isFinite n = true → le n (of_Z 0) = true →
            time_horizon_months inputs = n
            ∧ count_occ string_dec errors horizon_message = 1%nat)
       ∧ (isFinite n = true → le n (of_Z 0) = false →
            time_horizon_months inputs = n ∧ horizon_message ∉ errors))
  ∧ (readable body = true →
     ∃ inputs errors, Mongo.validateInputs body = Normal (inputs, errors)).
Proof.
  split.
  - intros inputs errors Hv.
    exact (time_horizon_returned body inputs errors Hv).
  - apply validateInputs_returns.
Qed.

Lemma time_horizon_default_witness :
  let soon := override (body_of canonical) "time_horizon_months"
                (JString "soon") in
  let zero := override (body_of canonical) "time_horizon_months"
                (JNumber (of_Z 0)) in
  (∃ inputs errors,
     Mongo.validateInputs soon = Normal (inputs, errors)
     ∧ time_horizon_months inputs = of_Z 36
     ∧ horizon_message ∉ errors)
  ∧ (∃ inputs errors,
       Mongo.validateInputs zero = Normal (inputs, errors)
       ∧ count_occ string_dec errors horizon_message = 1%nat).
Proof.
  intros soon zero. split.
  - destruct (time_horizon_default soon) as [Hrule Hreturns].
    destruct Hreturns as (inputs & errors & Hv); [by vm_compute|].
    exists inputs, errors. split; [exact Hv|].
    destruct (Hrule inputs errors Hv)
      as (value & n & Hget & Hnum & Hdefault & _).
    injection Hget as <-. injection Hnum as <-.
    apply Hdefault. right. by vm_compute.
  - destruct (time_horizon_default zero) as [Hrule Hreturns].
    destruct Hreturns as (inputs & errors & Hv); [by vm_compute|].
    exists inputs, errors. split; [exact Hv|].
    destruct (Hrule inputs errors Hv)
      as (value & n & Hget & Hnum & _ & Hle & _).
    injection Hget as <-. injection Hnum as <-.
    apply Hle; by vm_compute.
Defined.

(** C7. POST /simulate is all-or-nothing. For every request body,
    whatever record and errors the validator returns: when the list of
    errors is not empty the response is the 400 carrying that whole list,
    and no result; when it is empty the response is the 200 carrying
    exactly [simulate] of the normalized record. The validator returns on
    every body none of whose numeric properties throws on conversion; on
    the others the exception leaves the handler. *)
Theorem simulate_all_or_nothing (req_body : option Json) :
  (∀ inputs errors,
     Mongo.validateInputs (Mongo.simulate_body req_body)
       = Normal (inputs, errors) →
     (errors ≠ [] →
        Mongo.post_simulate req_body = Mongo.Json400Errors errors)
     ∧ (errors = [] →
          Mongo.post_simulate req_body
          = Mongo.Json200Result (Mongo.simulate inputs)))
  ∧ (readable (Mongo.simulate_body req_body) = true →
     ∃ inputs errors,
       Mongo.validateInputs (Mongo.simulate_body req_body)
         = Normal (inputs, errors))
  ∧ (readable (Mongo.simulate_body req_body) = false →
     Mongo.post_simulate req_body = Mongo.Uncaught).
Proof.
  split; [|split].
  - intros inputs errors Hv. unfold Mongo.post_simulate. rewrite Hv. split.
    + intros Hne. rewrite bool_decide_true; [done|].
      by destruct errors.
    + by intros ->.
  - apply validateInputs_returns.
  - intros Hr. unfold Mongo.post_simulate.
    by rewrite (validateInputs_throws _ Hr).
Qed.

Lemma simulate_all_or_nothing_witness :
  Mongo.post_simulate (Some (body_of canonical))
    = Mongo.Json200Result (Mongo.simulate canonical)
  ∧ Mongo.post_simulate None
    = Mongo.Json400Errors
        [ required_message "monthly_invoice_volume";
          required_message "num_ap_staff";
          required_message "avg_hours_per_invoice";
          required_message "hourly_wage";
          required_message "error_cost";
          rate_message ].
Proof.
  split.
  - apply (proj1 (simulate_all_or_nothing (Some (body_of canonical)))
             canonical []); [by vm_compute|reflexivity].
  - refine (proj1 (proj1 (simulate_all_or_nothing None)
                     (validated None nan nan nan nan nan nan nan nan).1
                     _ _) _); [by vm_compute|done].
Defined.

(** A stored document is never changed in place: a save leaves the other
    documents as they are, and so does the deletion of another one. *)
Lemma post_scenarios_keeps (env : Mongo.Env) (st : Mongo.Store)
    (req_body : option Json) (id : Mongo.Id) (doc : Mongo.Scenario) :
  st !! id = Some doc →
  (Mongo.post_scenarios env st req_body).2 !! id = Some doc.
Proof.
  intros Hdoc.
  destruct (post_scenarios_store env st req_body) as [->|(id' & name & Hp)];
    [exact Hdoc|].
  apply post_scenarios_saved in Hp as (inputs & doc' & _ & Hfresh & -> & _).
  rewrite lookup_insert_ne; [exact Hdoc|]. intros ->. congruence.
Qed.

Lemma delete_scenario_keeps (env : Mongo.Env) (st : Mongo.Store)
    (id id' : Mongo.Id) (doc : Mongo.Scenario) :
  st !! id = Some doc → id ≠ id' →
  (Mongo.delete_scenario env st id').2 !! id = Some doc.
Proof.
  intros Hdoc Hne. unfold Mongo.delete_scenario.
  destruct (Mongo.db_up env); [|exact Hdoc].
  destruct (st !! id'); [|exact Hdoc].
  cbn [snd]. by rewrite lookup_delete_ne.
Qed.

(** C8. Every scenario in a collection the server can reach holds
    results = [simulate] of the inputs stored with it; when POST /scenarios
    answers with an id and a name, loading that id returns the document
    whose inputs are the validated inputs under that name (generated or
    given) and whose results are [simulate] of the validated inputs, which
    is also [simulate] of the stored inputs; and a stored document stays
    as it is through later saves and through deletions of other ids. *)
Theorem saved_results_are_computed (st : Mongo.Store) :
  Mongo.reachable st →
  (∀ id doc, st !! id = Some doc →
     Mongo.doc_results doc = Mongo.simulate (Mongo.doc_inputs doc))
  ∧ (∀ env req_body id name st',
       Mongo.post_scenarios env st req_body
         = (Mongo.Json200Saved id name, st') →
       ∃ inputs doc,
         Mongo.validateInputs (Mongo.scenarios_body req_body)
           = Normal (inputs, [])
         ∧ (∀ env', Mongo.db_up env' = true →
              Mongo.get_scenario env' st' id = Mongo.Json200Scenario doc)
         ∧ Mongo.doc_scenario_name doc = name
         ∧ Mongo.doc_inputs doc = Mongo.with_name inputs name
         ∧ Mongo.doc_results doc = Mongo.simulate inputs
         ∧ Mongo.doc_results doc = Mongo.simulate (Mongo.doc_inputs doc))
  ∧ (∀ id doc, st !! id = Some doc →
       (∀ env req_body,
          (Mongo.post_scenarios env st req_body).2 !! id = Some doc)
       ∧ (∀ env id', id ≠ id' →
            (Mongo.delete_scenario env st id').2 !! id = Some doc)).
Proof.
  intros Hreach. split; [|split].
  - intros id doc Hdoc.
    by destruct (reachable_consistent st Hreach id doc Hdoc).
  - intros env req_body id name st' Hpost.
    destruct (post_scenarios_saved _ _ _ _ _ _ Hpost)
      as (inputs & doc & Hv & _ & -> & Hid & Hname & Hin & Hres).
    exists inputs, doc. split; [exact Hv|]. split; [|split; [exact Hname|]].
    + intros env' Hup. unfold Mongo.get_scenario.
      rewrite Hup, lookup_insert_eq, or_empty_id. by destruct doc.
    + split; [exact Hin|]. split; [exact Hres|].
      by rewrite Hin, simulate_with_name.
  - intros id doc Hdoc. split.
    + intros env req_body. by apply post_scenarios_keeps.
    + intros env id' Hne. by apply delete_scenario_keeps.
Qed.

Lemma saved_results_are_computed_witness :
  Mongo.reachable saved_once
  ∧ ∃ doc, saved_once !! 1%positive = Some doc
           ∧ Mongo.doc_scenario_name doc = "Scenario 1"
           ∧ Mongo.doc_results doc = Mongo.simulate (Mongo.doc_inputs doc).
Proof.
  assert (Mongo.reachable saved_once) as Hreach
    by apply Mongo.reachable_post, Mongo.reachable_empty.
  split; [exact Hreach|].
  destruct (saved_once !! 1%positive) as [doc|] eqn:Hdoc;
    [|by vm_compute in Hdoc].
  exists doc. split; [reflexivity|]. split.
  - vm_compute in Hdoc. by injection Hdoc as <-.
  - exact (proj1 (saved_results_are_computed saved_once Hreach) _ _ Hdoc).
Defined.

(** C9. The validation and calculation core does not depend on the
    storage backend: [validateInputs] and [simulate] of the MongoDB server
    and of the PostgreSQL server are extensionally equal. *)
Theorem core_independent_of_backend :
  (∀ body, Mongo.validateInputs body = Pg.validateInputs body)
  ∧ (∀ inputs, Mongo.simulate inputs = Pg.simulate inputs).
Proof. split; reflexivity. Qed.

(** What a returned validation says of a negative cost. *)
Lemma negative_cost_returned (body : Json) (inputs : ScenarioInput)
    (errors : list string) (value : option Json) (n : number) :
  Mongo.validateInputs body = Normal (inputs, errors) →
  Get body "one_time_implementation_cost" = Normal value →
  Number_ value = Normal n →
  isFinite n = true → lt n (of_Z 0) = true →
  one_time_implementation_cost inputs = n
  ∧ (∀ msg, msg ∈ errors → msg ∈ known_messages)
  ∧ (∀ body' inputs' errors',
       Mongo.validateInputs body' = Normal (inputs', errors') →
       (∀ name, name ∈ numeric_fields →
                name ≠ "one_time_implementation_cost" →
                Mongo.read body' name = Mongo.read body name) →
       errors' = errors)
  ∧ roi_percentage (Mongo.simulate inputs)
    = if gt (Mongo.cumulative_savings_value inputs) (of_Z 0)
      then of_Z 999 else of_Z 0.
Proof.
  intros Hv Hget Hnum Hf Hneg. pose proof Hv as Hv0. invert_validate Hv.
  rewrite (read_unique _ _ _ _ _ Hget Hnum Hc) in *. clear Hc.
  assert (one_time_implementation_cost
            (validated nm n1 n2 n3 n4 nr n5 nh n).1 = n) as Hcost.
  { cbn [fst validated one_time_implementation_cost].
    by apply normalized_finite. }
  split; [exact Hcost|]. split; [|split].
  - intros msg. rewrite elem_of_validated_errors. unfold known_messages.
    intros [[-> _]|[[-> _]|[[-> _]|[[-> _]|[[-> _]|[[-> _]|[-> _]]]]]]];
      by vm_compute; in_list.
  - intros body' inputs' errors' Hv' Hsame. invert_validate Hv'.
    repeat match goal with
      | Ha : Mongo.read body ?f = Normal ?a,
        Hb : Mongo.read body' ?f = Normal ?b |- _ =>
          rewrite (Hsame f) in Hb by (by in_list || done);
          rewrite Ha in Hb; injection Hb as ->; clear Ha
      end.
    reflexivity.
  - apply roi_percentage_zero_cost_branch. rewrite Hcost.
    by apply lt_zero_not_gt.
Qed.

(** C10. A negative one_time_implementation_cost is accepted. For every
    raw input whose one_time_implementation_cost converts to a finite
    negative number, whatever record and errors the validator returns:
    the record keeps that number; every error is one of the seven messages
    about the other fields, and the list of errors is the same for any
    other body that reads alike on the other fields; and [simulate] then
    takes the zero-cost branch, giving an roi_percentage of 999 when the
    unrounded cumulative_savings > 0 and of 0 otherwise. And the validator
    returns on every body none of whose numeric properties throws on
    conversion. *)
Theorem negative_cost_accepted (body : Json) (value : option Json)
    (n : number) :
  Get body "one_time_implementation_cost" = Normal value →
  Number_ value = Normal n →
  isFinite n = true → lt n (of_Z 0) = true →
  (∀ inputs errors,
     Mongo.validateInputs body = Normal (inputs, errors) →
     one_time_implementation_cost inputs = n
     ∧ (∀ msg, msg ∈ errors → msg ∈ known_messages)
     ∧ (∀ body' inputs' errors',
          Mongo.validateInputs body' = Normal (inputs', errors') →
          (∀ name, name ∈ numeric_fields →
                   name ≠ "one_time_implementation_cost" →
                   Mongo.read body' name = Mongo.read body name) →
          errors' = errors)
     ∧ roi_percentage (Mongo.simulate inputs)
       = if gt (Mongo.cumulative_savings_value inputs) (of_Z 0)
         then of_Z 999 else of_Z 0)
  ∧ (readable body = true →
     ∃ inputs errors, Mongo.validateInputs body = Normal (inputs, errors)).
Proof.
  intros Hget Hnum Hf Hneg. split.
  - intros inputs errors Hv.
    exact (negative_cost_returned body inputs errors value n
             Hv Hget Hnum Hf Hneg).
  - apply validateInputs_returns.
Qed.

Lemma negative_cost_accepted_witness :
  let body := override (body_of canonical) "one_time_implementation_cost"
                (JNumber (of_Z (-5))) in
  Mongo.validateInputs body = Normal (with_cost canonical (of_Z (-5)), [])
  ∧ roi_percentage (Mongo.simulate (with_cost canonical (of_Z (-5))))
    = of_Z 999.
Proof.
  intros body.
  assert (Mongo.validateInputs body
          = Normal (with_cost canonical (of_Z (-5)), [])) as Hv
    by by vm_compute.
  split; [exact Hv|].
  destruct (negative_cost_accepted body (Some (JNumber (of_Z (-5))))
              (of_Z (-5))) as [Hrule _]; [by vm_compute..|].
  destruct (Hrule _ _ Hv) as (_ & _ & _ & Hroi).
  rewrite Hroi. by vm_compute.
Defined.

(** ** Further properties of the code

    What follows is read off the code alone: the validator and the
    calculator once more, then the routes on the collection, the list, the
    form of the client and the report. *)

Arguments Client.number : simpl never.
Arguments Client.sent : simpl never.

(** *** Comparisons of Number values *)

Lemma compare_swap (a b : number) :
  SFcompare b a = option_map CompOpp (SFcompare a b).
Proof.
  destruct a as [[]|[]| |[] m1 e1], b as [[]|[]| |[] m2 e2];
    try reflexivity.
  - cbv [SFcompare option_map]. rewrite (Z.compare_antisym e1 e2).
    destruct (e1 ?= e2); cbv [CompOpp]; try reflexivity.
    rewrite !Pos.compare_cont_spec. cbv [Pos.switch_Eq].
    rewrite (Pos.compare_antisym m1 m2).
    by destruct (m1 ?= m2)%positive.
  - apply compare_finite_swap.
Qed.

Lemma compare_refl (a : number) : isNaN a = false → SFcompare a a = Some Eq.
Proof.
  destruct a as [[]|[]| |[] m e]; try done; intros _; cbv [SFcompare];
    rewrite Z.compare_refl, Pos.compare_cont_spec, Pos.compare_refl; done.
Qed.

Lemma compare_defined (a b : number) :
  isNaN a = false → isNaN b = false → is_Some (SFcompare a b).
Proof. destruct a as [[]|[]| |[] ??], b as [[]|[]| |[] ??]; by eauto. Qed.

Lemma finite_sign (v : number) :
  isFinite v = true → lt v (of_Z 0) = negb (le (of_Z 0) v).
Proof. by destruct v as [[]|[]| |[] m e]. Qed.

Lemma finite_positive (v : number) :
  isFinite v = true → gt v (of_Z 0) = negb (le v (of_Z 0)).
Proof. by destruct v as [[]|[]| |[] m e]. Qed.

Lemma mul_nan_l (x : number) : mul nan x = nan.
Proof. by destruct x. Qed.

Lemma mul_nan_r (x : number) : mul x nan = nan.
Proof. by destruct x. Qed.

Lemma add_nan_l (x : number) : add nan x = nan.
Proof. by destruct x. Qed.

Lemma add_nan_r (x : number) : add x nan = nan.
Proof. by destruct x. Qed.

Lemma sub_nan_l (x : number) : sub nan x = nan.
Proof. by destruct x. Qed.

Lemma sub_nan_r (x : number) : sub x nan = nan.
Proof. by destruct x. Qed.

Lemma div_nan_l (x : number) : div nan x = nan.
Proof. by destruct x. Qed.

(** *** The clamp of the error rate *)

Lemma clamp_positive (m : positive) (e : Z) :
  Mongo.clamp (S754_finite false m e) (of_Z 0) (of_Z 100)
  = match SFcompare (S754_finite false m e) (of_Z 100) with
    | Some Gt => of_Z 100
    | _ => S754_finite false m e
    end.
Proof.
  unfold Mongo.clamp, Math_max.
  change (isNaN _ || isNaN _) with false. cbv iota.
  change (lt (S754_finite false m e) (of_Z 0)) with false.
  change (lt (of_Z 0) (S754_finite false m e)) with true. cbv iota.
  unfold Math_min. change (isNaN _ || isNaN _) with false. cbv iota.
  unfold lt, SFltb.
  rewrite of_Z_100, (compare_finite_swap m 7036874417766400 e (-46)).
  by destruct (SFcompare (S754_finite false m e)
                 (S754_finite false 7036874417766400 (-46))) as [[]|].
Qed.

Lemma clamp_idempotent (x : number) :
  let c := Mongo.clamp x (of_Z 0) (of_Z 100) in
  Mongo.clamp c (of_Z 0) (of_Z 100) = c.
Proof.
  intros c. subst c.
  destruct x as [[]|[]| |[] m e];
    [by vm_compute|by vm_compute|by vm_compute|by vm_compute|by vm_compute| |].
  { pose proof (clamp_finite (S754_finite true m e) eq_refl)
      as (Hf & H0 & H100 & _ & Hneg & _).
    rewrite (Hneg eq_refl). by vm_compute. }
  rewrite clamp_positive.
  destruct (SFcompare (S754_finite false m e) (of_Z 100)) as [[]|] eqn:Hc.
  - by rewrite clamp_positive, Hc.
  - by rewrite clamp_positive, Hc.
  - by vm_compute.
  - by rewrite clamp_positive, Hc.
Qed.

Lemma clamp_normalized_range (n : number) :
  let c := Mongo.clamp (normalized n nan) (of_Z 0) (of_Z 100) in
  isFinite c = true → le (of_Z 0) c = true ∧ le c (of_Z 100) = true.
Proof.
  intros c Hc. subst c. destruct (isFinite n) eqn:Hn.
  - rewrite (normalized_finite _ _ Hn) in *.
    by destruct (clamp_finite n Hn) as (_ & ? & ? & _).
  - by rewrite (clamp_not_finite _ Hn) in Hc.
Qed.

(** *** The validator, once more *)

Lemma required_errors_nil (name : string) (v : number) :
  required_errors name v = [] ↔ nonneg v = true.
Proof.
  unfold required_errors, nonneg.
  destruct (isFinite v) eqn:Hf; cbn [negb orb andb]; [|done].
  rewrite (finite_sign v Hf). by destruct (le (of_Z 0) v).
Qed.

Lemma rate_errors_nil (r : number) : rate_errors r = [] ↔ isFinite r = true.
Proof. unfold rate_errors. by destruct (isFinite r). Qed.

Lemma horizon_errors_nil (h : number) :
  horizon_errors h = [] ↔ isFinite h && gt h (of_Z 0) = true.
Proof.
  unfold horizon_errors.
  destruct (isFinite h) eqn:Hf; cbn [negb orb andb]; [|done].
  rewrite (finite_positive h Hf). by destruct (le h (of_Z 0)).
Qed.

Lemma normalized_is_finite (n fallback : number) :
  isFinite fallback = true → isFinite (normalized n fallback) = true.
Proof. intros Hf. unfold normalized. by destruct (isFinite n) eqn:Hn. Qed.

Lemma normalized_idem (n fallback : number) :
  isFinite fallback = true ∨ fallback = nan →
  normalized (normalized n fallback) fallback = normalized n fallback.
Proof.
  intros Hfb. unfold normalized at 2 3. destruct (isFinite n) eqn:Hn.
  - by apply normalized_finite.
  - destruct Hfb as [Hfb| ->]; [by apply normalized_finite|done].
Qed.

(** The closed form lets pass exactly the acceptable records. *)
Lemma validated_acceptable (name : option Json)
    (n1 n2 n3 n4 nr n5 nh nc : number) :
  (validated name n1 n2 n3 n4 nr n5 nh nc).2 = []
  ↔ acceptable (validated name n1 n2 n3 n4 nr n5 nh nc).1 = true.
Proof.
  unfold validated, acceptable.
  cbn [fst snd monthly_invoice_volume num_ap_staff avg_hours_per_invoice
       hourly_wage error_rate_manual error_cost time_horizon_months
       one_time_implementation_cost].
  rewrite !app_nil, !required_errors_nil, rate_errors_nil, horizon_errors_nil.
  rewrite !andb_true_iff.
  pose proof (clamp_normalized_range nr) as Hrange. cbv zeta in Hrange.
  pose proof (normalized_is_finite nc (of_Z 0) eq_refl) as Hcost.
  tauto.
Qed.

Lemma validateInputs_body_of (i : ScenarioInput) :
  Mongo.validateInputs (body_of i)
  = Normal (validated (Some (JString (scenario_name i)))
              (monthly_invoice_volume i) (num_ap_staff i)
              (avg_hours_per_invoice i) (hourly_wage i)
              (error_rate_manual i) (error_cost i)
              (time_horizon_months i) (one_time_implementation_cost i)).
Proof.
  destruct i. rewrite validateInputs_closed_form.
  cbv -[validated]. reflexivity.
Qed.

(** The closed form is a fixed point of the validator, under any name. *)
Lemma validated_fixed (name : option Json) (s : string)
    (n1 n2 n3 n4 nr n5 nh nc : number) :
  Mongo.validateInputs
    (body_of (Mongo.with_name (validated name n1 n2 n3 n4 nr n5 nh nc).1 s))
  = Normal (Mongo.with_name (validated name n1 n2 n3 n4 nr n5 nh nc).1 s,
            (validated name n1 n2 n3 n4 nr n5 nh nc).2).
Proof.
  rewrite validateInputs_body_of. f_equal.
  unfold validated, Mongo.with_name.
  cbn [fst snd scenario_name monthly_invoice_volume num_ap_staff
       avg_hours_per_invoice hourly_wage error_rate_manual error_cost
       time_horizon_months one_time_implementation_cost].
  rewrite !normalized_idem by first [by left | by right].
  assert (normalized
            (Mongo.clamp (normalized nr nan) (of_Z 0) (of_Z 100)) nan
          = Mongo.clamp (normalized nr nan) (of_Z 0) (of_Z 100)) as ->.
  { destruct (isFinite nr) eqn:Hf.
    - rewrite (normalized_finite nr nan Hf). apply normalized_finite.
      by destruct (clamp_finite nr Hf) as (? & _).
    - by rewrite (clamp_not_finite _ Hf). }
  rewrite (clamp_idempotent (normalized nr nan)).
  reflexivity.
Qed.

Lemma with_name_same (i : ScenarioInput) :
  Mongo.with_name i (scenario_name i) = i.
Proof. by destruct i. Qed.

(** X1. Whatever record and errors [validateInputs] returns for a body,
    the list of errors is empty exactly when the normalized record is
    acceptable: the five required fields are finite and not below zero,
    the error rate is finite and within 0 and 100, the horizon is finite
    and above zero, and the implementation cost is finite, of any sign. *)
Theorem validation_passes_iff_acceptable (body : Json)
    (inputs : ScenarioInput) (errors : list string) :
  Mongo.validateInputs body = Normal (inputs, errors) →
  (errors = [] ↔ acceptable inputs = true).
Proof.
  intros Hv. invert_validate Hv.
  apply validated_acceptable.
Qed.

Lemma validation_passes_iff_acceptable_witness :
  Mongo.validateInputs (body_of canonical) = Normal (canonical, [])
  ∧ acceptable canonical = true.
Proof.
  assert (Mongo.validateInputs (body_of canonical) = Normal (canonical, []))
    as Hv by by vm_compute.
  split; [exact Hv|].
  by apply (validation_passes_iff_acceptable _ _ _ Hv).
Defined.

(** X2. The errors [validateInputs] returns come in the order of its
    checks: they are a sublist of the seven messages in that order (the
    five required fields, the error rate, the horizon), so no message comes
    twice and there are at most seven. *)
Theorem errors_in_check_order (body : Json) (inputs : ScenarioInput)
    (errors : list string) :
  Mongo.validateInputs body = Normal (inputs, errors) →
  errors `sublist_of` known_messages
  ∧ NoDup errors
  ∧ (length errors ≤ 7)%nat.
Proof.
  intros Hv. invert_validate Hv.
  assert ((validated nm n1 n2 n3 n4 nr n5 nh nc).2 `sublist_of` known_messages)
    as Hsub.
  { unfold validated, required_errors, rate_errors, horizon_errors.
    cbn [snd].
    repeat match goal with
      | |- context [if ?c then [_] else []] => destruct c
      end;
      vm_compute;
      repeat first [apply sublist_nil | apply sublist_skip | apply sublist_cons]. }
  split; [exact Hsub|]. split.
  - eapply sublist_NoDup; [|exact Hsub].
    vm_compute. repeat (constructor; [set_solver|]). constructor.
  - by apply sublist_length in Hsub.
Qed.

Lemma errors_in_check_order_witness :
  let v := validated None nan nan nan nan nan nan nan nan in
  Mongo.validateInputs (JObject []) = Normal v
  ∧ v.2 `sublist_of` known_messages
  ∧ NoDup v.2
  ∧ (length v.2 ≤ 7)%nat.
Proof.
  intros v.
  assert (Mongo.validateInputs (JObject []) = Normal (v.1, v.2)) as Hv
    by by vm_compute.
  split; [by vm_compute|].
  exact (errors_in_check_order _ _ _ Hv).
Defined.

(** X3. No infinity leaves the validator: in the record it returns, each
    required field is finite or NaN, the error rate is NaN or finite and
    within 0 and 100, and the horizon and the implementation cost are
    finite (an unreadable one was replaced by its default). *)
Theorem validated_never_infinite (body : Json) (inputs : ScenarioInput)
    (errors : list string) :
  Mongo.validateInputs body = Normal (inputs, errors) →
  (∀ name field, (name, field) ∈ required_fields →
     isFinite (field inputs) = true ∨ field inputs = nan)
  ∧ ((isFinite (error_rate_manual inputs) = true
      ∧ le (of_Z 0) (error_rate_manual inputs) = true
      ∧ le (error_rate_manual inputs) (of_Z 100) = true)
     ∨ error_rate_manual inputs = nan)
  ∧ isFinite (time_horizon_months inputs) = true
  ∧ isFinite (one_time_implementation_cost inputs) = true.
Proof.
  intros Hv. invert_validate Hv. unfold validated. cbn [fst].
  assert (∀ n, isFinite (normalized n nan) = true ∨ normalized n nan = nan)
    as Hn.
  { intros n. unfold normalized. destruct (isFinite n) eqn:?; auto. }
  split; [|split; [|split]].
  - intros name field Hin. unfold required_fields in Hin.
    repeat (apply elem_of_cons in Hin as [[= -> ->]|Hin]);
      [..|by apply elem_of_nil in Hin]; apply Hn.
  - cbn [error_rate_manual]. destruct (isFinite nr) eqn:Hf.
    + left. rewrite (normalized_finite _ _ Hf).
      by destruct (clamp_finite nr Hf) as (? & ? & ? & _).
    + right. by apply clamp_not_finite.
  - by apply normalized_is_finite.
  - by apply normalized_is_finite.
Qed.

Lemma validated_never_infinite_witness :
  let body := override (override (body_of canonical) "hourly_wage"
                          (JString "Infinity"))
                "time_horizon_months" (JString "-Infinity") in
  ∃ inputs errors,
    Mongo.validateInputs body = Normal (inputs, errors)
    ∧ (isFinite (hourly_wage inputs) = true ∨ hourly_wage inputs = nan)
    ∧ isFinite (time_horizon_months inputs) = true.
Proof.
  intros body.
  destruct (validateInputs_returns body) as (inputs & errors & Hv);
    [by vm_compute|].
  exists inputs, errors. split; [exact Hv|].
  destruct (validated_never_infinite body inputs errors Hv)
    as (Hreq & _ & Hhorizon & _).
  split; [|exact Hhorizon].
  apply (Hreq "hourly_wage" hourly_wage). in_list.
Defined.

(** X5. [clamp], for any bounds that are numbers with [min <= max]: a NaN
    value gives NaN; any other value, the infinities included, gives a
    result between the bounds that is the value or one of the bounds; and
    a value strictly between the bounds is returned as it is. *)
Theorem clamp_within_bounds (x lo hi : number) :
  isNaN lo = false → isNaN hi = false → le lo hi = true →
  let c := Mongo.clamp x lo hi in
  (isNaN x = true → c = nan)
  ∧ (isNaN x = false →
     le lo c = true ∧ le c hi = true ∧ (c = x ∨ c = lo ∨ c = hi))
  ∧ (lt lo x = true → lt x hi = true → c = x).
Proof.
  intros Hlo Hhi Hle c. subst c.
  unfold Mongo.clamp, Math_max, Math_min, lt, le, SFltb, SFleb in *.
  destruct x as [sx|sx| |sx mx ex] eqn:Hx; rewrite <-?Hx.
  3:{ subst x. cbn [isNaN orb]. split; [done|]. split; [done|].
      by destruct lo. }
  all: assert (isNaN x = false) as Hnx by by subst x.
  all: clear Hx; rewrite Hnx, Hlo; cbn [orb].
  all: split; [done|].
  all: pose proof (compare_swap x lo) as Hs1;
       pose proof (compare_swap x hi) as Hs2;
       pose proof (compare_swap lo hi) as Hs3;
       pose proof (compare_refl lo Hlo) as Hr1;
       pose proof (compare_refl hi Hhi) as Hr2;
       pose proof (compare_refl x Hnx) as Hr3.
  all: destruct (SFcompare x lo) as [[]|] eqn:H1;
       destruct (SFcompare x hi) as [[]|] eqn:H2;
       destruct (SFcompare lo hi) as [[]|] eqn:H3;
       cbn [option_map CompOpp] in *; try discriminate.
  all: try (destruct (compare_defined x lo Hnx Hlo); congruence).
  all: try (destruct (compare_defined x hi Hnx Hhi); congruence).
  all: rewrite ?Hs1, ?Hs2, ?Hs3.
  all: repeat match goal with
       | |- context [is_neg_zero ?a] => destruct (is_neg_zero a)
       end.
  all: rewrite ?Hnx, ?Hlo, ?Hhi; cbn [orb].
  all: rewrite ?H1, ?H2, ?H3, ?Hs1, ?Hs2, ?Hs3, ?Hr1, ?Hr2, ?Hr3.
  all: split; [intros _; split; [|split]|intros; try discriminate].
  all: rewrite ?H1, ?H2, ?H3, ?Hs1, ?Hs2, ?Hs3, ?Hr1, ?Hr2, ?Hr3; auto.
Qed.

Lemma clamp_within_bounds_witness :
  Mongo.clamp (of_Z 150) (of_Z 0) (of_Z 100) = of_Z 100
  ∧ Mongo.clamp (infinity true) (of_Z 0) (of_Z 100) = of_Z 0
  ∧ Mongo.clamp (of_Z 50) (of_Z 0) (of_Z 100) = of_Z 50.
Proof.
  split; [by vm_compute|]. split; [by vm_compute|].
  apply (clamp_within_bounds (of_Z 50) (of_Z 0) (of_Z 100));
    by vm_compute.
Defined.

(** *** The calculator, once more *)

Lemma monthly_savings_nan (inputs : ScenarioInput)
    (field : ScenarioInput → number) :
  field ∈ savings_fields → field inputs = nan →
  Mongo.monthly_savings_value inputs = nan.
Proof.
  intros Hin Hnan. unfold savings_fields in Hin.
  unfold Mongo.monthly_savings_value, Mongo.labor_cost_manual,
    Mongo.error_savings, Mongo.auto_cost.
  repeat (apply elem_of_cons in Hin as [->|Hin]);
    [..|by apply elem_of_nil in Hin]; rewrite Hnan;
    by rewrite ?mul_nan_l, ?mul_nan_r, ?sub_nan_l, ?div_nan_l, ?mul_nan_l,
         ?add_nan_l, ?add_nan_r, ?sub_nan_l, ?sub_nan_r, ?mul_nan_l.
Qed.

(** X6. [simulate] does not check its argument: when one of the six
    fields of the monthly savings (volume, staff, hours, wage, error rate,
    error cost) is NaN, the monthly, cumulative and net savings are NaN,
    the payback is null, and the ROI is NaN for a positive implementation
    cost and 0 otherwise. *)
Theorem nan_field_poisons_results (inputs : ScenarioInput)
    (field : ScenarioInput → number) :
  field ∈ savings_fields → field inputs = nan →
  monthly_savings (Mongo.simulate inputs) = nan
  ∧ cumulative_savings (Mongo.simulate inputs) = nan
  ∧ net_savings (Mongo.simulate inputs) = nan
  ∧ payback_months (Mongo.simulate inputs) = None
  ∧ roi_percentage (Mongo.simulate inputs)
    = if gt (one_time_implementation_cost inputs) (of_Z 0)
      then nan else of_Z 0.
Proof.
  intros Hin Hnan. pose proof (monthly_savings_nan inputs field Hin Hnan) as Hm.
  unfold Mongo.simulate.
  cbn [monthly_savings cumulative_savings net_savings payback_months
       roi_percentage].
  unfold Mongo.payback_months_value, Mongo.roi_percentage_value,
    Mongo.net_savings_value, Mongo.cumulative_savings_value.
  rewrite Hm, mul_nan_l, sub_nan_l, div_nan_l, mul_nan_l.
  change (gt nan (of_Z 0)) with false. cbv iota.
  repeat split; try done.
  destruct (gt (one_time_implementation_cost inputs) (of_Z 0));
    [done|apply round2_0].
Qed.

Lemma nan_field_poisons_results_witness :
  let inputs := (validated None nan nan nan nan nan nan nan nan).1 in
  hourly_wage inputs = nan
  ∧ monthly_savings (Mongo.simulate inputs) = nan
  ∧ payback_months (Mongo.simulate inputs) = None
  ∧ roi_percentage (Mongo.simulate inputs) = of_Z 0.
Proof.
  intros inputs.
  assert (hourly_wage inputs = nan) as Hnan by reflexivity.
  split; [exact Hnan|].
  destruct (nan_field_poisons_results inputs hourly_wage)
    as (Hm & _ & _ & Hp & Hroi); [in_list|exact Hnan|].
  split; [exact Hm|]. split; [exact Hp|].
  rewrite Hroi. by vm_compute.
Defined.

(** X7. An implementation that costs nothing (a cost of [0] or [-0]): the
    payback is 0 months whenever the monthly savings are positive, and the
    ROI is the fixed 999 when the cumulative savings are positive and 0
    otherwise. *)
Theorem free_implementation_pays_back_at_once (inputs : ScenarioInput)
    (s : bool) :
  one_time_implementation_cost inputs = S754_zero s →
  (gt (Mongo.monthly_savings_value inputs) (of_Z 0) = true →
     payback_months (Mongo.simulate inputs) = Some (of_Z 0))
  ∧ roi_percentage (Mongo.simulate inputs)
    = (if gt (Mongo.cumulative_savings_value inputs) (of_Z 0)
       then of_Z 999 else of_Z 0).
Proof.
  intros Hcost. split.
  - intros Hpos. unfold Mongo.simulate; cbn [payback_months].
    unfold Mongo.payback_months_value. rewrite Hpos, Hcost.
    destruct (Mongo.monthly_savings_value inputs) as [[]|[]| |[] m e];
      try discriminate Hpos; by destruct s.
  - apply roi_percentage_zero_cost_branch. rewrite Hcost. by destruct s.
Qed.

Lemma free_implementation_pays_back_at_once_witness :
  let inputs := with_cost canonical (S754_zero true) in
  payback_months (Mongo.simulate inputs) = Some (of_Z 0)
  ∧ roi_percentage (Mongo.simulate inputs) = of_Z 999.
Proof.
  intros inputs.
  destruct (free_implementation_pays_back_at_once inputs true)
    as [Hpay Hroi]; [reflexivity|].
  split; [apply Hpay; by vm_compute|].
  rewrite Hroi. by vm_compute.
Defined.

(** *** The two routes that validate *)

Lemma post_simulate_cases (req_body : option Json) :
  match Mongo.post_simulate req_body with
  | Mongo.Json200Result results =>
      ∃ inputs,
        Mongo.validateInputs (Mongo.simulate_body req_body)
          = Normal (inputs, [])
        ∧ results = Mongo.simulate inputs
  | Mongo.Json400Errors errors =>
      errors ≠ []
      ∧ ∃ inputs,
          Mongo.validateInputs (Mongo.simulate_body req_body)
            = Normal (inputs, errors)
  | Mongo.Uncaught =>
      Mongo.validateInputs (Mongo.simulate_body req_body) = Throw
  | _ => False
  end.
Proof.
  unfold Mongo.post_simulate.
  destruct (Mongo.validateInputs _) as [[inputs errors]|]; [|done].
  destruct errors as [|e errors].
  - rewrite bool_decide_false by (by intros []). by exists inputs.
  - rewrite bool_decide_true by done. split; [done|by exists inputs].
Qed.

Lemma simulate_body_truthy (b : Json) :
  truthy (Some b) = true → Mongo.simulate_body (Some b) = b.
Proof. unfold Mongo.simulate_body, Mongo.or_else. by intros ->. Qed.

Lemma scenarios_body_wrapped (b : Json) :
  truthy (Some b) = true →
  Mongo.scenarios_body (Some (JObject [("inputs", b)])) = b.
Proof. intros Hb. cbv -[truthy]. by rewrite !Hb. Qed.

Lemma post_simulate_validated (b : Json) (inputs : ScenarioInput)
    (errors : list string) :
  truthy (Some b) = true →
  Mongo.validateInputs b = Normal (inputs, errors) →
  Mongo.post_simulate (Some b)
  = if bool_decide (errors = [])
    then Mongo.Json200Result (Mongo.simulate inputs)
    else Mongo.Json400Errors errors.
Proof.
  intros Hb Hv. unfold Mongo.post_simulate.
  rewrite (simulate_body_truthy b Hb), Hv. by destruct errors.
Qed.

Lemma acceptable_cast_inputs (inputs : ScenarioInput) (name : string) :
  acceptable inputs = true →
  Mongo.cast_inputs (Mongo.with_name inputs name) = true.
Proof.
  assert (∀ x, isFinite x = true → Mongo.castNumber x = true) as Hcast
    by (by intros [[]|[]| |[] m e]).
  unfold acceptable, nonneg, Mongo.cast_inputs, Mongo.with_name.
  cbn [monthly_invoice_volume num_ap_staff avg_hours_per_invoice hourly_wage
       error_rate_manual error_cost time_horizon_months
       one_time_implementation_cost].
  rewrite !andb_true_iff. naive_solver.
Qed.

(** POST /scenarios once the validation has passed: the document is
    stored when the database answers, the new id is free and the results
    cast; the response is the 500 otherwise. *)
Lemma post_scenarios_validated (env : Mongo.Env) (st : Mongo.Store)
    (req_body : option Json) (inputs : ScenarioInput) :
  Mongo.validateInputs (Mongo.scenarios_body req_body) = Normal (inputs, []) →
  let name := if String.eqb (trim (scenario_name inputs)) ""
              then "Scenario " +:+ pretty (N.of_nat (size st) + 1)%N
              else trim (scenario_name inputs) in
  Mongo.post_scenarios env st req_body
  = if Mongo.db_up env && bool_decide (st !! Mongo.new_id env = None)
       && Mongo.cast_results (Mongo.simulate inputs)
    then (Mongo.Json200Saved (Mongo.new_id env) name,
          <[Mongo.new_id env :=
              {| Mongo.doc_id := Mongo.new_id env;
                 Mongo.doc_scenario_name := name;
                 Mongo.doc_inputs := Mongo.with_name inputs name;
                 Mongo.doc_results := Mongo.simulate inputs;
                 Mongo.created_at := Mongo.now env;
                 Mongo.updated_at := Mongo.now env |}]> st)
    else (Mongo.Json500 "failed to save scenario", st).
Proof.
  intros Hv name.
  assert (acceptable inputs = true) as Hacc.
  { destruct (validateInputs_inv _ _ _ Hv)
      as (nm & n1 & n2 & n3 & n4 & nr & n5 & nh & nc & _ & _ & _ & _ & _ & _
          & _ & _ & _ & Heq).
    assert (inputs = (validated nm n1 n2 n3 n4 nr n5 nh nc).1) as ->
      by by rewrite <- Heq.
    apply validated_acceptable. by rewrite <- Heq. }
  unfold Mongo.post_scenarios. rewrite Hv.
  rewrite bool_decide_false by (by intros []). cbv zeta.
  rewrite or_empty_id. unfold Mongo.countDocuments. subst name.
  assert (∀ name,
    Mongo.create env st name (Mongo.with_name inputs name)
      (Mongo.simulate inputs)
    = if Mongo.db_up env && bool_decide (st !! Mongo.new_id env = None)
         && Mongo.cast_results (Mongo.simulate inputs)
      then Some ({| Mongo.doc_id := Mongo.new_id env;
                    Mongo.doc_scenario_name := name;
                    Mongo.doc_inputs := Mongo.with_name inputs name;
                    Mongo.doc_results := Mongo.simulate inputs;
                    Mongo.created_at := Mongo.now env;
                    Mongo.updated_at := Mongo.now env |},
                 <[Mongo.new_id env :=
                     {| Mongo.doc_id := Mongo.new_id env;
                        Mongo.doc_scenario_name := name;
                        Mongo.doc_inputs := Mongo.with_name inputs name;
                        Mongo.doc_results := Mongo.simulate inputs;
                        Mongo.created_at := Mongo.now env;
                        Mongo.updated_at := Mongo.now env |}]> st)
      else None) as Hcreate.
  { intros name. unfold Mongo.create.
    by rewrite (acceptable_cast_inputs inputs name Hacc), andb_true_r. }
  destruct (String.eqb (trim (scenario_name inputs)) "").
  - destruct (Mongo.db_up env) eqn:Hup; [|done].
    rewrite Hcreate.
    destruct (true && bool_decide (st !! Mongo.new_id env = None)
              && Mongo.cast_results (Mongo.simulate inputs)); [|done].
    cbn [Mongo.doc_id Mongo.doc_scenario_name]. by rewrite or_empty_id.
  - rewrite Hcreate.
    destruct (Mongo.db_up env && bool_decide (st !! Mongo.new_id env = None)
              && Mongo.cast_results (Mongo.simulate inputs)); [|done].
    cbn [Mongo.doc_id Mongo.doc_scenario_name]. by rewrite or_empty_id.
Qed.

(** X8. POST /scenarios with the body [{ inputs: b }] decides as POST
    /simulate does with the body [b], for every truthy [b]: where the one
    answers 400 with a list of errors, the other answers 400 with the same
    list and stores nothing; where the one lets an exception out, so does
    the other; and where the one answers with results, the other stores a
    document with those very results whenever it answers with an id, which
    it does when the database answers, the new id is free and no result
    is NaN (the cast of the schema refuses NaN), and answers 500 and
    stores nothing otherwise. *)
Theorem save_agrees_with_simulate (env : Mongo.Env) (st : Mongo.Store)
    (b : Json) :
  truthy (Some b) = true →
  let save := Mongo.post_scenarios env st (Some (JObject [("inputs", b)])) in
  match Mongo.post_simulate (Some b) with
  | Mongo.Json200Result results =>
      (Mongo.db_up env = true → st !! Mongo.new_id env = None →
       Mongo.cast_results results = true →
         ∃ name, save.1 = Mongo.Json200Saved (Mongo.new_id env) name)
      ∧ (∀ id name, save.1 = Mongo.Json200Saved id name →
           ∃ doc, save.2 !! id = Some doc
                  ∧ Mongo.doc_results doc = results)
      ∧ (Mongo.db_up env = false ∨ st !! Mongo.new_id env ≠ None
         ∨ Mongo.cast_results results = false →
           save = (Mongo.Json500 "failed to save scenario", st))
  | Mongo.Json400Errors errors => save = (Mongo.Json400Errors errors, st)
  | Mongo.Uncaught => save = (Mongo.Uncaught, st)
  | _ => False
  end.
Proof.
  intros Hb save. subst save.
  pose proof (post_simulate_cases (Some b)) as Hs.
  rewrite (simulate_body_truthy b Hb) in Hs.
  destruct (Mongo.post_simulate (Some b)) as [results| | | |errors| | |];
    try done.
  - destruct Hs as (inputs & Hv & ->).
    rewrite <-(scenarios_body_wrapped b Hb) in Hv.
    rewrite (post_scenarios_validated env st _ inputs Hv). cbv zeta.
    destruct (Mongo.db_up env) eqn:Hup; cbn [andb].
    + destruct (bool_decide_reflect (st !! Mongo.new_id env = None))
        as [Hfresh|Hused]; cbn [andb].
      * destruct (Mongo.cast_results (Mongo.simulate inputs)) eqn:Hcast.
        -- split; [by eexists|]. split; [|by intros [|[|]]].
           cbn [fst snd]. intros id name [= <- _].
           rewrite lookup_insert_eq. by eexists.
        -- split; [done|]. by split.
      * split; [done|]. by split.
    + split; [done|]. by split.
  - destruct Hs as (Hne & inputs & Hv).
    unfold Mongo.post_scenarios.
    rewrite (scenarios_body_wrapped b Hb), Hv.
    rewrite bool_decide_true; [done|]. by destruct errors.
  - unfold Mongo.post_scenarios.
    by rewrite (scenarios_body_wrapped b Hb), Hs.
Qed.

Lemma save_agrees_with_simulate_witness :
  Mongo.post_simulate (Some (body_of canonical))
    = Mongo.Json200Result (Mongo.simulate canonical)
  ∧ ∃ name, (Mongo.post_scenarios (env_up 1) ∅ unnamed).1
            = Mongo.Json200Saved 1%positive name.
Proof.
  assert (Mongo.post_simulate (Some (body_of canonical))
          = Mongo.Json200Result (Mongo.simulate canonical)) as Hs
    by by vm_compute.
  split; [exact Hs|].
  pose proof (save_agrees_with_simulate (env_up 1) ∅ (body_of canonical)
                eq_refl) as H.
  cbv zeta in H. rewrite Hs in H. destruct H as (Hsaved & _).
  apply Hsaved; by vm_compute.
Defined.

(** *** The collection *)

Lemma default_name_not_empty (s : string) : ("Scenario " +:+ s) ≠ "".
Proof. done. Qed.

(** A successful save, with what it wrote and why. *)
Lemma post_scenarios_saved_full (env : Mongo.Env) (st st' : Mongo.Store)
    (req_body : option Json) (id : Mongo.Id) (name : string) :
  Mongo.post_scenarios env st req_body = (Mongo.Json200Saved id name, st') →
  ∃ inputs,
    Mongo.validateInputs (Mongo.scenarios_body req_body) = Normal (inputs, [])
    ∧ Mongo.db_up env = true
    ∧ id = Mongo.new_id env
    ∧ st !! id = None
    ∧ name = (if String.eqb (trim (scenario_name inputs)) ""
              then "Scenario " +:+ pretty (N.of_nat (size st) + 1)%N
              else trim (scenario_name inputs))
    ∧ st' = <[id := {| Mongo.doc_id := id;
                       Mongo.doc_scenario_name := name;
                       Mongo.doc_inputs := Mongo.with_name inputs name;
                       Mongo.doc_results := Mongo.simulate inputs;
                       Mongo.created_at := Mongo.now env;
                       Mongo.updated_at := Mongo.now env |}]> st.
Proof.
  intros Hp.
  destruct (post_scenarios_saved _ _ _ _ _ _ Hp) as (inputs & doc & Hv & _).
  exists inputs. split; [exact Hv|].
  rewrite (post_scenarios_validated env st req_body inputs Hv) in Hp.
  cbv zeta in Hp.
  destruct (Mongo.db_up env); [|done]. cbn [andb] in Hp.
  destruct (bool_decide_reflect (st !! Mongo.new_id env = None))
    as [Hfresh|]; [|done]. cbn [andb] in Hp.
  destruct (Mongo.cast_results (Mongo.simulate inputs)); [|done].
  by injection Hp as <- <- <-.
Qed.

(** X9. POST /scenarios adds one document or none.  When it answers with
    an id, the validation gave no error, the id was free, the collection
    has one document more and every other id holds what it held; the name
    it answers with is the trimmed name of the inputs, or, when that is
    empty, [Scenario n] for [n] one more than the number of documents
    stored before.  When it answers anything else, the collection is as it
    was. *)
Theorem save_adds_one_document_or_none (env : Mongo.Env) (st : Mongo.Store)
    (req_body : option Json) :
  (∀ id name st',
     Mongo.post_scenarios env st req_body
       = (Mongo.Json200Saved id name, st') →
     ∃ inputs,
       Mongo.validateInputs (Mongo.scenarios_body req_body)
         = Normal (inputs, [])
       ∧ st !! id = None
       ∧ is_Some (st' !! id)
       ∧ size st' = S (size st)
       ∧ (∀ id', id' ≠ id → st' !! id' = st !! id')
       ∧ (trim (scenario_name inputs) ≠ "" →
            name = trim (scenario_name inputs))
       ∧ (trim (scenario_name inputs) = "" →
            name = "Scenario " +:+ pretty (N.of_nat (size st) + 1)%N))
  ∧ ((∀ id name,
        (Mongo.post_scenarios env st req_body).1
          ≠ Mongo.Json200Saved id name) →
     (Mongo.post_scenarios env st req_body).2 = st).
Proof.
  split.
  - intros id name st' Hp.
    destruct (post_scenarios_saved_full _ _ _ _ _ _ Hp)
      as (inputs & Hv & _ & _ & Hfresh & Hname & ->).
    exists inputs. split; [exact Hv|]. split; [exact Hfresh|].
    split; [by rewrite lookup_insert_eq|].
    split; [by rewrite map_size_insert_None|].
    split; [intros id' Hne; by rewrite lookup_insert_ne|].
    rewrite Hname.
    destruct (String.eqb_spec (trim (scenario_name inputs)) ""); by split.
  - intros Hno.
    destruct (post_scenarios_store env st req_body) as [H|(id & name & H)];
      [exact H|].
    destruct (Hno id name). by rewrite H.
Qed.

Lemma save_adds_one_document_or_none_witness :
  Mongo.post_scenarios (env_up 1) ∅ unnamed
    = (Mongo.Json200Saved 1%positive "Scenario 1", saved_once)
  ∧ size saved_once = 1%nat
  ∧ (Mongo.post_scenarios (env_up 1) saved_once unnamed).2 = saved_once.
Proof.
  assert (Mongo.post_scenarios (env_up 1) ∅ unnamed
          = (Mongo.Json200Saved 1%positive "Scenario 1", saved_once)) as Hp
    by by vm_compute.
  split; [exact Hp|]. split.
  - destruct (proj1 (save_adds_one_document_or_none (env_up 1) ∅ unnamed)
                _ _ _ Hp) as (inputs & _ & _ & _ & Hsize & _).
    exact Hsize.
  - apply (proj2 (save_adds_one_document_or_none (env_up 1) saved_once
                    unnamed)).
    intros id name. by vm_compute.
Defined.

Lemma post_scenarios_well_stored (env : Mongo.Env) (st : Mongo.Store)
    (req_body : option Json) :
  map_Forall well_stored st →
  map_Forall well_stored (Mongo.post_scenarios env st req_body).2.
Proof.
  intros IH.
  destruct (post_scenarios_store env st req_body) as [->|(id & name & Hp)];
    [exact IH|].
  destruct (post_scenarios_saved_full _ _ _ _ _ _ Hp)
    as (inputs & Hv & _ & _ & _ & Hname & Hst).
  rewrite Hst. apply map_Forall_insert_2; [|exact IH].
  destruct (validateInputs_inv _ _ _ Hv)
    as (nm & n1 & n2 & n3 & n4 & nr & n5 & nh & nc & _ & _ & _ & _ & _ & _
        & _ & _ & _ & Heq).
  assert (inputs = (validated nm n1 n2 n3 n4 nr n5 nh nc).1) as Hin
    by by rewrite <- Heq.
  assert ((validated nm n1 n2 n3 n4 nr n5 nh nc).2 = []) as Hnil
    by by rewrite <- Heq.
  unfold well_stored.
  cbn [Mongo.doc_id Mongo.doc_scenario_name Mongo.doc_inputs
       Mongo.doc_results].
  split; [done|]. split; [done|]. split; [|split; [|split]].
  - rewrite Hname.
    destruct (String.eqb_spec (trim (scenario_name inputs)) "");
      [apply default_name_not_empty|done].
  - change (acceptable (Mongo.with_name inputs name))
      with (acceptable inputs).
    rewrite Hin. by apply validated_acceptable.
  - by rewrite Hin, validated_fixed, Hnil.
  - by rewrite simulate_with_name.
Qed.

Lemma reachable_well_stored (st : Mongo.Store) :
  Mongo.reachable st → map_Forall well_stored st.
Proof.
  induction 1 as [|env st req_body _ IH|env st id _ IH].
  - apply map_Forall_empty.
  - by apply post_scenarios_well_stored.
  - unfold Mongo.delete_scenario.
    destruct (Mongo.db_up env); [|exact IH].
    destruct (st !! id); [|exact IH].
    by apply map_Forall_delete.
Qed.

(** X10. Every scenario of a collection the server can reach was
    validated: it has a name that is not empty, the same name inside its
    inputs, and inputs the validator returns unchanged and without an
    error, so that POST /simulate on the stored inputs answers with the
    stored results. *)
Theorem stored_scenarios_pass_validation (st : Mongo.Store)
    (id : Mongo.Id) (doc : Mongo.Scenario) :
  Mongo.reachable st → st !! id = Some doc →
  Mongo.doc_scenario_name doc ≠ ""
  ∧ scenario_name (Mongo.doc_inputs doc) = Mongo.doc_scenario_name doc
  ∧ acceptable (Mongo.doc_inputs doc) = true
  ∧ Mongo.validateInputs (body_of (Mongo.doc_inputs doc))
    = Normal (Mongo.doc_inputs doc, [])
  ∧ Mongo.post_simulate (Some (body_of (Mongo.doc_inputs doc)))
    = Mongo.Json200Result (Mongo.doc_results doc).
Proof.
  intros Hreach Hdoc.
  destruct (reachable_well_stored st Hreach id doc Hdoc)
    as (_ & Hname & Hne & Hacc & Hv & Hres).
  split; [exact Hne|]. split; [exact Hname|]. split; [exact Hacc|].
  split; [exact Hv|].
  rewrite (post_simulate_validated (body_of (Mongo.doc_inputs doc)) _ _
             eq_refl Hv), Hres.
  by rewrite bool_decide_true.
Qed.

Lemma stored_scenarios_pass_validation_witness :
  Mongo.reachable saved_once
  ∧ ∃ doc, saved_once !! 1%positive = Some doc
           ∧ Mongo.doc_scenario_name doc ≠ ""
           ∧ Mongo.post_simulate (Some (body_of (Mongo.doc_inputs doc)))
             = Mongo.Json200Result (Mongo.doc_results doc).
Proof.
  assert (Mongo.reachable saved_once) as Hreach
    by apply Mongo.reachable_post, Mongo.reachable_empty.
  split; [exact Hreach|].
  destruct (saved_once !! 1%positive) as [doc|] eqn:Hdoc;
    [|by vm_compute in Hdoc].
  exists doc. split; [reflexivity|].
  destruct (stored_scenarios_pass_validation saved_once 1 doc Hreach Hdoc)
    as (Hne & _ & _ & _ & Hsim).
  by split.
Defined.

(** X11. DELETE /scenarios/:id answers [{ deleted: true }] exactly when
    the database answers and holds the id.  It then removes that document
    and no other, so the collection has one document fewer, and loading or
    deleting the same id afterwards answers 404.  In every other case it
    answers 404 and the collection is as it was. *)
Theorem delete_removes_or_reports_not_found (env : Mongo.Env)
    (st : Mongo.Store) (id : Mongo.Id) :
  ((Mongo.delete_scenario env st id).1 = Mongo.Json200Deleted
   ↔ Mongo.db_up env = true ∧ is_Some (st !! id))
  ∧ ((Mongo.delete_scenario env st id).1 = Mongo.Json200Deleted →
     (Mongo.delete_scenario env st id).2 = delete id st
     ∧ S (size (Mongo.delete_scenario env st id).2) = size st
     ∧ ∀ env',
         Mongo.get_scenario env' (Mongo.delete_scenario env st id).2 id
           = Mongo.Json404NotFound
         ∧ Mongo.delete_scenario env' (Mongo.delete_scenario env st id).2 id
           = (Mongo.Json404NotFound, (Mongo.delete_scenario env st id).2))
  ∧ ((Mongo.delete_scenario env st id).1 ≠ Mongo.Json200Deleted →
     Mongo.delete_scenario env st id = (Mongo.Json404NotFound, st)).
Proof.
  unfold Mongo.delete_scenario, Mongo.get_scenario.
  destruct (Mongo.db_up env) eqn:Hup; cbn [fst snd].
  - destruct (st !! id) as [doc|] eqn:Hdoc; cbn [fst snd].
    + split; [by split; [eauto|]|]. split; [|done].
      intros _. split; [done|]. split.
      * rewrite (map_size_delete_Some id st) by eauto.
        pose proof (map_size_ne_0_lookup_2 st id (mk_is_Some _ _ Hdoc)). lia.
      * intros env'. rewrite lookup_delete_eq. by destruct (Mongo.db_up env').
    + split; [|done]. split; [done|]. by intros [_ []].
  - split; [|done]. split; [done|]. by intros [[=] _].
Qed.

Lemma delete_removes_or_reports_not_found_witness :
  Mongo.delete_scenario (env_up 2) saved_once 7
  = (Mongo.Json404NotFound, saved_once).
Proof.
  apply (proj2 (proj2 (delete_removes_or_reports_not_found (env_up 2)
                         saved_once 7))).
  by vm_compute.
Defined.

(** X12. Deleting the scenario that was just saved restores the
    collection: when POST /scenarios answers with an id, DELETE of that
    id, served while the database answers, says [{ deleted: true }] and
    leaves the very collection the save started from. *)
Theorem saving_then_deleting_restores_the_collection
    (env env' : Mongo.Env) (st st' : Mongo.Store) (req_body : option Json)
    (id : Mongo.Id) (name : string) :
  Mongo.post_scenarios env st req_body = (Mongo.Json200Saved id name, st') →
  Mongo.db_up env' = true →
  Mongo.delete_scenario env' st' id = (Mongo.Json200Deleted, st).
Proof.
  intros Hp Hup.
  destruct (post_scenarios_saved_full _ _ _ _ _ _ Hp)
    as (inputs & _ & _ & _ & Hfresh & _ & ->).
  unfold Mongo.delete_scenario. rewrite Hup, lookup_insert_eq.
  by rewrite delete_insert_id.
Qed.

Lemma saving_then_deleting_restores_the_collection_witness :
  Mongo.post_scenarios (env_up 1) ∅ unnamed
    = (Mongo.Json200Saved 1%positive "Scenario 1", saved_once)
  ∧ Mongo.delete_scenario (env_up 2) saved_once 1
    = (Mongo.Json200Deleted, ∅).
Proof.
  assert (Mongo.post_scenarios (env_up 1) ∅ unnamed
          = (Mongo.Json200Saved 1%positive "Scenario 1", saved_once)) as Hp
    by by vm_compute.
  split; [exact Hp|].
  by apply (saving_then_deleting_restores_the_collection (env_up 1)
              (env_up 2) ∅ saved_once unnamed 1 "Scenario 1" Hp).
Defined.

(** X15. The generated names do not tell the scenarios apart: after two
    unnamed saves, the deletion of the first document and a third unnamed
    save, two documents of the collection are both named [Scenario 2]. *)
Theorem default_names_can_repeat :
  Mongo.reachable saved_thrice
  ∧ ∃ doc2 doc3,
      saved_thrice !! 2%positive = Some doc2
      ∧ saved_thrice !! 3%positive = Some doc3
      ∧ Mongo.doc_scenario_name doc2 = "Scenario 2"
      ∧ Mongo.doc_scenario_name doc3 = "Scenario 2".
Proof.
  split.
  - unfold saved_thrice. cbv zeta.
    apply Mongo.reachable_post, Mongo.reachable_delete, Mongo.reachable_post,
      Mongo.reachable_post, Mongo.reachable_empty.
  - destruct (saved_thrice !! 2%positive) as [doc2|] eqn:H2;
      [|by vm_compute in H2].
    destruct (saved_thrice !! 3%positive) as [doc3|] eqn:H3;
      [|by vm_compute in H3].
    exists doc2, doc3. split; [done|]. split; [done|].
    vm_compute in H2. vm_compute in H3.
    injection H2 as <-. injection H3 as <-. by split.
Qed.

(** *** The list of the scenarios *)

Lemma newest_first_transitive : Transitive Listing.newest_first.
Proof. unfold Listing.newest_first. intros a b c ??. lia. Qed.

Lemma newest_first_total : Total Listing.newest_first.
Proof. unfold Listing.newest_first. intros a b. lia. Qed.

Lemma find_sorted_elem_of (st : Mongo.Store) (doc : Mongo.Scenario) :
  doc ∈ Listing.find_sorted st ↔ ∃ id, st !! id = Some doc.
Proof.
  unfold Listing.find_sorted.
  rewrite merge_sort_Permutation, list_elem_of_fmap.
  split.
  - intros ([id doc'] & -> & Hin). exists id. by apply elem_of_map_to_list.
  - intros (id & Hid). exists (id, doc). split; [done|].
    by apply elem_of_map_to_list.
Qed.

Lemma find_sorted_ids (st : Mongo.Store) :
  map_Forall (λ id doc, Mongo.doc_id doc = id) st →
  Mongo.doc_id <$> Listing.find_sorted st ≡ₚ (map_to_list st).*1.
Proof.
  intros Hkey. unfold Listing.find_sorted. rewrite merge_sort_Permutation.
  rewrite <-list_fmap_compose.
  assert ((Mongo.doc_id ∘ snd) <$> map_to_list st = (map_to_list st).*1)
    as ->; [|done].
  apply Forall_fmap_ext, Forall_forall.
  intros [id doc] Hin. apply elem_of_map_to_list in Hin. exact (Hkey _ _ Hin).
Qed.

Lemma reachable_keyed (st : Mongo.Store) :
  Mongo.reachable st → map_Forall (λ id doc, Mongo.doc_id doc = id) st.
Proof.
  intros Hreach id doc Hdoc.
  by destruct (reachable_consistent st Hreach id doc Hdoc).
Qed.

(** The entries of the list are the summaries of the documents. *)
Lemma listed_items (st : Mongo.Store) (item : Listing.Summary) :
  map_Forall (λ id doc, Mongo.doc_id doc = id) st →
  item ∈ Listing.summary <$> Listing.find_sorted st
  ↔ ∃ doc, st !! Listing.item_id item = Some doc
           ∧ item = Listing.summary doc.
Proof.
  intros Hkey. rewrite list_elem_of_fmap. split.
  - intros (doc & -> & Hin). apply find_sorted_elem_of in Hin as [id Hid].
    exists doc. split; [|done]. cbn [Listing.summary Listing.item_id].
    by rewrite (Hkey _ _ Hid).
  - intros (doc & Hdoc & ->). exists doc. split; [done|].
    apply find_sorted_elem_of. eauto.
Qed.

(** X13. GET /scenarios, served while the database answers, lists the
    whole collection, newest first: as many entries as there are
    documents, each id once, every entry before the entries that are not
    newer, and an entry is in the list exactly when it is the id, name and
    date of the document the collection holds under that id.  When the
    database does not answer, the response is the 500 "failed to list
    scenarios". *)
Theorem listing_is_complete_and_newest_first (env : Mongo.Env)
    (st : Mongo.Store) :
  Mongo.reachable st →
  (Mongo.db_up env = true →
   ∃ items,
     Listing.get_scenarios env st = Listing.Json200List items
     ∧ length items = size st
     ∧ StronglySorted newer items
     ∧ NoDup (Listing.item_id <$> items)
     ∧ ∀ item, item ∈ items ↔
         ∃ doc, st !! Listing.item_id item = Some doc
                ∧ item = Listing.summary doc)
  ∧ (Mongo.db_up env = false →
     Listing.get_scenarios env st
     = Listing.Json500List "failed to list scenarios").
Proof.
  intros Hreach. apply reachable_keyed in Hreach as Hkey.
  unfold Listing.get_scenarios. split; intros ->; [|done].
  eexists. split; [done|]. split; [|split; [|split]].
  - rewrite length_fmap. unfold Listing.find_sorted.
    by rewrite merge_sort_Permutation, length_fmap, length_map_to_list.
  - apply (StronglySorted_fmap _ Listing.newest_first); [done|].
    apply (@StronglySorted_merge_sort _ Listing.newest_first _
             newest_first_transitive newest_first_total).
  - rewrite <-list_fmap_compose.
    change (Listing.item_id ∘ Listing.summary) with Mongo.doc_id.
    rewrite (find_sorted_ids st Hkey). apply NoDup_fst_map_to_list.
  - intros item. by apply listed_items.
Qed.

Lemma listing_is_complete_and_newest_first_witness :
  Mongo.reachable saved_thrice
  ∧ ∃ items,
      Listing.get_scenarios (env_up 4) saved_thrice
        = Listing.Json200List items
      ∧ length items = 2%nat
      ∧ NoDup (Listing.item_id <$> items).
Proof.
  assert (Mongo.reachable saved_thrice) as Hreach.
  { unfold saved_thrice. cbv zeta.
    apply Mongo.reachable_post, Mongo.reachable_delete, Mongo.reachable_post,
      Mongo.reachable_post, Mongo.reachable_empty. }
  split; [exact Hreach|].
  destruct (proj1 (listing_is_complete_and_newest_first (env_up 4)
                     saved_thrice Hreach) eq_refl)
    as (items & Hl & Hlen & _ & Hnodup & _).
  exists items. split; [exact Hl|]. split; [|exact Hnodup].
  rewrite Hlen. by vm_compute.
Defined.

(** X14. A scenario that was just saved is in the list: when POST
    /scenarios answers with an id and a name on a collection the server
    can reach, the next GET /scenarios, served while the database answers,
    has one entry more than there were documents; the entry of that id
    carries that name and the date of the save, and every other entry is
    the summary of a document that was there before. *)
Theorem saved_scenario_is_listed (env env' : Mongo.Env)
    (st st' : Mongo.Store) (req_body : option Json) (id : Mongo.Id)
    (name : string) :
  Mongo.reachable st →
  Mongo.post_scenarios env st req_body = (Mongo.Json200Saved id name, st') →
  Mongo.db_up env' = true →
  ∃ items,
    Listing.get_scenarios env' st' = Listing.Json200List items
    ∧ length items = S (size st)
    ∧ {| Listing.item_id := id; Listing.item_scenario_name := name;
         Listing.item_created_at := Mongo.now env |} ∈ items
    ∧ ∀ item, item ∈ items → Listing.item_id item ≠ id →
        ∃ doc, st !! Listing.item_id item = Some doc
               ∧ item = Listing.summary doc.
Proof.
  intros Hreach Hp Hup.
  assert (Mongo.reachable st') as Hreach'.
  { pose proof (Mongo.reachable_post env st req_body Hreach) as H.
    by rewrite Hp in H. }
  apply reachable_keyed in Hreach' as Hkey.
  destruct (post_scenarios_saved_full _ _ _ _ _ _ Hp)
    as (inputs & Hv & _ & _ & Hfresh & Hname & Hst).
  unfold Listing.get_scenarios. rewrite Hup. eexists. split; [done|].
  split; [|split].
  - rewrite length_fmap. unfold Listing.find_sorted.
    rewrite merge_sort_Permutation, length_fmap, length_map_to_list, Hst.
    by apply map_size_insert_None.
  - apply (listed_items st' _ Hkey). eexists. cbn [Listing.item_id].
    rewrite Hst, lookup_insert_eq.
    split; [done|]. unfold Listing.summary.
    cbn [Mongo.doc_id Mongo.doc_scenario_name Mongo.created_at].
    by rewrite or_empty_id.
  - intros item Hitem Hne.
    apply (listed_items st' _ Hkey) in Hitem as (doc & Hdoc & ->).
    exists doc. split; [|done].
    by rewrite Hst, lookup_insert_ne in Hdoc.
Qed.

Lemma saved_scenario_is_listed_witness :
  Mongo.post_scenarios (env_up 1) ∅ unnamed
    = (Mongo.Json200Saved 1%positive "Scenario 1", saved_once)
  ∧ ∃ items,
      Listing.get_scenarios (env_up 2) saved_once = Listing.Json200List items
      ∧ {| Listing.item_id := 1%positive;
           Listing.item_scenario_name := "Scenario 1";
           Listing.item_created_at := 0 |} ∈ items.
Proof.
  assert (Mongo.post_scenarios (env_up 1) ∅ unnamed
          = (Mongo.Json200Saved 1%positive "Scenario 1", saved_once)) as Hp
    by by vm_compute.
  split; [exact Hp|].
  destruct (saved_scenario_is_listed (env_up 1) (env_up 2) ∅ saved_once
              unnamed 1 "Scenario 1" Mongo.reachable_empty Hp eq_refl)
    as (items & Hl & _ & Hin & _).
  exists items. by split.
Defined.

(** *** The form of the client *)

Lemma number_finite (value : string) : isFinite (Client.number value) = true.
Proof.
  unfold Client.number. cbv zeta.
  by destruct (isFinite (StringToNumber value)) eqn:H.
Qed.

Lemma sent_finite (x : number) : isFinite (Client.sent x) = isFinite x.
Proof. by destruct x as [[]|[]| |[] m e]. Qed.

Lemma sent_lt_zero (x : number) :
  lt (Client.sent x) (of_Z 0) = lt x (of_Z 0).
Proof. by destruct x as [[]|[]| |[] m e]. Qed.

Lemma sent_le_zero (x : number) :
  le (Client.sent x) (of_Z 0) = le x (of_Z 0).
Proof. by destruct x as [[]|[]| |[] m e]. Qed.

Lemma initial_is_canonical : JObject Client.initialInputs = body_of canonical.
Proof. reflexivity. Qed.

(** Rebuilds the record after one field of it was assigned. *)
Ltac assigned_record :=
  eexists {| scenario_name := _ |}; split; [reflexivity|];
  unfold all_finite; cbn; by repeat (apply andb_true_intro; split).

Lemma onChange_body_of (name value : string) (i : ScenarioInput)
    (prev : Client.State) :
  name ∈ form_names → JObject prev = body_of i → all_finite i = true →
  ∃ i', JObject (Client.onChange name value prev) = body_of i'
        ∧ all_finite i' = true.
Proof.
  intros Hin [= ->] Hfin. pose proof (number_finite value) as Hn.
  unfold all_finite in Hfin. rewrite !andb_true_iff in Hfin.
  destruct Hfin as [[[[[[[? ?] ?] ?] ?] ?] ?] ?].
  unfold form_names in Hin.
  repeat (apply elem_of_cons in Hin as [->|Hin]);
    [..|by apply elem_of_nil in Hin]; assigned_record.
Qed.

Lemma wire_body_of (i : ScenarioInput) :
  all_finite i = true → Client.wire (body_of i) = body_of (sent_inputs i).
Proof.
  unfold all_finite. rewrite !andb_true_iff.
  intros [[[[[[[H1 H2] H3] H4] H5] H6] H7] H8].
  unfold body_of, sent_inputs. cbn [Client.wire map fst snd].
  cbn [scenario_name monthly_invoice_volume num_ap_staff
       avg_hours_per_invoice hourly_wage error_rate_manual error_cost
       time_horizon_months one_time_implementation_cost].
  by rewrite H1, H2, H3, H4, H5, H6, H7, H8.
Qed.

Lemma sent_inputs_finite (i : ScenarioInput) :
  all_finite (sent_inputs i) = all_finite i.
Proof. unfold all_finite, sent_inputs. cbn. by rewrite !sent_finite. Qed.

Lemma acceptable_finite (i : ScenarioInput) :
  acceptable i = true → all_finite i = true.
Proof.
  unfold acceptable, nonneg, all_finite. rewrite !andb_true_iff.
  naive_solver.
Qed.

Lemma loaded_body_of (st : Mongo.Store) (id : Mongo.Id)
    (doc : Mongo.Scenario) :
  Mongo.reachable st → st !! id = Some doc →
  JObject (Client.loaded doc) = body_of (sent_inputs (Mongo.doc_inputs doc))
  ∧ all_finite (sent_inputs (Mongo.doc_inputs doc)) = true.
Proof.
  intros Hreach Hdoc.
  destruct (reachable_well_stored st Hreach id doc Hdoc)
    as (_ & _ & _ & Hacc & _).
  apply acceptable_finite in Hacc.
  unfold Client.loaded. rewrite (wire_body_of _ Hacc).
  split; [reflexivity|]. by rewrite sent_inputs_finite.
Qed.

(** The state of the form is always a whole record of finite numbers. *)
Lemma form_state_record (s : Client.State) :
  form_state s → ∃ i, JObject s = body_of i ∧ all_finite i = true.
Proof.
  induction 1 as [|name value prev Hin _ (i & Hi & Hfin)|st id doc Hreach Hdoc].
  - exists canonical. split; [apply initial_is_canonical|by vm_compute].
  - by apply (onChange_body_of name value i prev).
  - eexists. by apply (loaded_body_of st id doc).
Qed.

(** What the validator makes of a record of finite numbers that was sent. *)
Lemma validateInputs_sent (i : ScenarioInput) :
  all_finite i = true →
  Mongo.validateInputs (Client.wire (body_of i))
  = Normal
      ({| scenario_name := scenario_name i;
          monthly_invoice_volume := Client.sent (monthly_invoice_volume i);
          num_ap_staff := Client.sent (num_ap_staff i);
          avg_hours_per_invoice := Client.sent (avg_hours_per_invoice i);
          hourly_wage := Client.sent (hourly_wage i);
          error_rate_manual :=
            Mongo.clamp (Client.sent (error_rate_manual i)) (of_Z 0) (of_Z 100);
          error_cost := Client.sent (error_cost i);
          time_horizon_months := Client.sent (time_horizon_months i);
          one_time_implementation_cost :=
            Client.sent (one_time_implementation_cost i) |},
       required_errors "monthly_invoice_volume" (monthly_invoice_volume i)
       ++ required_errors "num_ap_staff" (num_ap_staff i)
       ++ required_errors "avg_hours_per_invoice" (avg_hours_per_invoice i)
       ++ required_errors "hourly_wage" (hourly_wage i)
       ++ required_errors "error_cost" (error_cost i)
       ++ horizon_errors (time_horizon_months i)).
Proof.
  intros Hfin. rewrite (wire_body_of i Hfin), validateInputs_body_of.
  unfold all_finite in Hfin. rewrite !andb_true_iff in Hfin.
  destruct Hfin as [[[[[[[H1 H2] H3] H4] H5] H6] H7] H8].
  unfold validated, sent_inputs.
  cbn [scenario_name monthly_invoice_volume num_ap_staff
       avg_hours_per_invoice hourly_wage error_rate_manual error_cost
       time_horizon_months one_time_implementation_cost].
  rewrite !normalized_finite by by rewrite sent_finite.
  f_equal. f_equal.
  unfold required_errors, horizon_errors, rate_errors.
  rewrite !sent_finite, !sent_lt_zero, !sent_le_zero.
  destruct (clamp_finite (Client.sent (error_rate_manual i)))
    as (-> & _); [by rewrite sent_finite|].
  cbn [negb]. by rewrite app_nil_l.
Qed.

Lemma elem_of_required_errors_finite (msg name : string) (v : number) :
  isFinite v = true →
  msg ∈ required_errors name v
  ↔ msg = required_message name ∧ lt v (of_Z 0) = true.
Proof.
  intros Hf. unfold required_errors. rewrite Hf. cbn [negb orb].
  destruct (lt v (of_Z 0)).
  - rewrite list_elem_of_singleton. naive_solver.
  - rewrite elem_of_nil. naive_solver.
Qed.

Lemma elem_of_horizon_errors_finite (msg : string) (h : number) :
  isFinite h = true →
  msg ∈ horizon_errors h ↔ msg = horizon_message ∧ le h (of_Z 0) = true.
Proof. intros Hf. rewrite elem_of_horizon_errors, Hf. naive_solver. Qed.

(** Settles which of the six messages of a sent record a given one is. *)
Ltac which_sent_message :=
  unfold required_message, rate_message, horizon_message;
  intros [[[=] ?]|[[[=] ?]|[[[=] ?]|[[[=] ?]|[[[=] ?]|[[=] ?]]]]]].

Lemma form_request_validated (i : ScenarioInput) :
  all_finite i = true →
  ∃ inputs errors,
    Mongo.validateInputs (Client.wire (body_of i)) = Normal (inputs, errors)
    ∧ scenario_name inputs = scenario_name i
    ∧ (rate_message ∉ errors)
    ∧ (∀ name field, (name, field) ∈ required_fields →
         field inputs = Client.sent (field i)
         ∧ (required_message name ∈ errors ↔ lt (field i) (of_Z 0) = true))
    ∧ (horizon_message ∈ errors
       ↔ le (time_horizon_months i) (of_Z 0) = true).
Proof.
  intros Hfin. eexists _, _. split; [apply (validateInputs_sent i Hfin)|].
  unfold all_finite in Hfin. rewrite !andb_true_iff in Hfin.
  destruct Hfin as [[[[[[[H1 H2] H3] H4] H5] H6] H7] H8].
  cbn [scenario_name monthly_invoice_volume num_ap_staff
       avg_hours_per_invoice hourly_wage error_rate_manual error_cost
       time_horizon_months one_time_implementation_cost].
  split; [done|].
  assert (∀ msg,
    msg ∈ (required_errors "monthly_invoice_volume" (monthly_invoice_volume i)
           ++ required_errors "num_ap_staff" (num_ap_staff i)
           ++ required_errors "avg_hours_per_invoice" (avg_hours_per_invoice i)
           ++ required_errors "hourly_wage" (hourly_wage i)
           ++ required_errors "error_cost" (error_cost i)
           ++ horizon_errors (time_horizon_months i))
    ↔ (msg = required_message "monthly_invoice_volume"
       ∧ lt (monthly_invoice_volume i) (of_Z 0) = true)
      ∨ (msg = required_message "num_ap_staff"
         ∧ lt (num_ap_staff i) (of_Z 0) = true)
      ∨ (msg = required_message "avg_hours_per_invoice"
         ∧ lt (avg_hours_per_invoice i) (of_Z 0) = true)
      ∨ (msg = required_message "hourly_wage"
         ∧ lt (hourly_wage i) (of_Z 0) = true)
      ∨ (msg = required_message "error_cost"
         ∧ lt (error_cost i) (of_Z 0) = true)
      ∨ (msg = horizon_message
         ∧ le (time_horizon_months i) (of_Z 0) = true)) as Hmem.
  { intros msg.
    by rewrite !elem_of_app, !elem_of_required_errors_finite,
         elem_of_horizon_errors_finite. }
  split; [|split].
  - rewrite Hmem. by which_sent_message.
  - intros name field Hin. unfold required_fields in Hin.
    repeat (apply elem_of_cons in Hin as [[= -> ->]|Hin]);
      [..|by apply elem_of_nil in Hin].
    all: split; [reflexivity|].
    all: rewrite Hmem; split; [|tauto].
    all: by which_sent_message.
  - rewrite Hmem. split; [|tauto]. by which_sent_message.
Qed.

(** X16. Whatever was typed into the form or loaded into it, its state is
    a whole record of finite numbers, and the live POST /simulate is never
    malformed: the validator returns on what is sent (no exception), the
    response is the 200 with the results of the normalized record or the
    400 with its errors, and the errors never hold the message of the
    error rate.  A required field is the number of the form ([-0] sent as
    [0]) and has its message exactly when that number is below zero; the
    horizon has its message exactly when it is zero or below. *)
Theorem form_requests_are_never_malformed (s : Client.State) :
  form_state s →
  ∃ i inputs errors,
    JObject s = body_of i
    ∧ all_finite i = true
    ∧ Mongo.validateInputs (Client.wire (JObject s)) = Normal (inputs, errors)
    ∧ Mongo.post_simulate (Client.simulate_request s)
      = (if bool_decide (errors = [])
         then Mongo.Json200Result (Mongo.simulate inputs)
         else Mongo.Json400Errors errors)
    ∧ scenario_name inputs = scenario_name i
    ∧ (rate_message ∉ errors)
    ∧ (∀ name field, (name, field) ∈ required_fields →
         field inputs = Client.sent (field i)
         ∧ (required_message name ∈ errors ↔ lt (field i) (of_Z 0) = true))
    ∧ (horizon_message ∈ errors
       ↔ le (time_horizon_months i) (of_Z 0) = true).
Proof.
  intros Hs. destruct (form_state_record s Hs) as (i & Hi & Hfin).
  destruct (form_request_validated i Hfin)
    as (inputs & errors & Hv & Hname & Hrate & Hreq & Hhor).
  exists i, inputs, errors. rewrite Hi.
  split; [done|]. split; [exact Hfin|]. split; [exact Hv|].
  split; [|done].
  unfold Client.simulate_request. rewrite Hi.
  apply post_simulate_validated; [|exact Hv].
  by rewrite (wire_body_of i Hfin).
Qed.

Lemma form_requests_are_never_malformed_witness :
  form_state form_abc
  ∧ ∃ i inputs errors,
      JObject form_abc = body_of i
      ∧ hourly_wage i = of_Z 0
      ∧ Mongo.validateInputs (Client.wire (JObject form_abc))
        = Normal (inputs, errors)
      ∧ (required_message "hourly_wage" ∉ errors).
Proof.
  assert (form_state form_abc) as Hs.
  { apply form_change; [in_list|apply form_initial]. }
  split; [exact Hs|].
  destruct (form_requests_are_never_malformed form_abc Hs)
    as (i & inputs & errors & Hi & _ & Hv & _ & _ & _ & Hreq & _).
  exists i, inputs, errors. split; [exact Hi|].
  assert (hourly_wage i = of_Z 0) as Hwage.
  { destruct i. by injection Hi as _ _ _ _ <- _ _ _ _. }
  split; [exact Hwage|]. split; [exact Hv|].
  destruct (Hreq "hourly_wage" hourly_wage) as [_ Hiff]; [in_list|].
  rewrite Hiff, Hwage. by vm_compute.
Defined.

Lemma onChange_required_field (name value : string)
    (field : ScenarioInput → number) (i : ScenarioInput)
    (prev : Client.State) :
  (name, field) ∈ required_fields →
  JObject prev = body_of i → all_finite i = true →
  ∃ i', JObject (Client.onChange name value prev) = body_of i'
        ∧ field i' = Client.number value
        ∧ all_finite i' = true.
Proof.
  intros Hin [= ->] Hfin. pose proof (number_finite value) as Hn.
  unfold all_finite in Hfin. rewrite !andb_true_iff in Hfin.
  destruct Hfin as [[[[[[[? ?] ?] ?] ?] ?] ?] ?].
  unfold required_fields in Hin.
  repeat (apply elem_of_cons in Hin as [[= -> ->]|Hin]);
    [..|by apply elem_of_nil in Hin].
  all: eexists {| scenario_name := _ |}; split; [reflexivity|].
  all: split; [reflexivity|].
  all: unfold all_finite; cbn; by repeat (apply andb_true_intro; split).
Qed.

(** X17. The form hides an unreadable entry from the validator: when a
    text that [Number] does not read as a finite number is typed into one
    of the five required fields, the field of the form becomes 0, the
    server receives 0, and its answer carries no message for that field
    (the text itself, sent as it is, would get the message). *)
Theorem unreadable_text_counts_as_zero (s : Client.State)
    (name value : string) (field : ScenarioInput → number) :
  form_state s → (name, field) ∈ required_fields →
  isFinite (StringToNumber value) = false →
  ∃ i inputs errors,
    JObject (Client.onChange name value s) = body_of i
    ∧ field i = of_Z 0
    ∧ Mongo.validateInputs
        (Client.wire (JObject (Client.onChange name value s)))
      = Normal (inputs, errors)
    ∧ field inputs = of_Z 0
    ∧ (required_message name ∉ errors).
Proof.
  intros Hs Hin Htext.
  destruct (form_state_record s Hs) as (i0 & Hi0 & Hfin0).
  destruct (onChange_required_field name value field i0 s Hin Hi0 Hfin0)
    as (i & Hi & Hfield & Hfin).
  assert (field i = of_Z 0) as Hzero.
  { rewrite Hfield. unfold Client.number. cbv zeta. by rewrite Htext. }
  destruct (form_request_validated i Hfin)
    as (inputs & errors & Hv & _ & _ & Hreq & _).
  exists i, inputs, errors. rewrite Hi.
  split; [done|]. split; [exact Hzero|]. split; [exact Hv|].
  destruct (Hreq name field Hin) as [Hsent Hiff].
  split.
  - rewrite Hsent, Hzero. by vm_compute.
  - rewrite Hiff, Hzero. by vm_compute.
Qed.

Lemma unreadable_text_counts_as_zero_witness :
  isFinite (StringToNumber "abc") = false
  ∧ ∃ i inputs errors,
      JObject form_abc = body_of i
      ∧ hourly_wage i = of_Z 0
      ∧ Mongo.validateInputs (Client.wire (JObject form_abc))
        = Normal (inputs, errors)
      ∧ hourly_wage inputs = of_Z 0
      ∧ (required_message "hourly_wage" ∉ errors).
Proof.
  assert (isFinite (StringToNumber "abc") = false) as Htext by by vm_compute.
  split; [exact Htext|].
  apply (unreadable_text_counts_as_zero Client.initialInputs "hourly_wage"
           "abc" hourly_wage); [apply form_initial|in_list|exact Htext].
Defined.

(** *** The report *)

Section ReportProperties.

Variable NumberToString : number → string.
Variable castObjectId : string → option Mongo.Id.
Variable findOne : Json → Mongo.Store → option Mongo.Scenario.

(** X18. A report on inputs decides as POST /simulate does.  For a body
    with an email that is not blank, no truthy [scenario_id] and truthy
    [inputs]: where POST /simulate on those inputs answers 400 with a list
    of errors, the report answers 400 with the same list; where the one
    lets an exception out, so does the other; and where the one answers
    with results, the report is the 200 whose content is the template of
    the [inputs] branch filled with the trimmed email, the normalized
    inputs and those very results. *)
Theorem report_on_inputs_agrees_with_simulate (env : Mongo.Env)
    (st : Mongo.Store) (req_body : option Json) (e b : Json) (s : string) :
  Report.prop req_body "email" = Some e → truthy (Some e) = true →
  Report.ToStringText NumberToString e = Normal s → trim s ≠ "" →
  truthy (Report.prop req_body "scenario_id") = false →
  Report.prop req_body "inputs" = Some b → truthy (Some b) = true →
  match Mongo.post_simulate (Some b) with
  | Mongo.Json200Result results =>
      ∃ inputs,
        Mongo.validateInputs b = Normal (inputs, [])
        ∧ results = Mongo.simulate inputs
        ∧ Report.generate NumberToString castObjectId findOne env st req_body
          = Report.Report200 (Report.filename env)
              (Report.html_of_inputs NumberToString (trim s) inputs results)
  | Mongo.Json400Errors errors =>
      Report.generate NumberToString castObjectId findOne env st req_body
      = Report.Report400Errors errors
  | Mongo.Uncaught =>
      Report.generate NumberToString castObjectId findOne env st req_body
      = Report.ReportUncaught
  | _ => False
  end.
Proof.
  intros He Hte Hs Hne Hid Hb Htb.
  pose proof (post_simulate_cases (Some b)) as Hsim.
  rewrite (simulate_body_truthy b Htb) in Hsim.
  unfold Report.generate. rewrite He, Hte, Hid, Hb, Htb.
  cbn [from_option default id].
  rewrite Hs. cbn [mbind Completion_bind].
  apply String.eqb_neq in Hne. rewrite Hne.
  destruct (Mongo.post_simulate (Some b)) as [results| | | |errors| | |];
    try done.
  - destruct Hsim as (inputs & Hv & ->). exists inputs.
    split; [exact Hv|]. split; [done|]. rewrite Hv.
    by rewrite bool_decide_false by (by intros []).
  - destruct Hsim as (Hnil & inputs & ->).
    rewrite bool_decide_true; [done|]. by destruct errors.
  - by rewrite Hsim.
Qed.

(** X19. A report on a stored scenario shows what is stored, and what is
    stored is current.  For a body with an email that is not blank and a
    [scenario_id] that is a string and not empty, on a collection the
    server can reach: when the database answers, the string casts to an
    id and the collection holds a document under that id, the report is
    the 200 whose content is the template of the [scenario_id] branch
    filled with the trimmed email, the stored inputs and [simulate] of the
    stored inputs, whatever else the body carries; when the database does
    not answer, or the string casts to no id, or no document has that id,
    the response is the 404 "scenario not found".  (A [scenario_id] that
    is not a string is a query the database interprets; nothing is said
    of it here.) *)
Theorem report_by_id_shows_the_stored_scenario (env : Mongo.Env)
    (st : Mongo.Store) (req_body : option Json) (e : Json)
    (sid s : string) :
  Mongo.reachable st →
  Report.prop req_body "email" = Some e → truthy (Some e) = true →
  Report.ToStringText NumberToString e = Normal s → trim s ≠ "" →
  Report.prop req_body "scenario_id" = Some (JString sid) → sid ≠ "" →
  (∀ id doc,
     Mongo.db_up env = true → castObjectId sid = Some id →
     st !! id = Some doc →
     Report.generate NumberToString castObjectId findOne env st req_body
     = Report.Report200 (Report.filename env)
         (Report.html_of_scenario NumberToString (trim s)
            (Mongo.doc_inputs doc) (Mongo.simulate (Mongo.doc_inputs doc))))
  ∧ (Mongo.db_up env = false ∨ castObjectId sid = None
     ∨ (∃ id, castObjectId sid = Some id ∧ st !! id = None) →
     Report.generate NumberToString castObjectId findOne env st req_body
     = Report.Report404 "scenario not found").
Proof.
  intros Hreach He Hte Hs Hne Hv Hsid.
  unfold Report.generate. rewrite He, Hte, Hv.
  cbn [truthy]. apply String.eqb_neq in Hsid. rewrite Hsid. cbn [negb].
  cbn [from_option default id]. rewrite Hs. cbn [mbind Completion_bind].
  apply String.eqb_neq in Hne. rewrite Hne.
  unfold Report.findById. split.
  - intros id doc -> Hcast Hdoc. rewrite Hcast.
    cbn [mbind option_bind]. rewrite Hdoc. cbv zeta.
    by destruct (reachable_consistent st Hreach id doc Hdoc) as [_ ->].
  - intros [->|[Hcast|(id & Hcast & Hdoc)]]; [done| |].
    + destruct (Mongo.db_up env); [|done]. by rewrite Hcast.
    + destruct (Mongo.db_up env); [|done]. rewrite Hcast.
      cbn [mbind option_bind]. by rewrite Hdoc.
Qed.

(** X20. The form and the server do not agree on what an email is: an
    email of white space only is not empty, so [generateReport] sends its
    request, and the server, which trims it, answers 400 "email is
    required", whatever the state of the form. *)
Theorem blank_email_passes_the_form_only (env : Mongo.Env)
    (st : Mongo.Store) (email : string) (s : Client.State) :
  email ≠ "" → trim email = "" →
  ∃ req_body,
    Client.report_request email s = Some req_body
    ∧ Report.generate NumberToString castObjectId findOne env st req_body
      = Report.Report400 "email is required".
Proof.
  intros Hne Hblank. unfold Client.report_request.
  apply String.eqb_neq in Hne as Hne'. rewrite Hne'. eexists. split; [done|].
  unfold Report.generate.
  cbn [Client.wire map fst snd].
  change (Report.prop (Some (JObject ?props)) "email")
    with (Some (JString email)).
  cbn [truthy]. rewrite Hne'. cbn [negb from_option Report.ToStringText].
  cbn [mbind Completion_bind]. by rewrite Hblank.
Qed.

(** X21. The report the form asks for shows what the page shows.  For
    every state of the form and every email that is not blank,
    [generateReport] sends a request; where the live POST /simulate of
    that state answers with results, the report is the 200 whose content
    is the template of the [inputs] branch filled with the trimmed email
    and those results; where it answers 400 with errors, so does the
    report, with the same errors; and neither lets an exception out. *)
Theorem form_report_shows_the_live_results (env : Mongo.Env)
    (st : Mongo.Store) (email : string) (s : Client.State) :
  form_state s → trim email ≠ "" →
  ∃ req_body,
    Client.report_request email s = Some req_body
    ∧ match Mongo.post_simulate (Client.simulate_request s) with
      | Mongo.Json200Result results =>
          ∃ inputs,
            Report.generate NumberToString castObjectId findOne env st req_body
            = Report.Report200 (Report.filename env)
                (Report.html_of_inputs NumberToString (trim email)
                   inputs results)
      | Mongo.Json400Errors errors =>
          Report.generate NumberToString castObjectId findOne env st req_body
          = Report.Report400Errors errors
      | _ => False
      end.
Proof.
  intros Hs Hne.
  destruct (form_state_record s Hs) as (i & Hi & Hfin).
  destruct (form_request_validated i Hfin)
    as (inputs & errors & Hv & _).
  assert (email ≠ "") as Hne' by (by intros ->).
  apply String.eqb_neq in Hne'. apply String.eqb_neq in Hne.
  unfold Client.report_request, Client.simulate_request.
  rewrite Hne', Hi. eexists. split; [done|].
  assert (truthy (Some (Client.wire (body_of i))) = true) as Htb
    by by rewrite (wire_body_of i Hfin).
  rewrite (post_simulate_validated _ _ _ Htb Hv).
  unfold Report.generate.
  change (Client.wire (JObject [("email", JString email);
                               ("inputs", body_of i)]))
    with (JObject [("email", JString email);
                   ("inputs", Client.wire (body_of i))]).
  change (Report.prop (Some (JObject ?props)) "email")
    with (Some (JString email)).
  change (Report.prop (Some (JObject ?props)) "scenario_id")
    with (@None Json).
  change (Report.prop (Some (JObject [("email", JString email);
                                     ("inputs", ?b)])) "inputs")
    with (Some b).
  rewrite Htb. cbn [truthy]. rewrite Hne'.
  cbn [negb from_option default id Report.ToStringText].
  cbn [mbind Completion_bind]. rewrite Hne, Hv.
  destruct errors as [|msg errors].
  - rewrite bool_decide_true by done.
    rewrite bool_decide_false by (by intros []). by eexists.
  - rewrite bool_decide_false by done. by rewrite bool_decide_true by done.
Qed.

End ReportProperties.

Lemma report_on_inputs_agrees_with_simulate_witness :
  ∃ inputs,
    Mongo.validateInputs (body_of canonical) = Normal (inputs, [])
    ∧ Report.generate sample_text sample_cast sample_find (env_up 1) ∅
        report_by_inputs
      = Report.Report200 (Report.filename (env_up 1))
          (Report.html_of_inputs sample_text "a@b.c" inputs
             (Mongo.simulate canonical)).
Proof.
  pose proof (report_on_inputs_agrees_with_simulate sample_text sample_cast
                sample_find
                (env_up 1) ∅ report_by_inputs (JString "a@b.c")
                (body_of canonical) "a@b.c") as H.
  assert (Mongo.post_simulate (Some (body_of canonical))
          = Mongo.Json200Result (Mongo.simulate canonical)) as Hs
    by by vm_compute.
  rewrite Hs in H.
  destruct H as (inputs & Hv & _ & Hg);
    [reflexivity|reflexivity|reflexivity|by vm_compute|reflexivity
    |reflexivity|reflexivity|].
  exists inputs. by split.
Defined.

Lemma report_by_id_shows_the_stored_scenario_witness :
  Mongo.reachable saved_once
  ∧ ∃ doc,
      saved_once !! 1%positive = Some doc
      ∧ Report.generate sample_text sample_cast sample_find (env_up 2)
          saved_once report_by_id
        = Report.Report200 (Report.filename (env_up 2))
            (Report.html_of_scenario sample_text "a@b.c"
               (Mongo.doc_inputs doc)
               (Mongo.simulate (Mongo.doc_inputs doc))).
Proof.
  assert (Mongo.reachable saved_once) as Hreach
    by apply Mongo.reachable_post, Mongo.reachable_empty.
  split; [exact Hreach|].
  destruct (saved_once !! 1%positive) as [doc|] eqn:Hdoc;
    [|by vm_compute in Hdoc].
  exists doc. split; [reflexivity|].
  destruct (report_by_id_shows_the_stored_scenario sample_text sample_cast
              sample_find (env_up 2) saved_once report_by_id
              (JString "a@b.c") "a" "a@b.c" Hreach)
    as [Hfound _];
    [reflexivity|reflexivity|reflexivity|by vm_compute|reflexivity|done|].
  by apply (Hfound 1%positive doc).
Defined.

Lemma blank_email_passes_the_form_only_witness :
  ∃ req_body,
    Client.report_request " " Client.initialInputs = Some req_body
    ∧ Report.generate sample_text sample_cast sample_find (env_up 1) ∅
        req_body
      = Report.Report400 "email is required".
Proof.
  apply (blank_email_passes_the_form_only sample_text sample_cast sample_find
           (env_up 1) ∅ " " Client.initialInputs); by vm_compute.
Defined.

Lemma form_report_shows_the_live_results_witness :
  form_state form_abc
  ∧ ∃ req_body,
      Client.report_request "a@b.c" form_abc = Some req_body
      ∧ ∃ filename content,
          Report.generate sample_text sample_cast sample_find (env_up 1) ∅
            req_body
          = Report.Report200 filename content.
Proof.
  assert (form_state form_abc) as Hs.
  { apply form_change; [in_list|apply form_initial]. }
  split; [exact Hs|].
  destruct (form_report_shows_the_live_results sample_text sample_cast
              sample_find (env_up 1) ∅ "a@b.c" form_abc Hs)
    as (req_body & Hreq & Hmatch); [by vm_compute|].
  exists req_body. split; [exact Hreq|].
  destruct (Mongo.post_simulate (Client.simulate_request form_abc))
    as [results| | | |errors| | |] eqn:Hsim;
    try (by vm_compute in Hsim).
  destruct Hmatch as (inputs & Hg). by eexists _, _.
Defined.

(** *** The sign of a zero *)

Lemma alike_refl (a : number) : alike a a.
Proof. by left. Qed.

Lemma sent_alike (x : number) : alike (Client.sent x) x.
Proof. destruct x as [[]|[]| |[] m e]; first [by left | right; by eexists _, _]. Qed.

Lemma mul_alike (a a' b b' : number) :
  alike a a' → alike b b' → alike (mul a b) (mul a' b').
Proof.
  intros [->|(s & t & -> & ->)] [->|(s' & t' & -> & ->)].
  - by left.
  - destruct a' as [[]|[]| |[] m e], s', t';
      first [by left | right; by eexists _, _].
  - destruct b' as [[]|[]| |[] m e], s, t;
      first [by left | right; by eexists _, _].
  - destruct s, t, s', t'; first [by left | right; by eexists _, _].
Qed.

Lemma add_alike (a a' b b' : number) :
  alike a a' → alike b b' → alike (add a b) (add a' b').
Proof.
  intros [->|(s & t & -> & ->)] [->|(s' & t' & -> & ->)].
  - by left.
  - destruct a' as [[]|[]| |[] m e], s', t';
      first [by left | right; by eexists _, _].
  - destruct b' as [[]|[]| |[] m e], s, t;
      first [by left | right; by eexists _, _].
  - destruct s, t, s', t'; first [by left | right; by eexists _, _].
Qed.

Lemma sub_alike (a a' b b' : number) :
  alike a a' → alike b b' → alike (sub a b) (sub a' b').
Proof.
  intros [->|(s & t & -> & ->)] [->|(s' & t' & -> & ->)].
  - by left.
  - destruct a' as [[]|[]| |[] m e], s', t';
      first [by left | right; by eexists _, _].
  - destruct b' as [[]|[]| |[] m e], s, t;
      first [by left | right; by eexists _, _].
  - destruct s, t, s', t'; first [by left | right; by eexists _, _].
Qed.

Lemma div_alike (a a' b : number) :
  alike a a' → alike (div a b) (div a' b).
Proof.
  intros [->|(s & t & -> & ->)].
  - by left.
  - destruct b as [[]|[]| |[] m e], s, t;
      first [by left | right; by eexists _, _].
Qed.

Lemma gt_zero_alike (a a' : number) :
  alike a a' → gt a (of_Z 0) = gt a' (of_Z 0).
Proof. intros [->|(s & t & -> & ->)]; [done|]. by destruct s, t. Qed.

Lemma gt_zero_same (a a' : number) :
  alike a a' → gt a' (of_Z 0) = true → a = a'.
Proof. intros [->|(s & t & -> & ->)]; [done|]. by destruct t. Qed.

Lemma round2_alike (a a' : number) : alike a a' → round2 a = round2 a'.
Proof.
  intros [->|(s & t & -> & ->)]; [done|]. by destruct s, t; vm_compute.
Qed.

Lemma monthly_savings_alike (i j : ScenarioInput) :
  alike_inputs i j →
  alike (Mongo.monthly_savings_value i) (Mongo.monthly_savings_value j).
Proof.
  intros (? & ? & ? & ? & ? & ? & ? & ?).
  unfold Mongo.monthly_savings_value, Mongo.labor_cost_manual,
    Mongo.error_savings, Mongo.auto_cost.
  repeat first [ assumption | apply mul_alike | apply add_alike
               | apply sub_alike | apply div_alike | apply alike_refl ].
Qed.

Lemma cumulative_savings_alike (i j : ScenarioInput) :
  alike_inputs i j →
  alike (Mongo.cumulative_savings_value i) (Mongo.cumulative_savings_value j).
Proof.
  intros H. unfold Mongo.cumulative_savings_value.
  apply mul_alike; [by apply monthly_savings_alike|].
  by destruct H as (? & ? & ? & ? & ? & ? & ? & ?).
Qed.

Lemma net_savings_alike (i j : ScenarioInput) :
  alike_inputs i j →
  alike (Mongo.net_savings_value i) (Mongo.net_savings_value j).
Proof.
  intros H. unfold Mongo.net_savings_value.
  apply sub_alike; [by apply cumulative_savings_alike|].
  by destruct H as (? & ? & ? & ? & ? & ? & ? & ?).
Qed.

Lemma sent_inputs_alike (i : ScenarioInput) : alike_inputs (sent_inputs i) i.
Proof. repeat split; apply sent_alike. Qed.

Lemma clamp_not_neg_zero (x : number) :
  is_neg_zero (Mongo.clamp x (of_Z 0) (of_Z 100)) = false.
Proof.
  destruct x as [[]|[]| |[] m e];
    [by vm_compute|by vm_compute|by vm_compute|by vm_compute|by vm_compute| |].
  - pose proof (clamp_finite (S754_finite true m e) eq_refl)
      as (_ & _ & _ & _ & Hneg & _).
    by rewrite (Hneg eq_refl).
  - rewrite clamp_positive.
    by destruct (SFcompare (S754_finite false m e) (of_Z 100)) as [[]|].
Qed.

Lemma sent_id (x : number) : is_neg_zero x = false → Client.sent x = x.
Proof. unfold Client.sent. by intros ->. Qed.

(** A record the validator returns unchanged is still one once sent. *)
Lemma sent_inputs_fixed (i : ScenarioInput) :
  all_finite i = true →
  Mongo.validateInputs (body_of i) = Normal (i, []) →
  Mongo.validateInputs (body_of (sent_inputs i)) = Normal (sent_inputs i, [])
  ∧ all_finite (sent_inputs i) = true.
Proof.
  intros Hfin Hv. split; [|by rewrite sent_inputs_finite].
  rewrite <-(wire_body_of i Hfin), (validateInputs_sent i Hfin).
  rewrite validateInputs_body_of in Hv.
  injection Hv as Hrec Herr.
  unfold all_finite in Hfin. rewrite !andb_true_iff in Hfin.
  destruct Hfin as [[[[[[[H1 H2] H3] H4] H5] H6] H7] H8].
  unfold validated in Hrec, Herr.
  cbn [fst snd monthly_invoice_volume num_ap_staff avg_hours_per_invoice
       hourly_wage error_rate_manual error_cost time_horizon_months
       one_time_implementation_cost] in Herr.
  rewrite !normalized_finite in Herr by done.
  apply app_eq_nil in Herr as [E1 Herr].
  apply app_eq_nil in Herr as [E2 Herr].
  apply app_eq_nil in Herr as [E3 Herr].
  apply app_eq_nil in Herr as [E4 Herr].
  apply app_eq_nil in Herr as [E5 Herr].
  apply app_eq_nil in Herr as [_ E6].
  rewrite E1, E2, E3, E4, E5, E6. cbn [app].
  f_equal. f_equal. unfold sent_inputs. f_equal.
  assert (error_rate_manual i
          = Mongo.clamp (error_rate_manual i) (of_Z 0) (of_Z 100)) as Hrate.
  { rewrite <-Hrec at 1. cbn [error_rate_manual].
    by rewrite normalized_finite. }
  rewrite (sent_id (error_rate_manual i)); [by rewrite <-Hrate|].
  rewrite Hrate. apply clamp_not_neg_zero.
Qed.

(** [Number()] of a value that went over the wire. *)
Lemma Number_wire (x : number) :
  Number_ (Some (if isFinite x then JNumber (Client.sent x) else JNull))
  = Number_ (Some (JNumber (received x))).
Proof. unfold received. by destruct (isFinite x). Qed.

Lemma validateInputs_wire (i : ScenarioInput) :
  Mongo.validateInputs (Client.wire (body_of i))
  = Mongo.validateInputs (body_of (received_inputs i)).
Proof.
  rewrite !validateInputs_closed_form.
  destruct i as [nm f1 f2 f3 f4 fr f5 fh fc].
  unfold body_of, received_inputs.
  cbn [Client.wire map fst snd scenario_name monthly_invoice_volume
       num_ap_staff avg_hours_per_invoice hourly_wage error_rate_manual
       error_cost time_horizon_months one_time_implementation_cost].
  cbv -[validated Client.sent Number_ isFinite received].
  by rewrite !Number_wire.
Qed.

Lemma received_finite (x : number) : isFinite (received x) = true.
Proof.
  unfold received. destruct (isFinite x) eqn:H; [by rewrite sent_finite|done].
Qed.

Lemma received_lt_zero (x : number) :
  lt (received x) (of_Z 0) = isFinite x && lt x (of_Z 0).
Proof.
  unfold received. destruct (isFinite x); [by rewrite sent_lt_zero|done].
Qed.

Lemma received_le_zero (x : number) :
  isFinite x = true → le (received x) (of_Z 0) = le x (of_Z 0).
Proof. unfold received. intros ->. apply sent_le_zero. Qed.

Lemma clamp_received (x : number) :
  let c := Mongo.clamp x (of_Z 0) (of_Z 100) in
  Mongo.clamp (received c) (of_Z 0) (of_Z 100) = received c.
Proof.
  intros c. unfold received. destruct (isFinite c); [|by vm_compute].
  subst c. rewrite (sent_id _ (clamp_not_neg_zero x)).
  apply clamp_idempotent.
Qed.

Lemma normalized_nan_neg (n : number) :
  isFinite (normalized n nan) && lt (normalized n nan) (of_Z 0)
  = lt (normalized n nan) (of_Z 0).
Proof. unfold normalized. by destruct (isFinite n) eqn:H; rewrite ?H. Qed.

Lemma normalized_nan_neg_iff (n : number) :
  lt (normalized n nan) (of_Z 0) = true
  ↔ isFinite n = true ∧ lt n (of_Z 0) = true.
Proof.
  unfold normalized. destruct (isFinite n) eqn:H; [naive_solver|].
  split; [by vm_compute|]. by intros [? _].
Qed.

(** What the validator makes of a record it returned, once that record
    went over the wire. *)
Lemma wire_revalidated (body : Json) (inputs : ScenarioInput)
    (errors : list string) :
  Mongo.validateInputs body = Normal (inputs, errors) →
  ∃ errors',
    Mongo.validateInputs (Client.wire (body_of inputs))
    = Normal (received_inputs inputs, errors')
    ∧ (∀ m, m ∈ errors' → m ∈ errors)
    ∧ (∀ name field, (name, field) ∈ required_fields →
         (required_message name ∈ errors'
          ↔ lt (field inputs) (of_Z 0) = true))
    ∧ (rate_message ∉ errors')
    ∧ (horizon_message ∈ errors' ↔ horizon_message ∈ errors).
Proof.
  intros Hv.
  destruct (validateInputs_inv _ _ _ Hv)
    as (nm & n1 & n2 & n3 & n4 & nr & n5 & nh & nc & _ & _ & _ & _ & _ & _
        & _ & _ & _ & Heq).
  assert (inputs = (validated nm n1 n2 n3 n4 nr n5 nh nc).1) as Hin
    by by rewrite <- Heq.
  assert (errors = (validated nm n1 n2 n3 n4 nr n5 nh nc).2) as Herr
    by by rewrite <- Heq.
  assert (monthly_invoice_volume inputs = normalized n1 nan) as H1
    by by rewrite Hin.
  assert (num_ap_staff inputs = normalized n2 nan) as H2 by by rewrite Hin.
  assert (avg_hours_per_invoice inputs = normalized n3 nan) as H3
    by by rewrite Hin.
  assert (hourly_wage inputs = normalized n4 nan) as H4 by by rewrite Hin.
  assert (error_cost inputs = normalized n5 nan) as H5 by by rewrite Hin.
  assert (error_rate_manual inputs
          = Mongo.clamp (normalized nr nan) (of_Z 0) (of_Z 100)) as Hr
    by by rewrite Hin.
  assert (time_horizon_months inputs = normalized nh (of_Z 36)) as Hh
    by by rewrite Hin.
  assert (isFinite (time_horizon_months inputs) = true) as Hhf.
  { rewrite Hh. by apply normalized_is_finite. }
  rewrite validateInputs_wire, validateInputs_body_of.
  cbn [received_inputs scenario_name monthly_invoice_volume num_ap_staff
       avg_hours_per_invoice hourly_wage error_rate_manual error_cost
       time_horizon_months one_time_implementation_cost].
  set (w := validated _ _ _ _ _ _ _ _ _).
  exists w.2. split.
  { f_equal. apply injective_projections; [|reflexivity].
    subst w. unfold validated, received_inputs.
    cbn [fst scenario_name monthly_invoice_volume num_ap_staff
         avg_hours_per_invoice hourly_wage error_rate_manual error_cost
         time_horizon_months one_time_implementation_cost].
    rewrite !normalized_finite by apply received_finite.
    f_equal. rewrite Hr. apply clamp_received. }
  assert (∀ x, isFinite (received (normalized x nan)) = false
               ∨ lt (received (normalized x nan)) (of_Z 0) = true
               ↔ lt (normalized x nan) (of_Z 0) = true) as Hreq.
  { intros x. rewrite received_finite, received_lt_zero, normalized_nan_neg.
    naive_solver. }
  assert (∀ m, m ∈ w.2 ↔
            (m = required_message "monthly_invoice_volume"
               ∧ lt (monthly_invoice_volume inputs) (of_Z 0) = true)
            ∨ (m = required_message "num_ap_staff"
               ∧ lt (num_ap_staff inputs) (of_Z 0) = true)
            ∨ (m = required_message "avg_hours_per_invoice"
               ∧ lt (avg_hours_per_invoice inputs) (of_Z 0) = true)
            ∨ (m = required_message "hourly_wage"
               ∧ lt (hourly_wage inputs) (of_Z 0) = true)
            ∨ (m = required_message "error_cost"
               ∧ lt (error_cost inputs) (of_Z 0) = true)
            ∨ (m = horizon_message
               ∧ le (time_horizon_months inputs) (of_Z 0) = true)) as Hw.
  { intros m. subst w. rewrite elem_of_validated_errors.
    rewrite H1, H2, H3, H4, H5, !Hreq.
    rewrite !(normalized_finite (received _)) by apply received_finite.
    rewrite Hr, clamp_received, !received_finite.
    rewrite (received_le_zero _ Hhf).
    assert (true = false ↔ False) as -> by (split; [discriminate|tauto]).
    tauto. }
  assert (∀ m, m ∈ errors ↔ _) as He
    by (intros m; rewrite Herr; apply elem_of_validated_errors).
  clearbody w.
  assert (∀ n, lt (normalized n nan) (of_Z 0) = true →
               isFinite n = false ∨ lt n (of_Z 0) = true) as Hneg.
  { intros n Hn. apply normalized_nan_neg_iff in Hn. tauto. }
  rewrite H1, H2, H3, H4, H5 in Hw. rewrite Hh in Hw.
  split.
  { intros m. rewrite Hw, He.
    intros [[? ?]|[[? ?]|[[? ?]|[[? ?]|[[? ?]|[? ?]]]]]]; auto 12. }
  split.
  { intros name field Hin'. rewrite Hw.
    unfold required_fields in Hin'.
    repeat (apply elem_of_cons in Hin' as [[= -> ->]|Hin']);
      [..|by apply elem_of_nil in Hin'].
    all: rewrite <-?H1, <-?H2, <-?H3, <-?H4, <-?H5.
    all: split; [|intros ?; auto 12].
    all: intros [[Hm ?]|[[Hm ?]|[[Hm ?]|[[Hm ?]|[[Hm ?]|[Hm ?]]]]]];
      first [assumption | vm_compute in Hm; discriminate Hm]. }
  split.
  { rewrite Hw.
    intros [[Hm ?]|[[Hm ?]|[[Hm ?]|[[Hm ?]|[[Hm ?]|[Hm ?]]]]]];
      vm_compute in Hm; discriminate Hm. }
  rewrite Hw, He. split.
  - intros [[Hm ?]|[[Hm ?]|[[Hm ?]|[[Hm ?]|[[Hm ?]|[Hm ?]]]]]];
      try (vm_compute in Hm; discriminate Hm).
    auto 12.
  - intros [[Hm ?]|[[Hm ?]|[[Hm ?]|[[Hm ?]|[[Hm ?]|[[Hm ?]|[Hm Hle]]]]]]];
      try (vm_compute in Hm; discriminate Hm).
    destruct Hle as [Hle|Hle]; [|auto 12].
    rewrite <-Hh, Hhf in Hle. discriminate Hle.
Qed.

(** X4. The validator is idempotent on the record it returns, and loses
    the errors of unreadable fields once that record goes over the wire.
    Taken as a value (the object whose properties are the fields of the
    record, a NaN staying the number NaN), the record is returned
    unchanged and with the same errors.  Sent as JSON, a record that was
    returned without errors is returned again without errors, a [-0] in it
    read as [0].  Sent as JSON, any returned record is read with each NaN
    as [0] (JSON writes NaN as [null]) and each [-0] as [0]; the errors
    then are among the former ones, the message of a required field is
    kept exactly when the field is negative (the message of a field that
    was NaN is gone), the error_rate_manual message is gone, and the
    time_horizon_months message is kept. *)
Theorem revalidation_is_identity (body : Json) (inputs : ScenarioInput)
    (errors : list string) :
  Mongo.validateInputs body = Normal (inputs, errors) →
  Mongo.validateInputs (body_of inputs) = Normal (inputs, errors)
  ∧ (errors = [] →
     Mongo.validateInputs (Client.wire (body_of inputs))
     = Normal (sent_inputs inputs, []))
  ∧ (∃ errors',
       Mongo.validateInputs (Client.wire (body_of inputs))
       = Normal (received_inputs inputs, errors')
       ∧ (∀ m, m ∈ errors' → m ∈ errors)
       ∧ (∀ name field, (name, field) ∈ required_fields →
            (required_message name ∈ errors'
             ↔ lt (field inputs) (of_Z 0) = true))
       ∧ (rate_message ∉ errors')
       ∧ (horizon_message ∈ errors' ↔ horizon_message ∈ errors)).
Proof.
  intros Hv.
  destruct (validateInputs_inv _ _ _ Hv)
    as (nm & n1 & n2 & n3 & n4 & nr & n5 & nh & nc & _ & _ & _ & _ & _ & _
        & _ & _ & _ & Heq).
  assert (inputs = (validated nm n1 n2 n3 n4 nr n5 nh nc).1) as Hin
    by by rewrite <- Heq.
  assert (errors = (validated nm n1 n2 n3 n4 nr n5 nh nc).2) as Herr
    by by rewrite <- Heq.
  assert (Mongo.validateInputs (body_of inputs) = Normal (inputs, errors))
    as Hfix.
  { pose proof (validated_fixed nm (scenario_name inputs)
                  n1 n2 n3 n4 nr n5 nh nc) as H.
    rewrite <-Hin, <-Herr in H. by rewrite with_name_same in H. }
  split; [exact Hfix|]. split; [|exact (wire_revalidated body inputs errors Hv)].
  intros ->.
  assert (all_finite inputs = true) as Hfin.
  { apply acceptable_finite. rewrite Hin.
    apply validated_acceptable. by rewrite <-Herr. }
  rewrite (wire_body_of inputs Hfin).
  by destruct (sent_inputs_fixed inputs Hfin Hfix).
Qed.

Lemma revalidation_is_identity_witness :
  let babc := override (body_of canonical) "hourly_wage" (JString "abc") in
  (Mongo.validateInputs (body_of canonical) = Normal (canonical, [])
   ∧ Mongo.validateInputs (Client.wire (body_of canonical))
     = Normal (sent_inputs canonical, []))
  ∧ (∃ inputs errors errors',
       Mongo.validateInputs babc = Normal (inputs, errors)
       ∧ Mongo.validateInputs (body_of inputs) = Normal (inputs, errors)
       ∧ Mongo.validateInputs (Client.wire (body_of inputs))
         = Normal (received_inputs inputs, errors')
       ∧ required_message "hourly_wage" ∈ errors
       ∧ required_message "hourly_wage" ∉ errors').
Proof.
  intros babc. split.
  - assert (Mongo.validateInputs (body_of canonical)
            = Normal (canonical, [])) as Hv by by vm_compute.
    split; [exact Hv|].
    by apply (proj1 (proj2 (revalidation_is_identity (body_of canonical)
                              canonical [] Hv))).
  - destruct (Mongo.validateInputs babc) as [[inputs errors]|] eqn:Hv;
      [|vm_compute in Hv; discriminate Hv].
    destruct (revalidation_is_identity babc inputs errors Hv)
      as (Hfix & _ & errors' & Hwire & _ & Hreq & _).
    exists inputs, errors, errors'.
    split; [reflexivity|]. split; [exact Hfix|]. split; [exact Hwire|].
    vm_compute in Hv. injection Hv as Hi He.
    split.
    + rewrite <-He. in_list.
    + rewrite (Hreq "hourly_wage" hourly_wage) by in_list.
      rewrite <-Hi. by vm_compute.
Defined.

(** X22. The sign of a zero does not matter, and a loaded scenario shows
    its stored results.  [simulate] gives the same results on two records
    whose numbers differ at most by the sign of a zero ([0] against [-0]),
    whatever the other values are.  Hence, for every scenario of a
    collection the server can reach: once [loadScenario] has put its
    inputs into the form (where a stored [-0] arrives as [0]), the live
    POST /simulate answers with exactly the stored results. *)
Theorem loading_shows_the_stored_results :
  (∀ i j, alike_inputs i j → Mongo.simulate i = Mongo.simulate j)
  ∧ (∀ st id doc,
       Mongo.reachable st → st !! id = Some doc →
       Mongo.post_simulate (Client.simulate_request (Client.loaded doc))
       = Mongo.Json200Result (Mongo.doc_results doc)).
Proof.
  assert (∀ i j, alike_inputs i j → Mongo.simulate i = Mongo.simulate j)
    as Hsame.
  { intros i j H.
    pose proof (monthly_savings_alike i j H) as Hm.
    pose proof (cumulative_savings_alike i j H) as Hc.
    pose proof (net_savings_alike i j H) as Hn.
    destruct H as (_ & _ & _ & _ & _ & _ & _ & Hcost).
    unfold Mongo.simulate. f_equal.
    - by apply round2_alike.
    - by apply round2_alike.
    - by apply round2_alike.
    - unfold Mongo.payback_months_value.
      rewrite (gt_zero_alike _ _ Hm).
      destruct (gt (Mongo.monthly_savings_value j) (of_Z 0)) eqn:Hpos;
        [|done].
      rewrite (gt_zero_same _ _ Hm Hpos). f_equal.
      apply round2_alike, div_alike. exact Hcost.
    - unfold Mongo.roi_percentage_value.
      rewrite (gt_zero_alike _ _ Hcost).
      destruct (gt (one_time_implementation_cost j) (of_Z 0)) eqn:Hpos.
      + rewrite (gt_zero_same _ _ Hcost Hpos).
        apply round2_alike, mul_alike; [|apply alike_refl].
        by apply div_alike.
      + by rewrite (gt_zero_alike _ _ Hc). }
  split; [exact Hsame|].
  intros st id doc Hreach Hdoc.
  destruct (reachable_well_stored st Hreach id doc Hdoc)
    as (_ & _ & _ & Hacc & Hv & Hres).
  apply acceptable_finite in Hacc as Hfin.
  destruct (sent_inputs_fixed _ Hfin Hv) as [Hv1 Hfin1].
  destruct (sent_inputs_fixed _ Hfin1 Hv1) as [Hv2 _].
  unfold Client.simulate_request.
  destruct (loaded_body_of st id doc Hreach Hdoc) as [-> _].
  rewrite (wire_body_of _ Hfin1).
  rewrite (post_simulate_validated
             (body_of (sent_inputs (sent_inputs (Mongo.doc_inputs doc))))
             _ _ eq_refl Hv2).
  rewrite bool_decide_true by done. f_equal.
  rewrite Hres.
  rewrite (Hsame _ _ (sent_inputs_alike (sent_inputs (Mongo.doc_inputs doc)))).
  apply Hsame, sent_inputs_alike.
Qed.

Lemma loading_shows_the_stored_results_witness :
  Mongo.simulate (with_cost canonical (S754_zero true))
    = Mongo.simulate (with_cost canonical (S754_zero false))
  ∧ ∃ doc, saved_once !! 1%positive = Some doc
           ∧ Mongo.post_simulate
               (Client.simulate_request (Client.loaded doc))
             = Mongo.Json200Result (Mongo.doc_results doc).
Proof.
  split.
  - apply (proj1 loading_shows_the_stored_results).
    repeat split; first [by left | right; by eexists _, _].
  - destruct (saved_once !! 1%positive) as [doc|] eqn:Hdoc;
      [|by vm_compute in Hdoc].
    exists doc. split; [reflexivity|].
    apply (proj2 loading_shows_the_stored_results saved_once 1%positive);
      [apply Mongo.reachable_post, Mongo.reachable_empty|exact Hdoc].
Defined.

(** X23. Saving stores what the page shows.  For every state of the
    form: where the live POST /simulate answers with results, [saveScenario]
    gets an id when the database answers, the new id is free and no result
    is NaN (the cast of the schema refuses NaN), the document stored under
    that id carries the name answered and exactly those results, and it
    gets the 500 "failed to save scenario", nothing being stored,
    otherwise; where the live POST /simulate answers 400 with errors, so
    does the save, with the same errors, and nothing is stored; and
    neither lets an exception out. *)
Theorem form_saves_what_the_page_shows (env : Mongo.Env) (st : Mongo.Store)
    (s : Client.State) :
  form_state s →
  match Mongo.post_simulate (Client.simulate_request s) with
  | Mongo.Json200Result results =>
      (Mongo.db_up env = true → st !! Mongo.new_id env = None →
       Mongo.cast_results results = true →
       ∃ name doc,
         (Mongo.post_scenarios env st (Client.save_request s)).1
           = Mongo.Json200Saved (Mongo.new_id env) name
         ∧ (Mongo.post_scenarios env st (Client.save_request s)).2
             !! Mongo.new_id env = Some doc
         ∧ Mongo.doc_scenario_name doc = name
         ∧ Mongo.doc_results doc = results)
      ∧ (Mongo.db_up env = false ∨ st !! Mongo.new_id env ≠ None
         ∨ Mongo.cast_results results = false →
         Mongo.post_scenarios env st (Client.save_request s)
         = (Mongo.Json500 "failed to save scenario", st))
  | Mongo.Json400Errors errors =>
      Mongo.post_scenarios env st (Client.save_request s)
      = (Mongo.Json400Errors errors, st)
  | _ => False
  end.
Proof.
  intros Hs. destruct (form_state_record s Hs) as (i & Hi & Hfin).
  destruct (form_request_validated i Hfin) as (inputs & errors & Hv & _).
  assert (truthy (Some (Client.wire (body_of i))) = true) as Htb
    by by rewrite (wire_body_of i Hfin).
  unfold Client.simulate_request, Client.save_request. rewrite Hi.
  rewrite (post_simulate_validated _ _ _ Htb Hv).
  change (Client.wire (JObject [("inputs", body_of i)]))
    with (JObject [("inputs", Client.wire (body_of i))]).
  rewrite <-(scenarios_body_wrapped _ Htb) in Hv.
  destruct errors as [|msg errors].
  - rewrite bool_decide_true by done.
    rewrite (post_scenarios_validated env st _ inputs Hv). cbv zeta.
    destruct (Mongo.db_up env) eqn:Hup; cbn [andb]; [|by split].
    destruct (bool_decide_reflect (st !! Mongo.new_id env = None))
      as [Hfresh|Hused]; cbn [andb]; [|by split].
    destruct (Mongo.cast_results (Mongo.simulate inputs)) eqn:Hcast;
      [|by split].
    split; [|by intros [|[|]]].
    intros _ _ _. cbn [fst snd]. rewrite lookup_insert_eq. by eexists _, _.
  - rewrite bool_decide_false by done.
    unfold Mongo.post_scenarios. rewrite Hv.
    by rewrite bool_decide_true by done.
Qed.

Lemma form_saves_what_the_page_shows_witness :
  form_state form_abc
  ∧ ∃ results name doc,
      Mongo.post_simulate (Client.simulate_request form_abc)
        = Mongo.Json200Result results
      ∧ (Mongo.post_scenarios (env_up 1) ∅ (Client.save_request form_abc)).1
        = Mongo.Json200Saved 1%positive name
      ∧ (Mongo.post_scenarios (env_up 1) ∅ (Client.save_request form_abc)).2
          !! 1%positive = Some doc
      ∧ Mongo.doc_results doc = results.
Proof.
  assert (form_state form_abc) as Hs.
  { apply form_change; [in_list|apply form_initial]. }
  split; [exact Hs|].
  pose proof (form_saves_what_the_page_shows (env_up 1) ∅ form_abc Hs) as H.
  destruct (Mongo.post_simulate (Client.simulate_request form_abc))
    as [results| | | |errors| | |] eqn:Hsim;
    try (vm_compute in Hsim; discriminate Hsim).
  destruct H as [Hsaved _].
  destruct Hsaved as (name & doc & H1 & H2 & _ & H4);
    [reflexivity|reflexivity| |].
  { vm_compute in Hsim. injection Hsim as Hres. rewrite <-Hres.
    by vm_compute. }
  exists results, name, doc.
  split; [reflexivity|]. split; [exact H1|]. split; [exact H2|exact H4].
Defined.

